(** * Rapport journalier: the ingestion and roll-up pipeline of
    [core/processing.py], embedded in Rocq.

    Data frames are lists of rows, a row is a finite map from column
    labels to cells.  Python strings are lists of Unicode code points.
    The functions of the Python run time that the module calls
    ([unicodedata], [hashlib], [str.lower], [pd.to_datetime], the Excel
    decoder) are the methods of the class [PyRuntime]; a reference
    instance, with SHA-1 written out, is given for running the
    pipeline on concrete workbooks. *)

From Stdlib Require Import ZArith NArith List String Ascii Lia.
From stdpp Require Import base decidable option list numbers gmap sorting pretty.

Local Open Scope Z_scope.

(** ** Python strings *)

Abbreviation pystr := (list N).

(** An ASCII literal of the source, as code points. *)
Fixpoint py (s : string) : pystr :=
  match s with
  | EmptyString => []
  | String a s' => N_of_ascii a :: py s'
  end.

(** [s.replace(a, b)] for one-character [a] and [b]. *)
Definition str_replace (a b : N) (s : pystr) : pystr :=
  map (λ c, if decide (c = a) then b else c) s.

(** [sep.join(parts)] *)
Fixpoint str_join (sep : pystr) (parts : list pystr) : pystr :=
  match parts with
  | [] => []
  | [p] => p
  | p :: ps => p ++ sep ++ str_join sep ps
  end.

(** [s.startswith(p)] *)
Fixpoint startswith (p s : pystr) : bool :=
  match p, s with
  | [], _ => true
  | _ :: _, [] => false
  | a :: p', b :: s' => bool_decide (a = b) && startswith p' s'
  end.

(** [sub in s] *)
Fixpoint str_contains (sub s : pystr) : bool :=
  startswith sub s ||
  match s with
  | [] => false
  | _ :: s' => str_contains sub s'
  end.

(** [s == t] *)
Definition str_eqb (s t : pystr) : bool := bool_decide (s = t).

(** The order of [str]: lexicographic on code points. *)
Fixpoint str_leb (s t : pystr) : bool :=
  match s, t with
  | [], _ => true
  | _ :: _, [] => false
  | a :: s', b :: t' => (a <? b)%N || (bool_decide (a = b) && str_leb s' t')
  end.

Section Whitespace.
Variable isspace : N → bool.

(** [s.split()]: the maximal runs of non-blank characters. *)
Fixpoint str_split_aux (s : pystr) (cur : pystr) : list pystr :=
  match s with
  | [] => match cur with [] => [] | _ => [reverse cur] end
  | c :: s' =>
      if isspace c
      then match cur with
           | [] => str_split_aux s' []
           | _ => reverse cur :: str_split_aux s' []
           end
      else str_split_aux s' (c :: cur)
  end.
Definition str_split (s : pystr) : list pystr := str_split_aux s [].

Fixpoint str_lstrip (s : pystr) : pystr :=
  match s with
  | [] => []
  | c :: s' => if isspace c then str_lstrip s' else s
  end.
Definition str_rstrip (s : pystr) : pystr := reverse (str_lstrip (reverse s)).
(** [s.strip()] *)
Definition str_strip (s : pystr) : pystr := str_rstrip (str_lstrip s).
End Whitespace.


(** ** Cells, rows, frames *)

(** A normalised [pd.Timestamp]: its calendar day (days since the
    epoch) and its [str()]. *)
Record timestamp := Ts { ts_day : Z; ts_str : pystr }.

(** The scalars a cell of a sheet or of a frame holds.  [NaN] stands for
    every missing value (an empty cell, [None], [NaN], [NaT]); floats
    and timestamps carry their [str()]. *)
Inductive cell :=
| NaN
| Str (s : pystr)
| Bool (b : bool)
| Int (n : Z)
| Float (repr : pystr)
| Timestamp (t : timestamp).

#[global] Instance timestamp_eq_dec : EqDecision timestamp.
Proof. solve_decision. Defined.
#[global] Instance cell_eq_dec : EqDecision cell.
Proof. solve_decision. Defined.

(** [str(c)], which is also what [astype(str)] puts in place of [c]. *)
Definition str (c : cell) : pystr :=
  match c with
  | NaN => py "nan"
  | Str s => s
  | Bool true => py "True"
  | Bool false => py "False"
  | Int n => py (pretty n)
  | Float r => r
  | Timestamp t => ts_str t
  end.

(** [pd.notna(c)] *)
Definition notna (c : cell) : bool :=
  match c with NaN => false | _ => true end.

(** A row of a frame: column label to cell. *)
Abbreviation Row := (gmap pystr cell).
(** A frame: its rows, in index order. *)
Abbreviation Frame := (list (gmap pystr cell)).
(** What [xls.parse(name, header=None)] returns: the grid of cells. *)
Abbreviation RawFrame := (list (list cell)).
(** An opened workbook: sheet labels with their grids, in sheet order. *)
Abbreviation Workbook := (list (pystr * list (list cell))).

(** ** The Python run time *)

Class PyRuntime := {
  (** [c.isspace()], the blanks of [str.split()] and [str.strip()] *)
  isspace : N → bool;
  (** [s.lower()] and [s.upper()] *)
  lower : pystr → pystr;
  upper : pystr → pystr;
  (** [unicodedata.normalize("NFKD", s)] *)
  nfkd : pystr → pystr;
  (** [unicodedata.combining(c)] is not zero *)
  combining : N → bool;
  (** [pd.to_datetime(pd.to_datetime(c, errors="coerce").date())];
      [None] when that is [NaT] or raises *)
  to_datetime_date : cell → option timestamp;
  (** [hashlib.sha1(s.encode("utf-8")).hexdigest()] *)
  sha1_hexdigest : pystr → pystr;
  (** [pd.ExcelFile] on the bytes of a file; [None] when it raises *)
  excel_file : list N → option Workbook
}.

(** ** Text and column helpers *)

Section Normalizer.
Context `{PyRuntime}.

(** [strip_accents_spaces(s)] on a [str]; every call site of the module
    passes one ([str(c)], or an element of an [astype(str)] column). *)
Definition strip_accents_spaces (s : pystr) : pystr :=
  let s := str_replace 13 32 (str_replace 10 32 s) in
  let s := str_join (py " ") (str_split isspace s) in
  let nfkd_s := nfkd s in
  filter (λ c, combining c = false) nfkd_s.

(** One turn of the loop of [norm_cols].  The code points 176 and 233
    are the degree sign and the e with acute accent of the source's
    literals. *)
Definition norm_col (c : cell) : pystr :=
  let base := str_strip isspace (strip_accents_spaces (str c)) in
  let low := lower base in
  if startswith (py "champ / zone") low || str_eqb low (py "champ zone")
  then py "champ_zone"
  else if str_contains (py "plateforme") low
          || str_contains (py "platerforme") low
          || str_contains (py "plateforme/sous-zone") low
  then py "plateforme_sous_zone"
  else if startswith (py "n" ++ [176%N] ++ py " puits") low
          || str_contains (py "n puits") low
          || startswith (py "n" ++ [176%N] ++ py "puits") low
  then py "num_puits"
  else if str_contains (py "tag equipement") low
          || str_eqb low (py "tag")
          || str_contains (py "tag " ++ [233%N] ++ py "quipement") low
  then py "tag_equipement"
  else if str_contains (py "sous-equipement") low
          || str_contains (py "sous equipement") low
          || str_contains (py "sous- equipement") low
  then py "sous_equipement"
  else if str_eqb low (py "indisponible")
  then py "indisponible"
  else if str_eqb low (py "metier")
          || str_eqb low (py "m" ++ [233%N] ++ py "tier")
  then py "metier"
  else if str_contains (py "travail effectue") low
          && str_contains (py "commentaires") low
  then py "travaux_commentaires"
  else if startswith (py "termine") low
          || str_contains (py "termin" ++ [233%N]) low
  then py "termine"
  else if startswith (py "en cours") low
  then py "en_cours"
  else if startswith (py "report") low || startswith (py " reporte") low
  then py "reporte"
  else low.

Definition norm_cols (cols : list cell) : list pystr := map norm_col cols.

Definition truthy_tokens : list pystr :=
  [py "1"; py "true"; py "vrai"; py "oui"; py "yes"; py "y"; py "t"; py "x"].

(** [to_bool] on one cell of an object column:
    [str(c).strip().lower()] is one of the tokens. *)
Definition to_bool_cell (c : cell) : bool :=
  bool_decide (lower (str_strip isspace (str c)) ∈ truthy_tokens).

(** [to_bool(col)]; [dtype_bool] says whether [col.dtype == bool]. *)
Definition to_bool (dtype_bool : bool) (col : list cell) : list cell :=
  if dtype_bool then col else map (λ c, Bool (to_bool_cell c)) col.

(** [_strip_col(s)] *)
Definition _strip_col (s : list cell) : list pystr :=
  map (λ x, upper (strip_accents_spaces (str x))) s.

(** [row.get(c, dflt)] *)
Definition row_get (row : Row) (c : pystr) (dflt : cell) : cell :=
  default dflt (row !! c).

(** The string that [_action_key] hashes. *)
Definition payload (row : Row) : pystr :=
  let parts :=
    [ lower (strip_accents_spaces (str (row_get row (py "champ_zone") (Str []))));
      lower (strip_accents_spaces (str (row_get row (py "plateforme_sous_zone") (Str []))));
      lower (strip_accents_spaces (str (row_get row (py "num_puits") (Str []))));
      lower (strip_accents_spaces (str (row_get row (py "tag_equipement") (Str []))));
      lower (strip_accents_spaces (str (row_get row (py "sous_equipement") (Str []))));
      lower (strip_accents_spaces (str (row_get row (py "metier") (Str []))));
      lower (strip_accents_spaces (str (row_get row (py "travaux_commentaires") (Str [])))) ] in
  str_join (py "||") parts.

Definition _action_key (row : Row) : pystr := sha1_hexdigest (payload row).

End Normalizer.

(** ** Frame operations *)

(** The row a line of cells becomes under the labels [columns].  The
    labels of a sheet are taken to be pairwise distinct.  When two
    columns of a sheet get the same label, [df[c]] is a frame in pandas
    and the loop fails where it uses that column as a series
    ([col.dtype] in [to_bool], [.str] in [_strip_col]); the map keeps
    the first of the two columns instead.  So the model is that of the
    sheets that satisfy [distinct_labels] below, and a statement that
    says which exception a run raises assumes it. *)
Definition mk_row (columns : list pystr) (cells : list cell) : Row :=
  list_to_map (zip columns cells).

(** [df[c]] *)
Definition column (c : pystr) (df : Frame) : list cell :=
  map (λ r, default NaN (r !! c)) df.

(** [df[c] = col] *)
Definition assign (c : pystr) (col : list cell) (df : Frame) : Frame :=
  zip_with (λ r v, <[c := v]> r) df col.

(** [df[c] = v] for a scalar [v] *)
Definition assign_scalar (c : pystr) (v : cell) (df : Frame) : Frame :=
  map (λ r, <[c := v]> r) df.

(** [df[c] = df.apply(f, axis=1)] *)
Definition assign_apply (c : pystr) (f : Row → cell) (df : Frame) : Frame :=
  map (λ r, <[c := f r]> r) df.

(** [df[mask]] for the mask computed row by row. *)
Definition select_rows (mask : Row → bool) (df : Frame) : Frame :=
  filter (λ r, mask r = true) df.

(** [c in df.columns] *)
Definition has_column (c : pystr) (columns : list pystr) : bool :=
  bool_decide (c ∈ columns).

(** ** Exceptions and the trace of parsed sheets *)

Inductive exn :=
| ValueError (msg : pystr)
| IndexError
| ExcelError.

(** [xls.parse(sheet_name, ...)] was called. *)
Inductive event := Parse (sheet_name : pystr).

(** A computation: the sheets parsed so far, and an exception or a
    result. *)
Definition M (A : Type) : Type := list event * (exn + A).

#[global] Instance M_ret : MRet M := λ A a, ([], inr a).
#[global] Instance M_bind : MBind M := λ A B k m,
  match m with
  | (tr, inl e) => (tr, inl e)
  | (tr, inr a) => let '(tr', r) := k a in (tr ++ tr', r)
  end.
Definition raise {A} (e : exn) : M A := ([], inl e).
Definition tell (ev : event) : M unit := ([ev], inr tt).

(** The trace and the outcome of a computation. *)
Definition trace {A} (m : M A) : list event := fst m.
Definition outcome {A} (m : M A) : exn + A := snd m.

(** ** Error messages *)

(** The f-string of the range check. *)
Definition msg_invalid_range (start_sheet end_sheet total_sheets : Z) : pystr :=
  py "Plage de feuilles invalide (" ++ py (pretty start_sheet) ++ py "-"
  ++ py (pretty end_sheet) ++ py ") pour " ++ py (pretty total_sheets)
  ++ py " feuilles disponibles.".

Definition msg_no_usable_sheets : pystr :=
  py "No usable sheets in the selected range.".

(** 233 is the e with acute accent. *)
Definition msg_no_dates : pystr :=
  py "Aucune date trouv" ++ [233%N] ++ py "e dans les feuilles s"
  ++ [233%N] ++ py "lectionn" ++ [233%N]
  ++ py "es (colonne date_rapport vide).".

(** ** The sheet normaliser *)

Section Sheets.
Context `{PyRuntime}.

(** [_get_date_from_raw(df_raw)]: the cell at row 2, column 8, as a
    date; [NaN] (that is [NaT]) when the cell is absent or is no date. *)
Definition _get_date_from_raw (df_raw : RawFrame) : cell :=
  match df_raw !! 2%nat ≫= (λ row, row !! 8%nat) with
  | Some date_cell =>
      match to_datetime_date date_cell with
      | Some t => Timestamp t
      | None => NaN
      end
  | None => NaN
  end.

(** [_get_prevision_index(df)]; [None] is the [False] of the source. *)
Definition _get_prevision_index (columns : list pystr) (df : Frame) : option nat :=
  if negb (has_column (py "champ_zone") columns) then None
  else
    let mask := map (λ s, str_eqb s (py "PREVISION"))
                    (_strip_col (column (py "champ_zone") df)) in
    fst <$> list_find (λ b, b = true) mask.

Definition flag_columns : list pystr :=
  [py "termine"; py "en_cours"; py "reporte"; py "indisponible"].

Definition text_columns : list pystr :=
  [py "champ_zone"; py "plateforme_sous_zone"; py "num_puits";
   py "tag_equipement"; py "sous_equipement"; py "metier";
   py "travaux_commentaires"].

(** [astype(str).map(lambda x: "" if x == "nan" else x)
    .map(strip_accents_spaces)] on one cell. *)
Definition normalize_text (c : cell) : cell :=
  let x := str c in
  let x := if str_eqb x (py "nan") then [] else x in
  Str (strip_accents_spaces x).

(** Lines 157 to 159 of the loop: the frame is cut at the index that
    [_get_prevision_index] returns, when it returns one. *)
Definition cut_prevision (columns : list pystr) (df : Frame) : Frame :=
  let idx_prev := _get_prevision_index columns df in
  match idx_prev with
  | Some idx => take idx df
  | None => df
  end.

(** Lines 161 to 199 of the loop: the flags, the date and the sheet
    label, the text columns, the key, and the removal of the blank rows.
    The columns of a parsed sheet hold their header label, so they are
    object columns and [to_bool] takes its [astype(str)] branch. *)
Definition finish_sheet (sheet_name : pystr) (columns : list pystr)
    (dt_report : cell) (df : Frame) : Frame :=
  let df := foldl (λ df c,
                     if has_column c columns
                     then assign c (to_bool false (column c df)) df
                     else assign_scalar c (Bool false) df)
                  df flag_columns in
  let df := assign_scalar (py "date_rapport") dt_report df in
  let df := assign_scalar (py "feuille") (Str sheet_name) df in
  let df := foldl (λ df c,
                     if has_column c columns
                     then assign c (map normalize_text (column c df)) df
                     else df)
                  df text_columns in
  let df := assign_apply (py "action_key") (λ r, Str (_action_key r)) df in
  let useful := filter (λ c, has_column c columns = true) text_columns in
  let non_empty := λ r : Row,
    existsb (λ c, negb (str_eqb (str_strip isspace (str (row_get r c NaN))) []))
            useful in
  select_rows non_empty df.

(** [finish_sheet] before its last step, on one row: every column
    assignment of lines 161 to 186 works row by row. *)
Definition finish_row (sheet_name : pystr) (columns : list pystr)
    (dt_report : cell) (r : Row) : Row :=
  let r := foldl (λ (r : Row) c,
                    if has_column c columns
                    then <[c := Bool (to_bool_cell (default NaN (r !! c)))]> r
                    else <[c := Bool false]> r)
                 r flag_columns in
  let r := <[py "date_rapport" := dt_report]> r in
  let r := <[py "feuille" := Str sheet_name]> r in
  let r := foldl (λ (r : Row) c,
                    if has_column c columns
                    then <[c := normalize_text (default NaN (r !! c))]> r
                    else r)
                 r text_columns in
  <[py "action_key" := Str (_action_key r)]> r.

(** The body of the loop of [_clean_week_sheets_from_bytes] after
    [xls.parse]: the report date, and the cleaned frame, or [None] when
    the sheet is skipped ([continue]).  [IndexError] is what
    [df_raw.iloc[4]] raises on a sheet of fewer than five rows. *)
Definition clean_sheet (sheet_name : pystr) (df_raw : RawFrame)
  : exn + (cell * option Frame) :=
  let dt_report := _get_date_from_raw df_raw in
  match df_raw !! 4%nat with
  | None => inl IndexError
  | Some header =>
      let columns := norm_cols header in
      let df := map (mk_row columns) (drop 5 df_raw) in
      if negb (has_column (py "champ_zone") columns) then inr (dt_report, None)
      else
        let df := select_rows (λ r, notna (row_get r (py "champ_zone") NaN)) df in
        let df := cut_prevision columns df in
        inr (dt_report, Some (finish_sheet sheet_name columns dt_report df))
  end.

(** A line of cells is a forecast marker under the labels [columns]: its
    [champ_zone] is present and [_strip_col] maps it to "PREVISION". *)
Definition is_prevision_row (columns : list pystr) (cells : list cell) : Prop :=
  let zone := row_get (mk_row columns cells) (py "champ_zone") NaN in
  notna zone = true ∧ upper (strip_accents_spaces (str zone)) = py "PREVISION".

(** A row that went through [df["action_key"] = df.apply(_action_key,
    axis=1)] holds its own key. *)
Definition keyed (o : Row) : Prop :=
  o !! py "action_key" = Some (Str (_action_key o)).

(** Each descriptive column of a cleaned row is absent (its sheet has no
    such column) or holds a string. *)
Definition text_shaped (o : Row) : Prop :=
  ∀ c, c ∈ text_columns → o !! c = None ∨ ∃ s, o !! c = Some (Str s).

(** A row of a cleaned sheet holds its own key, and strings in its
    descriptive columns. *)
Definition cleaned_row : Row → Prop := λ o, keyed o ∧ text_shaped o.

(** [sheet_names[i]], with Python's negative indices. *)
Definition py_index {A} (l : list A) (i : Z) : option A :=
  if 0 <=? i then l !! Z.to_nat i
  else if 0 <=? Z.of_nat (length l) + i then l !! Z.to_nat (Z.of_nat (length l) + i)
  else None.

(** The grid of the first sheet of a given label. *)
Fixpoint sheet_by_name (xls : Workbook) (sheet_name : pystr) : option RawFrame :=
  match xls with
  | [] => None
  | (name, df_raw) :: xls' =>
      if decide (name = sheet_name) then Some df_raw
      else sheet_by_name xls' sheet_name
  end.

(** [xls.parse(sheet_name, header=None)] *)
Definition xls_parse (xls : Workbook) (sheet_name : pystr) : M RawFrame :=
  tell (Parse sheet_name);;
  match sheet_by_name xls sheet_name with
  | Some df_raw => mret df_raw
  | None => raise (ValueError (py "Worksheet not found"))
  end.

Definition lift_exn {A} (r : exn + A) : M A := ([], r).

(** The [for i in range(start_sheet - 1, end_sheet)] loop, with its
    two accumulators. *)
Fixpoint sheets_loop (xls : Workbook) (idxs : list Z)
    (final_dfs : list Frame) (dates : list cell) : M (list Frame * list cell) :=
  match idxs with
  | [] => mret (final_dfs, dates)
  | i :: idxs' =>
      sheet_name ← lift_exn (from_option inr (inl IndexError) (py_index (map fst xls) i));
      df_raw ← xls_parse xls sheet_name;
      r ← lift_exn (clean_sheet sheet_name df_raw);
      let dates := dates ++ [r.1] in
      match r.2 with
      | None => sheets_loop xls idxs' final_dfs dates
      | Some df => sheets_loop xls idxs' (final_dfs ++ [df]) dates
      end
  end.

(** [_clean_week_sheets_from_bytes] once the workbook is open. *)
Definition clean_week_sheets (xls : Workbook) (start_sheet end_sheet : Z)
  : M (list Frame * list cell) :=
  let sheet_names := map fst xls in
  let total_sheets := Z.of_nat (length sheet_names) in
  if (start_sheet <? 1) || (total_sheets <? end_sheet)
  then raise (ValueError (msg_invalid_range start_sheet end_sheet total_sheets))
  else sheets_loop xls (seqZ (start_sheet - 1) (end_sheet - (start_sheet - 1))) [] [].

End Sheets.

(** ** The daily table and the rolled table *)

(** A row of [daily] after [daily = daily[base_cols]]: the fourteen
    columns of [base_cols]. *)
Record DailyFact := mkDailyFact {
  action_key : pystr;
  date_rapport : option timestamp;
  champ_zone : cell;
  plateforme_sous_zone : cell;
  num_puits : cell;
  tag_equipement : cell;
  sous_equipement : cell;
  metier : cell;
  travaux_commentaires : cell;
  termine : bool;
  en_cours : bool;
  reporte : bool;
  indisponible : bool;
  feuille : cell
}.

(** A row of [rolled]: the daily columns and the six columns that
    [_rollup] adds. *)
Record RolledAction := mkRolledAction {
  fact : DailyFact;
  en_cours_ff : bool;
  reporte_ff : bool;
  termine_seen : bool;
  termine_final : bool;
  en_cours_final : bool;
  reporte_final : bool
}.

(** A row of [transitions]. *)
Record TransitionEvent := mkTransitionEvent {
  tr_action_key : pystr;
  tr_date_rapport : option timestamp;
  tr_termine : bool;
  tr_en_cours : bool;
  tr_reporte : bool;
  change_desc : pystr
}.

(** A row of [latest]. *)
Record LatestAction := mkLatestAction {
  la_action_key : pystr;
  la_date_rapport : option timestamp;
  la_champ_zone : cell;
  la_plateforme_sous_zone : cell;
  la_num_puits : cell;
  la_tag_equipement : cell;
  la_sous_equipement : cell;
  la_metier : cell;
  la_travaux_commentaires : cell;
  la_termine : bool;
  la_en_cours : bool;
  la_reporte : bool
}.

(** The dictionary that [build_week_tables_from_excel_bytes] returns. *)
Record Tables := mkTables {
  actions_daily : list DailyFact;
  actions_consistent : list DailyFact;
  actions_latest : list LatestAction;
  ended_actions : list LatestAction;
  running_actions : list LatestAction;
  postponed_actions : list LatestAction;
  equipment_downtime : list DailyFact;
  transitions : list TransitionEvent
}.

#[global] Instance DailyFact_inhabited : Inhabited DailyFact :=
  populate (mkDailyFact [] None NaN NaN NaN NaN NaN NaN NaN
              false false false false NaN).
#[global] Instance DailyFact_eq_dec : EqDecision DailyFact.
Proof. solve_decision. Defined.
#[global] Instance LatestAction_eq_dec : EqDecision LatestAction.
Proof. solve_decision. Defined.

(** The typed value of a flag cell and of a date cell. *)
Definition as_bool (c : cell) : bool :=
  match c with Bool b => b | _ => false end.
Definition as_date (c : cell) : option timestamp :=
  match c with Timestamp t => Some t | _ => None end.

(** [daily[base_cols]] on one row of the concatenated frames, after the
    loop that adds the missing columns: a missing flag is [False], any
    other missing column is [NaN]. *)
Definition base_cols_row (r : Row) : DailyFact :=
  {| action_key := str (row_get r (py "action_key") NaN);
     date_rapport := as_date (row_get r (py "date_rapport") NaN);
     champ_zone := row_get r (py "champ_zone") NaN;
     plateforme_sous_zone := row_get r (py "plateforme_sous_zone") NaN;
     num_puits := row_get r (py "num_puits") NaN;
     tag_equipement := row_get r (py "tag_equipement") NaN;
     sous_equipement := row_get r (py "sous_equipement") NaN;
     metier := row_get r (py "metier") NaN;
     travaux_commentaires := row_get r (py "travaux_commentaires") NaN;
     termine := as_bool (row_get r (py "termine") (Bool false));
     en_cours := as_bool (row_get r (py "en_cours") (Bool false));
     reporte := as_bool (row_get r (py "reporte") (Bool false));
     indisponible := as_bool (row_get r (py "indisponible") (Bool false));
     feuille := row_get r (py "feuille") NaN |}.

(** *** Sorting and grouping *)

(** Dates in ascending order, [NaT] last. *)
Definition date_leb (a b : option timestamp) : bool :=
  match a, b with
  | _, None => true
  | None, Some _ => false
  | Some x, Some y => ts_day x <=? ts_day y
  end.

(** [sort_values] with a stable sort: rows that compare equal keep their
    order.  [insert_by] puts a row before the first row that is not
    smaller.  This is the sort of [sort_values] on two columns.  On one
    column pandas sorts with its default quicksort, which may reorder
    the rows that compare equal: [_rollup] and [_transitions] below use
    the stable sort there as well, and what is stated of them does not
    depend on the order of the rows of equal date; [_rollup_by] and
    [_transitions_by] take the sort of one column as a parameter. *)
Fixpoint insert_by {A} (R : relation A) `{∀ x y, Decision (R x y)}
    (x : A) (l : list A) : list A :=
  match l with
  | [] => [x]
  | y :: l' => if decide (R x y) then x :: l else y :: insert_by R x l'
  end.
Definition sort_values {A} (R : relation A) `{∀ x y, Decision (R x y)}
    (l : list A) : list A :=
  foldr (insert_by R) [] l.

Section Frames.
Context {A : Type} (key : A → pystr) (date : A → option timestamp).

(** The order of [sort_values("date_rapport")]. *)
Definition by_date : relation A :=
  λ r1 r2, Is_true (date_leb (date r1) (date r2)).

(** The order of [sort_values(["action_key", "date_rapport"])]. *)
Definition by_key_date : relation A :=
  λ r1 r2, Is_true (if bool_decide (key r1 = key r2)
                    then date_leb (date r1) (date r2)
                    else str_leb (key r1) (key r2)).

(** The keys of [groupby("action_key")], in its sorted order. *)
Definition group_keys (df : list A) : list pystr :=
  sort_values (λ a b : pystr, Is_true (str_leb a b)) (remove_dups (map key df)).

(** The rows of one group, in the order of the frame. *)
Definition group (k : pystr) (df : list A) : list A :=
  filter (λ r, key r = k) df.

(** [df.groupby("action_key", group_keys=False).apply(f)]: the results
    of the groups, one after the other in key order. *)
Definition groupby_apply {B} (f : list A → list B) (df : list A) : list B :=
  k ← group_keys df; f (group k df).

End Frames.

(** *** Column operations *)

(** [astype("boolean")]: a nullable boolean column. *)
Definition astype_boolean (col : list bool) : list (option bool) :=
  map Some col.

(** [fillna(v)] *)
Definition fillna (v : bool) (col : list (option bool)) : list bool :=
  map (default v) col.

(** [ffill()] *)
Fixpoint ffill_from (last : option bool) (col : list (option bool))
  : list (option bool) :=
  match col with
  | [] => []
  | v :: col' =>
      let cur := match v with Some _ => v | None => last end in
      cur :: ffill_from cur col'
  end.
Definition ffill (col : list (option bool)) : list (option bool) :=
  ffill_from None col.

(** [cummax()] on a boolean column. *)
Fixpoint cummax_from (acc : bool) (col : list bool) : list bool :=
  match col with
  | [] => []
  | b :: col' => let m := acc || b in m :: cummax_from m col'
  end.
Definition cummax (col : list bool) : list bool :=
  match col with
  | [] => []
  | b :: col' => b :: cummax_from b col'
  end.

(** [shift(1)] *)
Definition shift1 (col : list (option bool)) : list (option bool) :=
  take (length col) (None :: col).

(** [np.where(cond, v, col)] for a scalar [v]. *)
Definition np_where (cond : list bool) (v : bool) (col : list bool) : list bool :=
  zip_with (λ c x : bool, if c then v else x) cond col.

(** [a != b] on two columns. *)
Definition col_ne (a b : list bool) : list bool := zip_with xorb a b.

(** *** The roll-up *)

(** The daily row with its three status flags replaced. *)
Definition with_flags (r : DailyFact) (t e p : bool) : DailyFact :=
  {| action_key := action_key r;
     date_rapport := date_rapport r;
     champ_zone := champ_zone r;
     plateforme_sous_zone := plateforme_sous_zone r;
     num_puits := num_puits r;
     tag_equipement := tag_equipement r;
     sous_equipement := sous_equipement r;
     metier := metier r;
     travaux_commentaires := travaux_commentaires r;
     termine := t;
     en_cours := e;
     reporte := p;
     indisponible := indisponible r;
     feuille := feuille r |}.

(** [_rollup(group)], column by column as in the source; the last step
    puts the columns back into rows.  The three flag columns are
    present in every group, so the branch that sets a missing one to
    [False] is not taken. *)
Definition _rollup (group : list DailyFact) : list RolledAction :=
  let g := sort_values (by_date date_rapport) group in
  let c_termine := fillna false (astype_boolean (map termine g)) in
  let c_en_cours := fillna false (astype_boolean (map en_cours g)) in
  let c_reporte := fillna false (astype_boolean (map reporte g)) in
  let c_en_cours_ff := fillna false (ffill (astype_boolean c_en_cours)) in
  let c_reporte_ff := fillna false (ffill (astype_boolean c_reporte)) in
  let c_termine_seen := cummax (fillna false (astype_boolean c_termine)) in
  let c_termine_final := c_termine_seen in
  let c_en_cours_final := np_where c_termine_final false c_en_cours_ff in
  let c_reporte_final := np_where c_termine_final false c_reporte_ff in
  imap (λ i r,
          {| fact := with_flags r (c_termine !!! i) (c_en_cours !!! i) (c_reporte !!! i);
             en_cours_ff := c_en_cours_ff !!! i;
             reporte_ff := c_reporte_ff !!! i;
             termine_seen := c_termine_seen !!! i;
             termine_final := c_termine_final !!! i;
             en_cours_final := c_en_cours_final !!! i;
             reporte_final := c_reporte_final !!! i |}) g.

(** *** The transitions *)

(** A row of the frame [g] inside [_transitions]. *)
Record DiffRow := mkDiffRow {
  d_action_key : pystr;
  d_date_rapport : option timestamp;
  d_termine_final : bool;
  d_en_cours_final : bool;
  d_reporte_final : bool;
  termine_final_prev : bool;
  termine_final_changed : bool;
  en_cours_final_prev : bool;
  en_cours_final_changed : bool;
  reporte_final_prev : bool;
  reporte_final_changed : bool
}.

(** The f-string [f"{name}: {bool(prev)} -> {bool(cur)}"]. *)
Definition flip_msg (name : pystr) (prev cur : bool) : pystr :=
  name ++ py ": " ++ str (Bool prev) ++ py " -> " ++ str (Bool cur).

(** [_desc(row)] *)
Definition _desc (row : DiffRow) : pystr :=
  let msgs := [] in
  let msgs := if termine_final_changed row
              then msgs ++ [flip_msg (py "termine") (termine_final_prev row) (d_termine_final row)]
              else msgs in
  let msgs := if en_cours_final_changed row
              then msgs ++ [flip_msg (py "en_cours") (en_cours_final_prev row) (d_en_cours_final row)]
              else msgs in
  let msgs := if reporte_final_changed row
              then msgs ++ [flip_msg (py "reporte") (reporte_final_prev row) (d_reporte_final row)]
              else msgs in
  str_join (py "; ") msgs.

(** The frame [g] of [_transitions(sub)] with its [_prev] and
    [_changed] columns. *)
Definition diff_rows (sub : list RolledAction) : list DiffRow :=
  let g := sort_values (by_date (λ r, date_rapport (fact r))) sub in
  let c_termine_final := fillna false (astype_boolean (map termine_final g)) in
  let c_en_cours_final := fillna false (astype_boolean (map en_cours_final g)) in
  let c_reporte_final := fillna false (astype_boolean (map reporte_final g)) in
  let prev_of := λ col, fillna false (shift1 (astype_boolean col)) in
  let c_termine_prev := prev_of c_termine_final in
  let c_termine_changed := col_ne c_termine_final c_termine_prev in
  let c_en_cours_prev := prev_of c_en_cours_final in
  let c_en_cours_changed := col_ne c_en_cours_final c_en_cours_prev in
  let c_reporte_prev := prev_of c_reporte_final in
  let c_reporte_changed := col_ne c_reporte_final c_reporte_prev in
  imap (λ i r,
          {| d_action_key := action_key (fact r);
             d_date_rapport := date_rapport (fact r);
             d_termine_final := c_termine_final !!! i;
             d_en_cours_final := c_en_cours_final !!! i;
             d_reporte_final := c_reporte_final !!! i;
             termine_final_prev := c_termine_prev !!! i;
             termine_final_changed := c_termine_changed !!! i;
             en_cours_final_prev := c_en_cours_prev !!! i;
             en_cours_final_changed := c_en_cours_changed !!! i;
             reporte_final_prev := c_reporte_prev !!! i;
             reporte_final_changed := c_reporte_changed !!! i |}) g.

(** The same frame, computed in one pass over the rows in date order,
    carrying the final flags of the previous row. *)
Fixpoint diff_from (pt pe pr : bool) (g : list RolledAction) : list DiffRow :=
  match g with
  | [] => []
  | x :: g' =>
      {| d_action_key := action_key (fact x);
         d_date_rapport := date_rapport (fact x);
         d_termine_final := termine_final x;
         d_en_cours_final := en_cours_final x;
         d_reporte_final := reporte_final x;
         termine_final_prev := pt;
         termine_final_changed := xorb (termine_final x) pt;
         en_cours_final_prev := pe;
         en_cours_final_changed := xorb (en_cours_final x) pe;
         reporte_final_prev := pr;
         reporte_final_changed := xorb (reporte_final x) pr |}
      :: diff_from (termine_final x) (en_cours_final x) (reporte_final x) g'
  end.

(** The row of [transitions] that a changed row of [g] becomes. *)
Definition event_of (row : DiffRow) : TransitionEvent :=
  {| tr_action_key := d_action_key row;
     tr_date_rapport := d_date_rapport row;
     tr_termine := d_termine_final row;
     tr_en_cours := d_en_cours_final row;
     tr_reporte := d_reporte_final row;
     change_desc := _desc row |}.

(** [g["termine_final_changed"] | g["en_cours_final_changed"]
    | g["reporte_final_changed"]] on one row. *)
Definition any_changed (row : DiffRow) : bool :=
  termine_final_changed row || en_cours_final_changed row
  || reporte_final_changed row.

(** [_transitions(sub)]: the changed rows, renamed, with their
    description; no row when nothing changed. *)
Definition _transitions (sub : list RolledAction) : list TransitionEvent :=
  let g := diff_rows sub in
  let changed := filter (λ row, any_changed row = true) g in
  map event_of changed.

(** *** The views *)

(** [tail(1)] of a group. *)
Definition tail1 {A} (l : list A) : list A := drop (length l - 1) l.

(** The twelve columns of [latest], the final flags renamed. *)
Definition latest_row (r : RolledAction) : LatestAction :=
  {| la_action_key := action_key (fact r);
     la_date_rapport := date_rapport (fact r);
     la_champ_zone := champ_zone (fact r);
     la_plateforme_sous_zone := plateforme_sous_zone (fact r);
     la_num_puits := num_puits (fact r);
     la_tag_equipement := tag_equipement (fact r);
     la_sous_equipement := sous_equipement (fact r);
     la_metier := metier (fact r);
     la_travaux_commentaires := travaux_commentaires (fact r);
     la_termine := termine_final r;
     la_en_cours := en_cours_final r;
     la_reporte := reporte_final r |}.

(** A row of [actions_consistent]: the raw flags dropped, the final
    flags renamed in their place. *)
Definition consistent_row (r : RolledAction) : DailyFact :=
  with_flags (fact r) (termine_final r) (en_cours_final r) (reporte_final r).

(** [build_week_tables_from_excel_bytes] from the daily table on. *)
Definition tables_of_daily (daily : list DailyFact) : Tables :=
  let daily_sorted := sort_values (by_key_date action_key date_rapport) daily in
  let rkey := λ r, action_key (fact r) in
  let rdate := λ r, date_rapport (fact r) in
  let rolled := groupby_apply action_key _rollup daily_sorted in
  let transitions := groupby_apply rkey _transitions rolled in
  let last_rows :=
    groupby_apply rkey tail1 (sort_values (by_key_date rkey rdate) rolled) in
  let latest := map latest_row last_rows in
  let ended_actions := filter (λ r, la_termine r = true) latest in
  let running_actions :=
    filter (λ r, negb (la_termine r) && la_en_cours r = true) latest in
  let postponed_actions :=
    filter (λ r, negb (la_termine r) && la_reporte r = true) latest in
  let equipment_downtime := filter (λ r, indisponible r = true) daily in
  let actions_consistent := map consistent_row rolled in
  {| actions_daily := daily;
     actions_consistent := actions_consistent;
     actions_latest := latest;
     ended_actions := ended_actions;
     running_actions := running_actions;
     postponed_actions := postponed_actions;
     equipment_downtime := equipment_downtime;
     transitions := transitions |}.

(** *** The sort of one column

    [sort_values("date_rapport")] inside [_rollup] and [_transitions]
    is pandas' default sort of one column, which is not stable: the
    source fixes the result up to the order of the rows of equal date
    only.  A [date_sort] is any such sort; the pipeline is written
    again with the sort as a parameter, the definitions above being the
    instance at the stable sort. *)

Definition date_sort : Type :=
  ∀ A : Type, (A → option timestamp) → list A → list A.

(** The sort returns the rows it was given, in ascending date order. *)
Definition sorts_by_date (srt : date_sort) : Prop :=
  ∀ (A : Type) (date : A → option timestamp) (l : list A),
    srt A date l ≡ₚ l ∧ StronglySorted (by_date date) (srt A date l).

Definition stable_sort : date_sort := λ A date, sort_values (by_date date).

(** A sort that returns the rows of equal date in reverse order. *)
Definition reversing_sort : date_sort :=
  λ A date l, sort_values (by_date date) (reverse l).

(** [_rollup(group)] *)
Definition _rollup_by (srt : date_sort) (group : list DailyFact)
  : list RolledAction :=
  let g := srt _ date_rapport group in
  let c_termine := fillna false (astype_boolean (map termine g)) in
  let c_en_cours := fillna false (astype_boolean (map en_cours g)) in
  let c_reporte := fillna false (astype_boolean (map reporte g)) in
  let c_en_cours_ff := fillna false (ffill (astype_boolean c_en_cours)) in
  let c_reporte_ff := fillna false (ffill (astype_boolean c_reporte)) in
  let c_termine_seen := cummax (fillna false (astype_boolean c_termine)) in
  let c_termine_final := c_termine_seen in
  let c_en_cours_final := np_where c_termine_final false c_en_cours_ff in
  let c_reporte_final := np_where c_termine_final false c_reporte_ff in
  imap (λ i r,
          {| fact := with_flags r (c_termine !!! i) (c_en_cours !!! i) (c_reporte !!! i);
             en_cours_ff := c_en_cours_ff !!! i;
             reporte_ff := c_reporte_ff !!! i;
             termine_seen := c_termine_seen !!! i;
             termine_final := c_termine_final !!! i;
             en_cours_final := c_en_cours_final !!! i;
             reporte_final := c_reporte_final !!! i |}) g.

(** The frame [g] of [_transitions(sub)] *)
Definition diff_rows_by (srt : date_sort) (sub : list RolledAction)
  : list DiffRow :=
  let g := srt _ (λ r, date_rapport (fact r)) sub in
  let c_termine_final := fillna false (astype_boolean (map termine_final g)) in
  let c_en_cours_final := fillna false (astype_boolean (map en_cours_final g)) in
  let c_reporte_final := fillna false (astype_boolean (map reporte_final g)) in
  let prev_of := λ col, fillna false (shift1 (astype_boolean col)) in
  let c_termine_prev := prev_of c_termine_final in
  let c_termine_changed := col_ne c_termine_final c_termine_prev in
  let c_en_cours_prev := prev_of c_en_cours_final in
  let c_en_cours_changed := col_ne c_en_cours_final c_en_cours_prev in
  let c_reporte_prev := prev_of c_reporte_final in
  let c_reporte_changed := col_ne c_reporte_final c_reporte_prev in
  imap (λ i r,
          {| d_action_key := action_key (fact r);
             d_date_rapport := date_rapport (fact r);
             d_termine_final := c_termine_final !!! i;
             d_en_cours_final := c_en_cours_final !!! i;
             d_reporte_final := c_reporte_final !!! i;
             termine_final_prev := c_termine_prev !!! i;
             termine_final_changed := c_termine_changed !!! i;
             en_cours_final_prev := c_en_cours_prev !!! i;
             en_cours_final_changed := c_en_cours_changed !!! i;
             reporte_final_prev := c_reporte_prev !!! i;
             reporte_final_changed := c_reporte_changed !!! i |}) g.

(** [_transitions(sub)] *)
Definition _transitions_by (srt : date_sort) (sub : list RolledAction)
  : list TransitionEvent :=
  let g := diff_rows_by srt sub in
  let changed := filter (λ row, any_changed row = true) g in
  map event_of changed.

(** [build_week_tables_from_excel_bytes] from the daily table on.  The
    two sorts on [["action_key", "date_rapport"]] are stable in pandas
    as well. *)
Definition tables_of_daily_by (srt : date_sort) (daily : list DailyFact) : Tables :=
  let daily_sorted := sort_values (by_key_date action_key date_rapport) daily in
  let rkey := λ r, action_key (fact r) in
  let rdate := λ r, date_rapport (fact r) in
  let rolled := groupby_apply action_key (_rollup_by srt) daily_sorted in
  let transitions := groupby_apply rkey (_transitions_by srt) rolled in
  let last_rows :=
    groupby_apply rkey tail1 (sort_values (by_key_date rkey rdate) rolled) in
  let latest := map latest_row last_rows in
  let ended_actions := filter (λ r, la_termine r = true) latest in
  let running_actions :=
    filter (λ r, negb (la_termine r) && la_en_cours r = true) latest in
  let postponed_actions :=
    filter (λ r, negb (la_termine r) && la_reporte r = true) latest in
  let equipment_downtime := filter (λ r, indisponible r = true) daily in
  let actions_consistent := map consistent_row rolled in
  {| actions_daily := daily;
     actions_consistent := actions_consistent;
     actions_latest := latest;
     ended_actions := ended_actions;
     running_actions := running_actions;
     postponed_actions := postponed_actions;
     equipment_downtime := equipment_downtime;
     transitions := transitions |}.

(** The calendar day of a date; two dates compare equal in the order of
    [sort_values] when they have the same day or are both [NaT]. *)
Definition day_of (d : option timestamp) : option Z := ts_day <$> d.

(** No action has two rows of the same day in the daily table. *)
Definition one_row_a_day (daily : list DailyFact) : Prop :=
  NoDup (map (λ r, (action_key r, day_of (date_rapport r))) daily).

(** *** Vocabulary of the properties *)

(** A boolean column that never goes from true to false. *)
Definition non_decreasing (col : list bool) : Prop :=
  ∀ i j, (i ≤ j)%nat → (j < length col)%nat →
         col !! i = Some true → col !! j = Some true.

(** The first date is strictly before the second in the order of
    [sort_values]; [NaT] comes after every date. *)
Definition earlier (a b : option timestamp) : Prop := date_leb b a = false.

(** The three raw status flags are the same on all the rows. *)
Definition flags_never_change (rows : list DailyFact) : Prop :=
  ∀ r1 r2, r1 ∈ rows → r2 ∈ rows →
           termine r1 = termine r2 ∧ en_cours r1 = en_cours r2
           ∧ reporte r1 = reporte r2.

(** The rows of [actions_consistent] of one action. *)
Definition timeline (t : Tables) (k : pystr) : list DailyFact :=
  filter (λ r, action_key r = k) (actions_consistent t).

(** The rows of [transitions] of one action. *)
Definition events (t : Tables) (k : pystr) : list TransitionEvent :=
  filter (λ e, tr_action_key e = k) (transitions t).

(** The seven descriptive columns of a row of the daily table. *)
Definition descriptive_fields (r : DailyFact) : list cell :=
  [champ_zone r; plateforme_sous_zone r; num_puits r; tag_equipement r;
   sous_equipement r; metier r; travaux_commentaires r].

(** ** The entry points, with the temporary file *)

(** The files of the machine: path to content. *)
Abbreviation FileSystem := (gmap pystr (list N)).

Section Pipeline.
Context `{PyRuntime}.

(** [_clean_week_sheets_from_bytes]: the bytes go to a temporary file
    of path [tmp_path], the workbook is opened from it, and the file is
    removed on every exit. *)
Definition _clean_week_sheets_from_bytes (fs : FileSystem) (tmp_path : pystr)
    (file_bytes : list N) (start_sheet end_sheet : Z)
  : FileSystem * M (list Frame * list cell) :=
  let fs := <[tmp_path := file_bytes]> fs in
  let r := match fs !! tmp_path ≫= excel_file with
           | Some xls => clean_week_sheets xls start_sheet end_sheet
           | None => raise ExcelError
           end in
  (delete tmp_path fs, r).

(** The part of [build_week_tables_from_excel_bytes] between the
    cleaning of the sheets and the roll-up. *)
Definition daily_of_frames (daily_frames : list Frame) : M (list DailyFact) :=
  if bool_decide (daily_frames = []) then raise (ValueError msg_no_usable_sheets)
  else
    let daily := map base_cols_row (concat daily_frames) in
    if forallb (λ r, bool_decide (date_rapport r = None)) daily
    then raise (ValueError msg_no_dates)
    else mret daily.

Definition build_week_tables_from_excel_bytes (fs : FileSystem) (tmp_path : pystr)
    (file_bytes : list N) (start_sheet end_sheet : Z)
  : FileSystem * M Tables :=
  let '(fs, r) :=
    _clean_week_sheets_from_bytes fs tmp_path file_bytes start_sheet end_sheet in
  (fs, frames ← r;
       daily ← daily_of_frames frames.1;
       mret (tables_of_daily daily)).

End Pipeline.

(** ** The loop over the sheets, sheet by sheet *)

(** The sheets of positions [start_sheet] to [end_sheet] of the
    workbook: those that [range(start_sheet - 1, end_sheet)] visits. *)
Definition sheet_range (xls : Workbook) (start_sheet end_sheet : Z) : Workbook :=
  take (Z.to_nat (end_sheet - (start_sheet - 1)))
       (drop (Z.to_nat (start_sheet - 1)) xls).

Section Visit.
Context `{PyRuntime}.

(** The loop of [_clean_week_sheets_from_bytes] as a pass over the
    sheets themselves; it is [sheets_loop] on the positions of these
    sheets when the labels of the workbook are distinct, as those of an
    Excel file are. *)
Fixpoint visit_sheets (sheets : Workbook) (final_dfs : list Frame)
    (dates : list cell) : M (list Frame * list cell) :=
  match sheets with
  | [] => mret (final_dfs, dates)
  | (sheet_name, df_raw) :: sheets' =>
      tell (Parse sheet_name);;
      r ← lift_exn (clean_sheet sheet_name df_raw);
      match r.2 with
      | None => visit_sheets sheets' final_dfs (dates ++ [r.1])
      | Some df => visit_sheets sheets' (final_dfs ++ [df]) (dates ++ [r.1])
      end
  end.

(** The header of a grid has the column [c]. *)
Definition sheet_has_column (c : pystr) (df_raw : RawFrame) : bool :=
  match df_raw !! 4%nat with
  | Some header => has_column c (norm_cols header)
  | None => false
  end.

(** The columns of a grid get pairwise distinct labels from
    [norm_cols]. *)
Definition distinct_labels (df_raw : RawFrame) : Prop :=
  match df_raw !! 4%nat with
  | Some header => NoDup (norm_cols header)
  | None => True
  end.

#[global] Instance distinct_labels_dec df_raw : Decision (distinct_labels df_raw).
Proof. unfold distinct_labels. destruct (df_raw !! 4%nat); apply _. Defined.

End Visit.

(** ** The date filters (core/filters.py)

    A [datetime.date] and a normalised [pd.Timestamp] are both a
    calendar day, held as its day number.  The dictionary of tables is
    the one that [build_week_tables_from_excel_bytes] returns: its
    eight tables are present and each has a [date_rapport] column. *)

(** [date_bounds_from_tables(tables)]; [today] is [dt.date.today()]. *)
Definition date_bounds_from_tables (today : Z) (tables : Tables) : Z * Z :=
  let df := actions_daily tables in
  if bool_decide (df = []) then (today, today)
  else
    let dates := omap (λ r, ts_day <$> date_rapport r) df in
    match dates with
    | [] => (today, today)
    | d :: ds => (foldr Z.min d ds, foldr Z.max d ds)
    end.

(** [clamp_date(value, lo, hi)] *)
Definition clamp_date (value lo hi : Z) : Z :=
  if value <? lo then lo
  else if hi <? value then hi
  else value.

(** [(dcol >= dmin) & (dcol <= dmax)] on one date; a comparison with
    [NaT] is false. *)
Definition in_window (dmin dmax : Z) (d : option timestamp) : bool :=
  match d with
  | Some t => (dmin <=? ts_day t) && (ts_day t <=? dmax)
  | None => false
  end.

(** [filter_tables_by_dates(tables, dmin, dmax)] *)
Definition filter_tables_by_dates (tables : Tables) (dmin dmax : Z) : Tables :=
  {| actions_daily :=
       filter (λ r, in_window dmin dmax (date_rapport r) = true) (actions_daily tables);
     actions_consistent :=
       filter (λ r, in_window dmin dmax (date_rapport r) = true)
              (actions_consistent tables);
     actions_latest :=
       filter (λ r, in_window dmin dmax (la_date_rapport r) = true)
              (actions_latest tables);
     ended_actions :=
       filter (λ r, in_window dmin dmax (la_date_rapport r) = true)
              (ended_actions tables);
     running_actions :=
       filter (λ r, in_window dmin dmax (la_date_rapport r) = true)
              (running_actions tables);
     postponed_actions :=
       filter (λ r, in_window dmin dmax (la_date_rapport r) = true)
              (postponed_actions tables);
     equipment_downtime :=
       filter (λ r, in_window dmin dmax (date_rapport r) = true)
              (equipment_downtime tables);
     transitions :=
       filter (λ r, in_window dmin dmax (tr_date_rapport r) = true)
              (transitions tables) |}.

(** [recount(filtered_tables)]: the tables in the order of the
    dictionary, with their number of rows. *)
Definition recount (filtered_tables : Tables) : list (pystr * nat) :=
  [ (py "actions_daily", length (actions_daily filtered_tables));
    (py "actions_consistent", length (actions_consistent filtered_tables));
    (py "actions_latest", length (actions_latest filtered_tables));
    (py "ended_actions", length (ended_actions filtered_tables));
    (py "running_actions", length (running_actions filtered_tables));
    (py "postponed_actions", length (postponed_actions filtered_tables));
    (py "equipment_downtime", length (equipment_downtime filtered_tables));
    (py "transitions", length (transitions filtered_tables)) ].

(** The fields of [st.session_state] that the functions below read or
    write. *)
Record Session := mkSession {
  tables_full : option Tables;
  tables_view : option Tables;
  counts_view : option (list (pystr * nat));
  last_run_file_hash : option pystr;
  last_run_start_sheet : option Z;
  last_run_end_sheet : option Z;
  filter_dmin : option Z;
  filter_dmax : option Z
}.

(** [normalize_date_filters(ss, tables)]: the session after the call,
    and the four values returned. *)
Definition normalize_date_filters (today : Z) (ss : Session) (tables : Tables)
  : Session * (Z * Z * Z * Z) :=
  let '(lo, hi) := date_bounds_from_tables today tables in
  let dmin := match filter_dmin ss with None => lo | Some d => d end in
  let dmax := match filter_dmax ss with None => hi | Some d => d end in
  let dmin := clamp_date dmin lo hi in
  let dmax := clamp_date dmax lo hi in
  let '(dmin, dmax) := if dmax <? dmin then (dmax, dmin) else (dmin, dmax) in
  ({| tables_full := tables_full ss;
      tables_view := tables_view ss;
      counts_view := counts_view ss;
      last_run_file_hash := last_run_file_hash ss;
      last_run_start_sheet := last_run_start_sheet ss;
      last_run_end_sheet := last_run_end_sheet ss;
      filter_dmin := Some dmin;
      filter_dmax := Some dmax |},
   (lo, hi, dmin, dmax)).

Section Application.
Context `{PyRuntime}.
(** [hashlib.sha1] on bytes, as a hexadecimal digest. *)
Variable sha1 : list N → pystr.

(** [excel_sheet_names_from_bytes(file_bytes)] of core/processing.py:
    the temporary file is written, opened and removed as in
    [_clean_week_sheets_from_bytes]. *)
Definition excel_sheet_names_from_bytes (fs : FileSystem) (tmp_path : pystr)
    (file_bytes : list N) : FileSystem * (exn + list pystr) :=
  let fs := <[tmp_path := file_bytes]> fs in
  let r := match fs !! tmp_path ≫= excel_file with
           | Some xls => inr (map fst xls)
           | None => inl ExcelError
           end in
  (delete tmp_path fs, r).

(** [sha1_bytes(b)] of core/processing.py *)
Definition sha1_bytes (b : option (list N)) : option pystr :=
  match b with
  | None => None
  | Some b => Some (sha1 b)
  end.

(** [run_pipeline_excel_only(file_bytes, start_sheet, end_sheet)] of
    app.py: the file system and the session after the call; an
    exception of the build leaves the session as it was. *)
Definition run_pipeline_excel_only (today : Z) (fs : FileSystem) (tmp_path : pystr)
    (ss : Session) (file_bytes : list N) (start_sheet end_sheet : Z)
  : FileSystem * Session * M unit :=
  let '(fs, r) :=
    build_week_tables_from_excel_bytes fs tmp_path file_bytes start_sheet end_sheet in
  match outcome r with
  | inl e => (fs, ss, (trace r, inl e))
  | inr tables =>
      let ss := {| tables_full := Some tables;
                   tables_view := tables_view ss;
                   counts_view := counts_view ss;
                   last_run_file_hash := sha1_bytes (Some file_bytes);
                   last_run_start_sheet := Some start_sheet;
                   last_run_end_sheet := Some end_sheet;
                   filter_dmin := filter_dmin ss;
                   filter_dmax := filter_dmax ss |} in
      let '(ss, (lo, hi, fmin, fmax)) := normalize_date_filters today ss tables in
      let view := filter_tables_by_dates tables fmin fmax in
      (fs,
       {| tables_full := tables_full ss;
          tables_view := Some view;
          counts_view := Some (recount view);
          last_run_file_hash := last_run_file_hash ss;
          last_run_start_sheet := last_run_start_sheet ss;
          last_run_end_sheet := last_run_end_sheet ss;
          filter_dmin := filter_dmin ss;
          filter_dmax := filter_dmax ss |},
       (trace r, inr tt))
  end.

(** [needs_update(file_bytes, start_sheet, end_sheet)] of app.py *)
Definition needs_update (ss : Session) (file_bytes : option (list N))
    (start_sheet end_sheet : Z) : bool :=
  match file_bytes, tables_full ss with
  | None, _ | _, None => false
  | Some _, Some _ =>
      let curr := sha1_bytes file_bytes in
      negb (bool_decide (last_run_file_hash ss = curr))
      || negb (bool_decide (last_run_start_sheet ss = Some start_sheet))
      || negb (bool_decide (last_run_end_sheet ss = Some end_sheet))
  end.

End Application.

(** ** Names for the Excel export (core/exporter.py) *)

(** The characters of the class [[\/\\\?\*\[\]:]]: slash, backslash,
    question mark, star, the two square brackets and the colon. *)
Definition sheet_name_forbidden : list N := [47; 92; 63; 42; 91; 93; 58]%N.

(** [sanitize_sheet_name(name)]; 95 is the underscore. *)
Definition sanitize_sheet_name (name : pystr) : pystr :=
  let name := map (λ c, if bool_decide (c ∈ sheet_name_forbidden) then 95%N else c)
                  name in
  take 31 (match name with [] => py "Sheet" | _ => name end).

(** The classes [[0-9A-Za-z_]] and [[A-Za-z_]]. *)
Definition is_letter (c : N) : bool :=
  ((65 <=? c) && (c <=? 90) || (97 <=? c) && (c <=? 122) || (c =? 95))%N.
Definition is_word_char (c : N) : bool :=
  ((48 <=? c) && (c <=? 57))%N || is_letter c.

(** [sanitize_table_name(name)] *)
Definition sanitize_table_name (name : pystr) : pystr :=
  let name := map (λ c, if is_word_char c then c else 95%N) name in
  let starts := match name with c :: _ => is_letter c | [] => false end in
  if negb starts then py "T_" ++ name else name.

(** [compute_col_widths(df, max_width)] on the columns of a frame, each
    given by its label and the texts of its cells after [astype(str)];
    the width of the column of index [i] is at index [i]. *)
Definition compute_col_widths (df : list (pystr * list pystr)) (max_width : Z)
  : list Z :=
  map (λ col : pystr * list pystr,
         let header_len := Z.of_nat (length col.1) in
         let data_len := match col.2 with
                         | [] => 0
                         | x :: xs =>
                             foldr Z.max (Z.of_nat (length x))
                                   (map (λ y, Z.of_nat (length y)) xs)
                         end in
         Z.min (Z.max header_len data_len + 2) max_width) df.

(** ** The status counts and labels (app.py, core/charts.py) *)

(** [int(col.sum())] on a boolean column. *)
Definition flag_sum (col : list bool) : Z :=
  foldr (λ (b : bool) n, (if b then 1 else 0) + n) 0 col.

(** The three counts of the indicators of app.py, which are also those
    of [latest_status_pie]. *)
Definition kpi_counts (latest : list LatestAction) : Z * Z * Z :=
  if bool_decide (latest = []) then (0, 0, 0)
  else (flag_sum (map la_termine latest),
        flag_sum (map la_en_cours latest),
        flag_sum (map la_reporte latest)).

(** The label that [stacked_status_by_dimension] gives to a row; 233 is
    the e with acute accent. *)
Definition statut (r : LatestAction) : pystr :=
  if la_termine r then py "Termin" ++ [233%N]
  else if la_reporte r then py "Report" ++ [233%N]
  else py "En cours".


(** ** A reference run time

    Python's tables on the code points up to 255 (Basic Latin and
    Latin-1) and on the combining diacritical marks, SHA-1 and UTF-8
    written out, and dates formatted as pandas prints them.  It is used
    to run the pipeline on concrete workbooks. *)

Module Ref.

(** [c.isspace()] *)
Definition isspace (c : N) : bool :=
  bool_decide (c ∈ [9; 10; 11; 12; 13; 28; 29; 30; 31; 32; 133; 160; 5760;
                    8232; 8233; 8239; 8287; 12288]%N)
  || ((8192 <=? c) && (c <=? 8202))%N.

Definition is_upper_letter (c : N) : bool :=
  (((65 <=? c) && (c <=? 90)) || ((192 <=? c) && (c <=? 222) && negb (c =? 215)))%N.
Definition is_lower_letter (c : N) : bool :=
  (((97 <=? c) && (c <=? 122)) || ((224 <=? c) && (c <=? 254) && negb (c =? 247)))%N.

(** [s.lower()] and [s.upper()]; 223 is the sharp s, whose upper case is
    two letters; the upper cases of the micro sign (181) and of the y
    with diaeresis (255) lie outside Latin-1. *)
Definition lower (s : pystr) : pystr :=
  map (λ c, if is_upper_letter c then (c + 32)%N else c) s.
Definition upper (s : pystr) : pystr :=
  s ≫= (λ c, if is_lower_letter c then [(c - 32)%N]
             else if (c =? 223)%N then [83; 83]%N
             else if (c =? 181)%N then [924%N]
             else if (c =? 255)%N then [376%N]
             else [c]).

(** The base letter and the combining mark of the Latin-1 capitals, from
    code point 192 on; [None] for a letter that does not decompose. *)
Definition latin1_table : list (option (N * N)) :=
  [ Some (65, 768); Some (65, 769); Some (65, 770); Some (65, 771);
    Some (65, 776); Some (65, 778); None; Some (67, 807);
    Some (69, 768); Some (69, 769); Some (69, 770); Some (69, 776);
    Some (73, 768); Some (73, 769); Some (73, 770); Some (73, 776);
    None; Some (78, 771);
    Some (79, 768); Some (79, 769); Some (79, 770); Some (79, 771);
    Some (79, 776); None; None;
    Some (85, 768); Some (85, 769); Some (85, 770); Some (85, 776);
    Some (89, 769) ]%N.
Definition latin1_decomposition (c : N) : option (N * N) :=
  default None (latin1_table !! N.to_nat (c - 192)).

(** The compatibility decompositions of the Latin-1 signs, from code
    point 160 (the no-break space) to 190 (three quarters). *)
Definition latin1_signs : list (option pystr) :=
  [ Some [32]; None; None; None; None; None; None; None;
    Some [32; 776]; None; Some [97]; None; None; None; None; Some [32; 772];
    None; None; Some [50]; Some [51]; Some [32; 769]; Some [956]; None; None;
    Some [32; 807]; Some [49]; Some [111]; None;
    Some [49; 8260; 52]; Some [49; 8260; 50]; Some [51; 8260; 52] ]%N.

(** [unicodedata.normalize("NFKD", s)], code point by code point. *)
Definition nfkd_char (c : N) : pystr :=
  if ((160 <=? c) && (c <=? 190))%N then
    default [c] (default None (latin1_signs !! N.to_nat (c - 160)))
  else if (c =? 255)%N then [121; 776]%N
  else if ((192 <=? c) && (c <=? 222))%N then
    match latin1_decomposition c with
    | Some (base, accent) => [base; accent]
    | None => [c]
    end
  else if ((224 <=? c) && (c <=? 254))%N then
    match latin1_decomposition (c - 32) with
    | Some (base, accent) => [(base + 32)%N; accent]
    | None => [c]
    end
  else [c].
Definition nfkd (s : pystr) : pystr := s ≫= nfkd_char.

(** [unicodedata.combining(c) != 0] on the combining diacritical marks. *)
Definition combining (c : N) : bool :=
  ((768 <=? c) && (c <=? 879) && negb (c =? 847))%N.

(** *** Dates *)

(** Year, month and day of a day number (days since 1970-01-01). *)
Definition civil_from_days (day : Z) : Z * Z * Z :=
  let z := day + 719468 in
  let era := z / 146097 in
  let doe := z - era * 146097 in
  let yoe := (doe - doe / 1460 + doe / 36524 - doe / 146096) / 365 in
  let y := yoe + era * 400 in
  let doy := doe - (365 * yoe + yoe / 4 - yoe / 100) in
  let mp := (5 * doy + 2) / 153 in
  let d := doy - (153 * mp + 2) / 5 + 1 in
  let m := if mp <? 10 then mp + 3 else mp - 9 in
  (if m <=? 2 then y + 1 else y, m, d).

Definition pad2 (n : Z) : pystr :=
  if n <? 10 then py "0" ++ py (pretty n) else py (pretty n).
Definition pad4 (n : Z) : pystr :=
  (if n <? 10 then py "000" else if n <? 100 then py "00"
   else if n <? 1000 then py "0" else []) ++ py (pretty n).

(** [str(pd.Timestamp)] of a day at midnight. *)
Definition midnight (day : Z) : timestamp :=
  let '(y, m, d) := civil_from_days day in
  Ts day (pad4 y ++ py "-" ++ pad2 m ++ py "-" ++ pad2 d ++ py " 00:00:00").

(** Only a datetime cell is a date here; the strings and the numbers
    that pandas would also convert are [NaT]. *)
Definition to_datetime_date (c : cell) : option timestamp :=
  match c with
  | Timestamp t => Some (midnight (ts_day t))
  | _ => None
  end.

(** *** UTF-8 and SHA-1 *)

Definition utf8_char (c : N) : list Z :=
  let c := Z.of_N c in
  if c <? 128 then [c]
  else if c <? 2048 then
    [Z.lor 192 (Z.shiftr c 6); Z.lor 128 (Z.land c 63)]
  else if c <? 65536 then
    [Z.lor 224 (Z.shiftr c 12); Z.lor 128 (Z.land (Z.shiftr c 6) 63);
     Z.lor 128 (Z.land c 63)]
  else
    [Z.lor 240 (Z.shiftr c 18); Z.lor 128 (Z.land (Z.shiftr c 12) 63);
     Z.lor 128 (Z.land (Z.shiftr c 6) 63); Z.lor 128 (Z.land c 63)].
(** [s.encode("utf-8")] *)
Definition utf8 (s : pystr) : list Z := s ≫= utf8_char.

Definition mask32 (x : Z) : Z := Z.land x 4294967295.
Definition rotl32 (n x : Z) : Z :=
  Z.lor (mask32 (Z.shiftl x n)) (Z.shiftr x (32 - n)).
Definition add32 (a b : Z) : Z := mask32 (a + b).

(** The big-endian bytes of [x], [n] of them. *)
Fixpoint be_bytes (n : nat) (x : Z) : list Z :=
  match n with
  | O => []
  | S n' => Z.land (Z.shiftr x (8 * Z.of_nat n')) 255 :: be_bytes n' x
  end.

(** The message with its padding: a one bit, zeros up to 56 modulo 64,
    and the bit length on eight bytes. *)
Definition sha1_pad (msg : list Z) : list Z :=
  let len := Z.of_nat (length msg) in
  let zeros := Z.to_nat ((55 - len) mod 64) in
  msg ++ [128] ++ replicate zeros 0 ++ be_bytes 8 (8 * len).

Fixpoint be_words (fuel : nat) (bytes : list Z) : list Z :=
  match fuel, bytes with
  | S fuel', b0 :: b1 :: b2 :: b3 :: rest =>
      (Z.shiftl b0 24 + Z.shiftl b1 16 + Z.shiftl b2 8 + b3) :: be_words fuel' rest
  | _, _ => []
  end.

(** The message schedule, latest word first: [rev_w] holds
    [w[i-1], w[i-2], ...]. *)
Fixpoint sha1_schedule (n : nat) (rev_w : list Z) : list Z :=
  match n with
  | O => rev_w
  | S n' =>
      let at_ := λ k : nat, default 0 (rev_w !! k) in
      let w := rotl32 1 (Z.lxor (Z.lxor (at_ 2%nat) (at_ 7%nat))
                                (Z.lxor (at_ 13%nat) (at_ 15%nat))) in
      sha1_schedule n' (w :: rev_w)
  end.

Definition sha1_round (st : Z * Z * Z * Z * Z) (iw : nat * Z) : Z * Z * Z * Z * Z :=
  let '(a, b, c, d, e) := st in
  let '(i, w) := iw in
  let '(f, k) :=
    if (i <? 20)%nat then
      (Z.lor (Z.land b c) (Z.land (Z.lxor b 4294967295) d), 1518500249)
    else if (i <? 40)%nat then (Z.lxor (Z.lxor b c) d, 1859775393)
    else if (i <? 60)%nat then
      (Z.lor (Z.lor (Z.land b c) (Z.land b d)) (Z.land c d), 2400959708)
    else (Z.lxor (Z.lxor b c) d, 3395469782) in
  let temp := add32 (add32 (add32 (add32 (rotl32 5 a) f) e) k) w in
  (temp, a, rotl32 30 b, c, d).

Definition sha1_chunk (h : Z * Z * Z * Z * Z) (chunk : list Z) : Z * Z * Z * Z * Z :=
  let w := reverse (sha1_schedule 64 (reverse (be_words 16 chunk))) in
  let '(a, b, c, d, e) := foldl sha1_round h (imap (λ i x, (i, x)) w) in
  let '(h0, h1, h2, h3, h4) := h in
  (add32 h0 a, add32 h1 b, add32 h2 c, add32 h3 d, add32 h4 e).

Fixpoint sha1_chunks (fuel : nat) (h : Z * Z * Z * Z * Z) (bytes : list Z)
  : Z * Z * Z * Z * Z :=
  match fuel, bytes with
  | S fuel', _ :: _ => sha1_chunks fuel' (sha1_chunk h (take 64 bytes)) (drop 64 bytes)
  | _, _ => h
  end.

Definition hex_digit (d : Z) : N :=
  Z.to_N (if d <? 10 then 48 + d else 87 + d).
Definition hex_byte (b : Z) : pystr :=
  [hex_digit (Z.shiftr b 4); hex_digit (Z.land b 15)].

(** [hashlib.sha1(bytes).hexdigest()] *)
Definition sha1_hex (bytes : list Z) : pystr :=
  let padded := sha1_pad bytes in
  let '(h0, h1, h2, h3, h4) :=
    sha1_chunks (length padded)
      (1732584193, 4023233417, 2562383102, 271733878, 3285377520) padded in
  ([h0; h1; h2; h3; h4] ≫= be_bytes 4) ≫= hex_byte.

Definition sha1_hexdigest (s : pystr) : pystr := sha1_hex (utf8 s).

(** The run time, for a given decoder of workbook files. *)
Definition runtime (decoder : list N → option Workbook) : PyRuntime :=
  Build_PyRuntime isspace lower upper nfkd combining to_datetime_date
                  sha1_hexdigest decoder.

End Ref.

(** ** What is assumed of the run time on ASCII

    On code points below 128 Python's tables are the reference ones:
    NFKD leaves ASCII text as it is, no ASCII character is a combining
    mark, and blanks and letter case are those of [Ref]. *)

Definition is_ascii (c : N) : Prop := (c < 128)%N.

Class AsciiRuntime (rt : PyRuntime) : Prop := {
  isspace_ascii : ∀ c, is_ascii c → isspace c = Ref.isspace c;
  lower_ascii : ∀ s, Forall is_ascii s → lower s = Ref.lower s;
  upper_ascii : ∀ s, Forall is_ascii s → upper s = Ref.upper s;
  nfkd_ascii : ∀ s, Forall is_ascii s → nfkd s = s;
  combining_ascii : ∀ c, is_ascii c → combining c = false
}.

(** A word: at least one character, none of them a blank. *)
Definition is_word (isspace : N → bool) (w : pystr) : Prop :=
  w ≠ [] ∧ Forall (λ c, isspace c = false) w.

(** A text of ASCII words separated by single spaces. *)
Definition spaced (s : pystr) : Prop :=
  ∃ ws, Forall (λ w, is_word Ref.isspace w ∧ Forall is_ascii w) ws
        ∧ s = str_join (py " ") ws.

(** The text made of the word [w] and then, for each pair of [rest],
    its gap and its word. *)
Fixpoint weave (w : pystr) (rest : list (pystr * pystr)) : pystr :=
  match rest with
  | [] => w
  | gw :: rest' => w ++ gw.1 ++ weave gw.2 rest'
  end.

(** The two rows of the separator collision: the first two descriptive
    fields are ("a||b", "c") and ("a", "b||c"), the five others are the
    same. *)
Definition collision_fields1 : list cell :=
  [ Str (py "a||b"); Str (py "c"); Str (py "1"); Str (py "tag");
    Str (py "sub"); Str (py "prod"); Str (py "work") ].
Definition collision_fields2 : list cell :=
  [ Str (py "a"); Str (py "b||c"); Str (py "1"); Str (py "tag");
    Str (py "sub"); Str (py "prod"); Str (py "work") ].
Definition collision_row1 : Row := mk_row text_columns collision_fields1.
Definition collision_row2 : Row := mk_row text_columns collision_fields2.

(** ** Sample workbooks

    The workbook of the repository's test [_make_excel_bytes], and
    variations of it; [decoder] stands for the Excel decoder on the
    bytes of these files. *)

Module Sample.

Definition header : list cell :=
  [ Str (py "Champ / Zone"); Str (py "Plateforme");
    Str (py "N" ++ [176%N] ++ py " puits"); Str (py "TAG Equipement");
    Str (py "Sous-equipement"); Str (py "Metier");
    Str (py "Travail effectue + commentaires");
    Str (py "Termin" ++ [233%N]); Str (py "En cours");
    Str (py "Report" ++ [233%N]); Str (py "Indisponible") ].

Definition blank : list cell := replicate 11 NaN.

(** The grid that [_write_sheet] writes: the date at row 2, column 8,
    the header at row 4, the data from row 5 on. *)
Definition write_sheet (day : Z) (rows : list (list cell)) : list (list cell) :=
  [ blank; blank; <[8%nat := Timestamp (Ref.midnight day)]> blank; blank; header ]
  ++ rows.

Definition action (zone pf puits tag sous metier travail : string)
    (termine en_cours reporte indisponible : bool) : list cell :=
  [ Str (py zone); Str (py pf); Str (py puits); Str (py tag); Str (py sous);
    Str (py metier); Str (py travail);
    Bool termine; Bool en_cours; Bool reporte; Bool indisponible ].

Definition action1 := action "Z1" "PF" "1" "TAG1" "SOUS1" "Prod" "Action 1".
Definition action2 := action "Z2" "PF" "2" "TAG2" "SOUS2" "Maint" "Action 2".

(** 19358 is 2023-01-01. *)
Definition test_workbook : list (pystr * list (list cell)) :=
  [ (py "S1", write_sheet 19358 [ action1 false true false false;
                                  action2 false false true true ]);
    (py "S2", write_sheet 19359 [ action1 true false false false;
                                  action2 false false true true ]) ].

(** One action marked both in progress and postponed. *)
Definition both_workbook : list (pystr * list (list cell)) :=
  [ (py "S1", write_sheet 19358 [ action1 false true true false ]) ].

(** Action 2 unavailable on the first and third day, absent on the
    second. *)
Definition gap_workbook : list (pystr * list (list cell)) :=
  [ (py "S1", write_sheet 19358 [ action2 false false true true ]);
    (py "S2", write_sheet 19359 [ action1 false true false false ]);
    (py "S3", write_sheet 19360 [ action2 false false true true ]) ].

(** Sheets without a date at row 2, column 8. *)
Definition undated_workbook : list (pystr * list (list cell)) :=
  [ (py "S1", [ blank; blank; blank; blank; header;
                action1 false true false false ]) ].

(** A sheet whose header has no zone column. *)
Definition zoneless_workbook : list (pystr * list (list cell)) :=
  [ (py "S1", [ blank; blank; blank; blank; replicate 11 (Str (py "x"));
                action1 false true false false ]) ].

(** Two lines that differ in their first two fields and share their
    payload. *)
Definition collision_workbook : list (pystr * list (list cell)) :=
  [ (py "S1", write_sheet 19358
                [ action "a||b" "c" "1" "tag" "sub" "prod" "work" false true false false;
                  action "a" "b||c" "1" "tag" "sub" "prod" "work" true false false false ]) ].

(** A sheet with a forecast section: the marker, here with an accent
    (233), lower case and blanks around, and the lines before and after
    it. *)
Definition prevision_top : list (list cell) :=
  [ blank; blank; <[8%nat := Timestamp (Ref.midnight 19358)]> blank; blank; header ].
Definition prevision_marker : list cell :=
  Str (py " pr" ++ [233%N] ++ py "vision ") :: replicate 10 NaN.
Definition prevision_pre : list (list cell) :=
  [ action1 false true false false ].
Definition prevision_post : list (list cell) :=
  [ action2 false false true true; action1 true false false false ].

(** Action 1 done on the first day and marked in progress again on the
    second. *)
Definition relapse_workbook : list (pystr * list (list cell)) :=
  [ (py "S1", write_sheet 19358 [ action1 true false false false ]);
    (py "S2", write_sheet 19359 [ action1 false true false false ]) ].

Definition test_bytes : list N := [80; 75; 3; 4; 0]%N.
Definition both_bytes : list N := [80; 75; 3; 4; 1]%N.
Definition gap_bytes : list N := [80; 75; 3; 4; 2]%N.
Definition undated_bytes : list N := [80; 75; 3; 4; 3]%N.
Definition zoneless_bytes : list N := [80; 75; 3; 4; 4]%N.
Definition collision_bytes : list N := [80; 75; 3; 4; 5]%N.
Definition relapse_bytes : list N := [80; 75; 3; 4; 6]%N.

Definition files : list (list N * list (pystr * list (list cell))) :=
  [ (test_bytes, test_workbook); (both_bytes, both_workbook);
    (gap_bytes, gap_workbook); (undated_bytes, undated_workbook);
    (zoneless_bytes, zoneless_workbook); (collision_bytes, collision_workbook);
    (relapse_bytes, relapse_workbook) ].

Definition decoder (file_bytes : list N) : option (list (pystr * list (list cell))) :=
  (λ f, f.2.2) <$> list_find (λ f, f.1 = file_bytes) files.

Definition runtime : PyRuntime := Ref.runtime decoder.

Definition tmp_path : pystr := py "/tmp/tmpq1w2e3.xlsx".

(** A run on one of the files, from an empty file system. *)
Definition run (file_bytes : list N) (start_sheet end_sheet : Z) : M Tables :=
  (@build_week_tables_from_excel_bytes runtime ∅ tmp_path file_bytes
     start_sheet end_sheet).2.

(** Its tables, when it succeeds. *)
Definition tables (file_bytes : list N) (start_sheet end_sheet : Z) : Tables :=
  match outcome (run file_bytes start_sheet end_sheet) with
  | inr t => t
  | inl _ => mkTables [] [] [] [] [] [] [] []
  end.

(** The frames and the dates that the cleaning of a file returns. *)
Definition cleaned (file_bytes : list N) (start_sheet end_sheet : Z)
  : list Frame * list cell :=
  match outcome (@_clean_week_sheets_from_bytes runtime ∅ tmp_path file_bytes
                   start_sheet end_sheet).2 with
  | inr r => r
  | inl _ => ([], [])
  end.

(** The frames and the dates that the cleaning of an open workbook
    returns. *)
Definition cleaned_sheets (xls : list (pystr * list (list cell)))
    (start_sheet end_sheet : Z) : list Frame * list cell :=
  match outcome (@clean_week_sheets runtime xls start_sheet end_sheet) with
  | inr r => r
  | inl _ => ([], [])
  end.

(** The cleaned line of index [j] of the frame of index [i] of the test
    workbook. *)
Definition test_line (i j : nat) : Row :=
  ((cleaned_sheets test_workbook 1 2).1 !!! i) !!! j.

(** The key of the daily row of index [i]. *)
Definition key (t : Tables) (i : nat) : pystr :=
  default [] (action_key <$> actions_daily t !! i).

(** The daily tables of three of the files, and the keys of their
    actions. *)
Definition test_daily : list DailyFact := actions_daily (tables test_bytes 1 2).
Definition gap_daily : list DailyFact := actions_daily (tables gap_bytes 1 3).
Definition relapse_daily : list DailyFact := actions_daily (tables relapse_bytes 1 2).
Definition key1 : pystr := key (tables test_bytes 1 2) 0.
Definition key2 : pystr := key (tables test_bytes 1 2) 1.

End Sample.

(** ** More workbooks

    A sheet that stops before the header row, and sheets without the
    four status columns. *)

Module Cases.

(** The seven descriptive columns and two columns of notes, none of
    the status columns. *)
Definition plain_header : list cell :=
  [ Str (py "Champ / Zone"); Str (py "Plateforme");
    Str (py "N" ++ [176%N] ++ py " puits"); Str (py "TAG Equipement");
    Str (py "Sous-equipement"); Str (py "Metier");
    Str (py "Travail effectue + commentaires");
    Str (py "Note"); Str (py "Date") ].

Definition plain_blank : list cell := replicate 9 NaN.

Definition plain_line (zone tag travail note : string) : list cell :=
  [ Str (py zone); Str (py "PF"); Int 7; Str (py tag); NaN; Str (py "Prod");
    Str (py travail); Str (py note); NaN ].

(** 19358 is 2023-01-01. *)
Definition plain_sheet (day : Z) (rows : list (list cell)) : list (list cell) :=
  [ plain_blank; plain_blank;
    <[8%nat := Timestamp (Ref.midnight day)]> plain_blank; plain_blank;
    plain_header ] ++ rows.

Definition plain_workbook : Workbook :=
  [ (py "Lundi", plain_sheet 19358 [ plain_line "Z1" "TAG1" "Pompe" "x";
                                     plain_line "Z2" "TAG2" "Vanne" "oui" ]);
    (py "Mardi", plain_sheet 19359 [ plain_line "Z1" "TAG1" "Pompe" "1" ]) ].

(** The second sheet has two rows only. *)
Definition short_workbook : Workbook :=
  [ (py "S1", Sample.write_sheet 19358 [ Sample.action1 false true false false ]);
    (py "S2", [ Sample.blank; Sample.blank ]);
    (py "S3", Sample.write_sheet 19360 [ Sample.action1 true false false false ]) ].

Definition plain_bytes : list N := [80; 75; 3; 4; 16]%N.
Definition short_bytes : list N := [80; 75; 3; 4; 17]%N.

Definition decoder (file_bytes : list N) : option Workbook :=
  if decide (file_bytes = plain_bytes) then Some plain_workbook
  else if decide (file_bytes = short_bytes) then Some short_workbook
  else None.

Definition runtime : PyRuntime := Ref.runtime decoder.

(** The tables of a run on one of these files, from an empty file
    system, when it succeeds. *)
Definition tables (file_bytes : list N) (start_sheet end_sheet : Z) : Tables :=
  match outcome (@build_week_tables_from_excel_bytes runtime ∅ Sample.tmp_path
                   file_bytes start_sheet end_sheet).2 with
  | inr t => t
  | inl _ => mkTables [] [] [] [] [] [] [] []
  end.

(** The tables of the test workbook, the first row of its
    [actions_latest] and the first row of its [transitions]. *)
Definition test_tables : Tables := tables_of_daily Sample.test_daily.
Definition test_latest : LatestAction :=
  default (mkLatestAction [] None NaN NaN NaN NaN NaN NaN NaN false false false)
          (actions_latest test_tables !! 0%nat).
Definition test_event : TransitionEvent :=
  default (mkTransitionEvent [] None false false false [])
          (transitions test_tables !! 0%nat).

(** One action reported on two sheets of the same day: done on the
    first, in progress on the second. *)
Definition same_day_row (done running : bool) (sheet : string) : DailyFact :=
  mkDailyFact (py "k") (Some (Ref.midnight 19358)) (Str (py "Z1")) NaN NaN
    (Str (py "TAG1")) NaN NaN (Str (py "Pompe")) done running false false
    (Str (py sheet)).
Definition same_day_daily : list DailyFact :=
  [ same_day_row true false "S1"; same_day_row false true "S2" ].

(** The first row of [transitions] of the test workbook under the
    reversing sort. *)
Definition test_event_reversing : TransitionEvent :=
  default (mkTransitionEvent [] None false false false [])
          (transitions (tables_of_daily_by reversing_sort Sample.test_daily)
             !! 0%nat).

End Cases.

(** * Properties *)

(** ** Lists *)

Lemma map_fmap {A B} (f : A → B) (l : list A) : map f l = f <$> l.
Proof. reflexivity. Qed.

(** ** The monad *)

Lemma bind_raise {A B} (e : exn) (k : A → M B) : (raise e ≫= k) = raise e.
Proof. reflexivity. Qed.

Lemma bind_ret {A B} (a : A) (k : A → M B) : (mret a ≫= k) = k a.
Proof. unfold mret, M_ret, mbind, M_bind. by destruct (k a). Qed.

Lemma bind_ext {A B} (m : M A) (k1 k2 : A → M B) :
  (∀ a, k1 a = k2 a) → (m ≫= k1) = (m ≫= k2).
Proof.
  intros Hk. destruct m as [tr [e|a]]; [done |].
  unfold mbind, M_bind. by rewrite Hk.
Qed.

Lemma bind_assoc {A B C} (m : M A) (f : A → M B) (g : B → M C) :
  ((m ≫= f) ≫= g) = (m ≫= λ a, f a ≫= g).
Proof.
  destruct m as [tr [e|a]]; [done |]. unfold mbind, M_bind.
  destruct (f a) as [tr1 [e|b]]; [done |].
  destruct (g b) as [tr2 r]. by rewrite app_assoc.
Qed.

Lemma outcome_bind_inl {A B} (m : M A) (k : A → M B) e :
  outcome m = inl e → outcome (m ≫= k) = inl e.
Proof. destruct m as [tr [e'|a]]; simpl; [congruence | discriminate]. Qed.

Lemma outcome_bind_inr {A B} (m : M A) (k : A → M B) a :
  outcome m = inr a → outcome (m ≫= k) = outcome (k a).
Proof.
  destruct m as [tr [e'|a']]; simpl; [discriminate |].
  intros [= ->]. unfold mbind, M_bind. by destruct (k a).
Qed.

Lemma outcome_bind_inv {A B} (m : M A) (k : A → M B) b :
  outcome (m ≫= k) = inr b → ∃ a, outcome m = inr a ∧ outcome (k a) = inr b.
Proof.
  destruct m as [tr [e'|a]]; simpl; [discriminate |].
  unfold mbind, M_bind. destruct (k a) as [tr' r] eqn:E. simpl.
  intros ->. exists a. by rewrite E.
Qed.

(** ** The entry points *)

Section EntryPoints.
Context `{PyRuntime}.

(** The temporary file is read back as it was written, so the outcome
    of the cleaning depends on the bytes only. *)
Lemma clean_from_bytes_result fs tmp_path file_bytes start_sheet end_sheet :
  (_clean_week_sheets_from_bytes fs tmp_path file_bytes start_sheet end_sheet).2
  = match excel_file file_bytes with
    | Some xls => clean_week_sheets xls start_sheet end_sheet
    | None => raise ExcelError
    end.
Proof.
  unfold _clean_week_sheets_from_bytes. simpl.
  by rewrite lookup_insert_eq.
Qed.

Lemma build_result fs tmp_path file_bytes start_sheet end_sheet :
  (build_week_tables_from_excel_bytes fs tmp_path file_bytes start_sheet end_sheet).2
  = (frames ← match excel_file file_bytes with
              | Some xls => clean_week_sheets xls start_sheet end_sheet
              | None => raise ExcelError
              end;
     daily ← daily_of_frames frames.1;
     mret (tables_of_daily daily)).
Proof.
  unfold build_week_tables_from_excel_bytes.
  pose proof (clean_from_bytes_result fs tmp_path file_bytes start_sheet end_sheet) as E.
  destruct (_clean_week_sheets_from_bytes _ _ _ _ _) as [fs' r]. simpl in *.
  by rewrite E.
Qed.

(** The temporary file is gone when the call returns. *)
Lemma build_removes_tmp fs tmp_path file_bytes start_sheet end_sheet :
  (build_week_tables_from_excel_bytes fs tmp_path file_bytes start_sheet end_sheet).1
  = delete tmp_path fs.
Proof.
  unfold build_week_tables_from_excel_bytes, _clean_week_sheets_from_bytes. simpl.
  by rewrite delete_insert_eq.
Qed.

(** The tables of a successful run are those of its daily table. *)
Lemma build_tables_of_daily fs tmp_path file_bytes start_sheet end_sheet t :
  outcome (build_week_tables_from_excel_bytes fs tmp_path file_bytes
             start_sheet end_sheet).2 = inr t →
  ∃ daily, t = tables_of_daily daily ∧ actions_daily t = daily.
Proof.
  rewrite build_result. intros Ht.
  apply outcome_bind_inv in Ht as (frames & _ & Ht).
  apply outcome_bind_inv in Ht as (daily & _ & Ht).
  simpl in Ht. injection Ht as <-. by exists daily.
Qed.

(** The daily table of a successful run is made of the rows of the
    cleaned sheets. *)
Lemma build_daily_rows fs tmp_path file_bytes start_sheet end_sheet t :
  outcome (build_week_tables_from_excel_bytes fs tmp_path file_bytes
             start_sheet end_sheet).2 = inr t →
  ∃ xls frames dates,
    excel_file file_bytes = Some xls
    ∧ outcome (clean_week_sheets xls start_sheet end_sheet) = inr (frames, dates)
    ∧ actions_daily t = map base_cols_row (concat frames).
Proof.
  rewrite build_result. intros Ht.
  apply outcome_bind_inv in Ht as ([frames dates] & Hclean & Ht).
  destruct (excel_file file_bytes) as [xls|]; [| discriminate].
  apply outcome_bind_inv in Ht as (daily & Hdaily & Ht).
  simpl in Ht. injection Ht as <-.
  exists xls, frames, dates. split; [done |]. split; [done |].
  unfold daily_of_frames in Hdaily. cbn [fst] in Hdaily.
  case_bool_decide; [discriminate |].
  destruct (forallb _ _); [discriminate |].
  by injection Hdaily as <-.
Qed.

End EntryPoints.

(** ** Failures of a run *)

Section Failures.
Context `{PyRuntime}.

Lemma daily_of_frames_no_dates (frames : list Frame) :
  Forall (λ r : Row, as_date (row_get r (py "date_rapport") NaN) = None)
         (concat frames) →
  ∃ msg, outcome (daily_of_frames frames) = inl (ValueError msg)
         ∧ (msg = msg_no_usable_sheets ∨ msg = msg_no_dates).
Proof.
  intros Hall. unfold daily_of_frames.
  case_bool_decide as Hnil.
  - exists msg_no_usable_sheets. by split; [| left].
  - exists msg_no_dates. split; [| by right].
    assert (forallb (λ r, bool_decide (date_rapport r = None))
                    (map base_cols_row (concat frames)) = true) as ->; [| done].
    apply forallb_forall. intros d [r [<- Hr]]%in_map_iff.
    apply bool_decide_eq_true. simpl.
    rewrite Forall_forall in Hall. apply Hall. by apply list_elem_of_In.
Qed.

(** C3, as amended.  A requested range with [start < 1], or [end] beyond
    the number of sheets, or [end < start], makes the run fail without
    any sheet having been parsed and without tables.  The failure is
    the range error of [_clean_week_sheets_from_bytes] in the first two
    cases; in the third case, when the bounds are within the workbook,
    it is the error "No usable sheets in the selected range." of
    [build_week_tables_from_excel_bytes]. *)
Theorem invalid_range_fails fs tmp_path file_bytes xls start_sheet end_sheet :
  excel_file file_bytes = Some xls →
  start_sheet < 1 ∨ Z.of_nat (length xls) < end_sheet ∨ end_sheet < start_sheet →
  let run := (build_week_tables_from_excel_bytes fs tmp_path file_bytes
                start_sheet end_sheet).2 in
  trace run = []
  ∧ outcome run
    = inl (ValueError
             (if (start_sheet <? 1) || (Z.of_nat (length xls) <? end_sheet)
              then msg_invalid_range start_sheet end_sheet (Z.of_nat (length xls))
              else msg_no_usable_sheets)).
Proof.
  intros Hxls Hrange run. subst run. rewrite build_result, Hxls.
  unfold clean_week_sheets. rewrite length_map.
  destruct ((start_sheet <? 1) || (Z.of_nat (length xls) <? end_sheet)) eqn:Hchk.
  - done.
  - apply orb_false_iff in Hchk as [H1%Z.ltb_ge H2%Z.ltb_ge].
    assert (end_sheet - (start_sheet - 1) ≤ 0) as Hlen by lia.
    assert (seqZ (start_sheet - 1) (end_sheet - (start_sheet - 1)) = []) as ->.
    { unfold seqZ. by replace (Z.to_nat _) with 0%nat by lia. }
    done.
Qed.

(** C8.  When the cleaning of the sheets of the range leaves no row at
    all (for instance because no sheet has a [champ_zone] column), or
    leaves only rows whose [date_rapport] is null, the run fails with a
    [ValueError] and returns no tables. *)
Theorem empty_result_fails fs tmp_path file_bytes start_sheet end_sheet frames dates :
  outcome (_clean_week_sheets_from_bytes fs tmp_path file_bytes
             start_sheet end_sheet).2 = inr (frames, dates) →
  concat frames = []
  ∨ Forall (λ r : Row, as_date (row_get r (py "date_rapport") NaN) = None)
           (concat frames) →
  ∃ msg,
    outcome (build_week_tables_from_excel_bytes fs tmp_path file_bytes
               start_sheet end_sheet).2 = inl (ValueError msg)
    ∧ (msg = msg_no_usable_sheets ∨ msg = msg_no_dates).
Proof.
  rewrite clean_from_bytes_result, build_result. intros Hclean Hempty.
  assert (Forall (λ r : Row, as_date (row_get r (py "date_rapport") NaN) = None)
                 (concat frames)) as Hall.
  { destruct Hempty as [-> | ?]; [constructor | done]. }
  destruct (daily_of_frames_no_dates frames Hall) as (msg & Hmsg & Hor).
  exists msg. split; [| done].
  erewrite outcome_bind_inr by exact Hclean. simpl.
  by apply outcome_bind_inl.
Qed.

(** The outcome of a call does not depend on the files present on the
    machine nor on the name given to the temporary file, also for a
    second call started where the first one left the file system.  The
    library calls being functions here, this is all that the model can
    say of two runs on the same bytes and range. *)
Lemma build_ignores_files (file_bytes : list N) (start_sheet end_sheet : Z) :
  (∀ (fs1 fs2 : FileSystem) (tmp1 tmp2 : pystr),
     (build_week_tables_from_excel_bytes fs1 tmp1 file_bytes start_sheet end_sheet).2
     = (build_week_tables_from_excel_bytes fs2 tmp2 file_bytes start_sheet end_sheet).2)
  ∧ (∀ (fs : FileSystem) (tmp1 tmp2 : pystr),
       let first := build_week_tables_from_excel_bytes fs tmp1 file_bytes
                      start_sheet end_sheet in
       let second := build_week_tables_from_excel_bytes first.1 tmp2 file_bytes
                       start_sheet end_sheet in
       outcome second.2 = outcome first.2
       ∧ trace second.2 = trace first.2
       ∧ second.1 = delete tmp2 (delete tmp1 fs)).
Proof.
  split.
  - intros fs1 fs2 tmp1 tmp2. by rewrite !build_result.
  - intros fs tmp1 tmp2 first second. subst first second.
    rewrite !build_removes_tmp, !build_result. done.
Qed.

End Failures.

(** ** The identity key *)

Lemma mk_row_lookup_columns (columns : list pystr) (cells : list cell)
    (c : pystr) (v : cell) :
  mk_row columns cells !! c = Some v → c ∈ columns.
Proof.
  unfold mk_row. intros Hv%elem_of_list_to_map_2.
  by apply elem_of_zip_l in Hv.
Qed.

Section Key.
Context `{PyRuntime}.

(** The payload reads the seven descriptive columns and nothing else. *)
Lemma payload_ext (row1 row2 : Row) :
  (∀ c, c ∈ text_columns → row1 !! c = row2 !! c) →
  payload row1 = payload row2.
Proof.
  intros Hagree. unfold payload, row_get.
  rewrite !(Hagree (py _)); [done | unfold text_columns; set_solver ..].
Qed.

Lemma action_key_not_text : py "action_key" ∉ text_columns.
Proof.
  intros Hc. apply list_elem_of_In in Hc. vm_compute in Hc.
  intuition discriminate.
Qed.

Lemma keyed_insert (r : Row) : keyed (<[py "action_key" := Str (_action_key r)]> r).
Proof.
  unfold keyed. rewrite lookup_insert_eq. do 2 f_equal.
  unfold _action_key. f_equal. apply payload_ext.
  intros c Hc. rewrite lookup_insert_ne; [done |].
  intros <-. by apply action_key_not_text.
Qed.

(** *** The cleaning of a sheet, row by row *)

Lemma assign_map_column (c : pystr) (f : cell → cell) (df : Frame) :
  assign c (map f (column c df)) df
  = map (λ r : Row, <[c := f (default NaN (r !! c))]> r) df.
Proof.
  unfold assign, column. induction df as [| r df IH]; [done |].
  cbn [map zip_with]. by rewrite IH.
Qed.

Lemma foldl_rowwise {C} (G : Frame → C → Frame) (g : Row → C → Row) :
  (∀ df c, G df c = map (λ r, g r c) df) →
  ∀ (cols : list C) (df : Frame),
    foldl G df cols = map (λ r, foldl g r cols) df.
Proof.
  intros HG cols. induction cols as [| c cols IH]; intros df.
  - cbn [foldl]. by rewrite map_id.
  - cbn [foldl]. by rewrite IH, HG, map_map.
Qed.

Lemma finish_sheet_rows (sheet_name : pystr) (columns : list pystr) (dt_report : cell) (df : Frame)
    (o : Row) :
  o ∈ finish_sheet sheet_name columns dt_report df →
  ∃ r, r ∈ df ∧ o = finish_row sheet_name columns dt_report r.
Proof.
  unfold finish_sheet, select_rows. cbv zeta.
  intros [_ Ho]%list_elem_of_filter. revert Ho.
  unfold assign_apply, assign_scalar.
  rewrite (foldl_rowwise _
             (λ (r : Row) c,
                if has_column c columns
                then <[c := normalize_text (default NaN (r !! c))]> r
                else r)).
  2:{ intros df' c. cbv beta. destruct (has_column c columns);
        [apply assign_map_column | by rewrite map_id]. }
  rewrite (foldl_rowwise _
             (λ (r : Row) c,
                if has_column c columns
                then <[c := Bool (to_bool_cell (default NaN (r !! c)))]> r
                else <[c := Bool false]> r)).
  2:{ intros df' c. cbv beta. destruct (has_column c columns); [| reflexivity].
      apply (assign_map_column c (λ x, Bool (to_bool_cell x))). }
  rewrite !map_map. rewrite map_fmap.
  intros (r & -> & Hr)%list_elem_of_fmap. by exists r.
Qed.

(** A fold of assignments leaves the columns it does not name as they
    were. *)
Lemma foldl_insert_other (step : Row → pystr → Row) (cols : list pystr)
    (r : Row) (c : pystr) :
  (∀ (r : Row) c', c' ≠ c → step r c' !! c = r !! c) →
  c ∉ cols → foldl step r cols !! c = r !! c.
Proof.
  intros Hstep. revert r. induction cols as [| c' cols IH]; intros r Hc; [done |].
  apply not_elem_of_cons in Hc as [Hne Hc]. cbn [foldl].
  rewrite IH by done. by apply Hstep.
Qed.

Lemma text_not_flag (c : pystr) : c ∈ text_columns → c ∉ flag_columns.
Proof.
  intros Hc Hf. apply list_elem_of_In in Hc, Hf.
  vm_compute in Hf. vm_compute in Hc.
  intuition (subst; discriminate).
Qed.

Lemma text_not_stamp (c : pystr) :
  c ∈ text_columns →
  c ≠ py "date_rapport" ∧ c ≠ py "feuille" ∧ c ≠ py "action_key".
Proof.
  intros Hc. apply list_elem_of_In in Hc. vm_compute in Hc.
  intuition (subst; discriminate).
Qed.

(** The text columns of a cleaned row: a column of the sheet holds a
    normalised string, a column the sheet lacks stays absent. *)
Lemma text_fold_shape (columns : list pystr) (cols : list pystr) (r : Row)
    (c : pystr) :
  let step := λ (r : Row) c,
                if has_column c columns
                then <[c := normalize_text (default NaN (r !! c))]> r
                else r in
  (c ∈ cols → has_column c columns = true →
   ∃ s, foldl step r cols !! c = Some (Str s))
  ∧ (has_column c columns = false → foldl step r cols !! c = r !! c).
Proof.
  intros step.
  assert (∀ (r : Row) c', c' ≠ c → step r c' !! c = r !! c) as Hother.
  { intros r' c' Hne. unfold step.
    destruct (has_column c' columns); [by rewrite lookup_insert_ne | done]. }
  split.
  - revert r. induction cols as [| c' cols IH]; intros r Hc Hcol.
    + by apply elem_of_nil in Hc.
    + cbn [foldl]. destruct (decide (c ∈ cols)) as [Hin | Hout]; [by apply IH |].
      apply elem_of_cons in Hc as [-> | Hc]; [| done].
      rewrite foldl_insert_other by done.
      unfold step. rewrite Hcol, lookup_insert_eq. by eexists.
  - intros Hcol. revert r. induction cols as [| c' cols IH]; intros r; [done |].
    cbn [foldl]. rewrite IH. unfold step.
    destruct (has_column c' columns) eqn:Hc'; [| done].
    rewrite lookup_insert_ne; [done |]. intros ->. congruence.
Qed.

Lemma finish_row_keyed (sheet_name : pystr) (columns : list pystr) (dt_report : cell) (r : Row) :
  keyed (finish_row sheet_name columns dt_report r).
Proof. apply keyed_insert. Qed.

Lemma finish_row_shaped (sheet_name : pystr) (columns : list pystr) (dt_report : cell) (cells : list cell) :
  text_shaped (finish_row sheet_name columns dt_report (mk_row columns cells)).
Proof.
  intros c Hc. unfold finish_row. cbv zeta.
  destruct (text_not_stamp c Hc) as (Hdate & Hsheet & Hkey).
  rewrite lookup_insert_ne by done.
  match goal with
  | |- context [foldl _ ?r0 text_columns] =>
      destruct (text_fold_shape columns text_columns r0 c) as [Hset Hkeep]
  end.
  cbv zeta in Hset, Hkeep.
  destruct (has_column c columns) eqn:Hcol.
  - right. by apply Hset.
  - left. rewrite Hkeep by done. rewrite !lookup_insert_ne by done.
    rewrite foldl_insert_other.
    + destruct (mk_row columns cells !! c) as [v|] eqn:Hv; [| done].
      apply mk_row_lookup_columns in Hv.
      apply bool_decide_eq_false in Hcol. done.
    + intros r' c' Hne. destruct (has_column c' columns); by rewrite lookup_insert_ne.
    + by apply text_not_flag.
Qed.

Lemma clean_sheet_rows (sheet_name : pystr) (df_raw : RawFrame) (dt : cell) (df : Frame) :
  clean_sheet sheet_name df_raw = inr (dt, Some df) → Forall cleaned_row df.
Proof.
  unfold clean_sheet. destruct (df_raw !! 4%nat) as [header|]; [| discriminate].
  destruct (negb _); [discriminate |]. cbv zeta.
  match goal with |- inr (_, Some ?X) = _ → _ => remember X as out eqn:Hout end.
  intros [= _ <-]. subst out.
  apply Forall_forall. intros o (r & Hr & ->)%finish_sheet_rows.
  split; [apply finish_row_keyed |].
  unfold cut_prevision in Hr.
  assert (r ∈ map (mk_row (norm_cols header)) (drop 5 df_raw)) as Hraw.
  { destruct (_get_prevision_index _ _);
      [apply subseteq_take in Hr |];
      unfold select_rows in Hr; by apply list_elem_of_filter in Hr as [_ Hr]. }
  rewrite map_fmap in Hraw. apply list_elem_of_fmap in Hraw as (cells & -> & _).
  apply finish_row_shaped.
Qed.

Lemma sheets_loop_cons xls i idxs final_dfs dates :
  sheets_loop xls (i :: idxs) final_dfs dates
  = (sheet_name ← lift_exn (from_option inr (inl IndexError) (py_index (map fst xls) i));
     df_raw ← xls_parse xls sheet_name;
     r ← lift_exn (clean_sheet sheet_name df_raw);
     match r.2 with
     | None => sheets_loop xls idxs final_dfs (dates ++ [r.1])
     | Some df => sheets_loop xls idxs (final_dfs ++ [df]) (dates ++ [r.1])
     end).
Proof. reflexivity. Qed.

Lemma sheets_loop_rows xls idxs final_dfs dates frames dates' :
  Forall (Forall cleaned_row) final_dfs →
  outcome (sheets_loop xls idxs final_dfs dates) = inr (frames, dates') →
  Forall (Forall cleaned_row) frames.
Proof.
  revert final_dfs dates. induction idxs as [| i idxs IH]; intros final_dfs dates Hinv.
  - simpl. by intros [= <- _].
  - rewrite sheets_loop_cons. intros Hrun.
    apply outcome_bind_inv in Hrun as (sheet_name & _ & Hrun).
    apply outcome_bind_inv in Hrun as (df_raw & _ & Hrun).
    apply outcome_bind_inv in Hrun as ([dt odf] & Hclean & Hrun).
    cbn [fst snd] in Hrun. destruct odf as [df|]; [| exact (IH _ _ Hinv Hrun)].
    refine (IH _ _ _ Hrun).
    apply Forall_app. split; [done |]. constructor; [| done].
    eapply clean_sheet_rows. exact Hclean.
Qed.

Lemma map_eq_inv {A B} (f g : A → B) (l : list A) (x : A) :
  map f l = map g l → x ∈ l → f x = g x.
Proof.
  induction l as [| y l IH]; intros Heq Hx; [by apply elem_of_nil in Hx |].
  injection Heq as Hy Hl.
  apply elem_of_cons in Hx as [-> | Hx]; [done | by apply IH].
Qed.

Lemma descriptive_fields_row (o : Row) :
  descriptive_fields (base_cols_row o) = map (λ c, row_get o c NaN) text_columns.
Proof. reflexivity. Qed.

(** Two cleaned rows with the same descriptive fields in the daily table
    have the same descriptive columns. *)
Lemma cleaned_rows_agree (o1 o2 : Row) (c : pystr) :
  text_shaped o1 → text_shaped o2 →
  descriptive_fields (base_cols_row o1) = descriptive_fields (base_cols_row o2) →
  c ∈ text_columns → o1 !! c = o2 !! c.
Proof.
  intros Hs1 Hs2 Heq Hc. rewrite !descriptive_fields_row in Heq.
  pose proof (map_eq_inv _ _ _ c Heq Hc) as E. unfold row_get in E.
  destruct (Hs1 c Hc) as [E1 | [s1 E1]], (Hs2 c Hc) as [E2 | [s2 E2]];
    rewrite E1, E2 in *; simpl in E; congruence.
Qed.

Lemma sheets_rows (xls : Workbook) (start_sheet end_sheet : Z)
    (frames : list Frame) (dates : list cell) (o : Row) :
  outcome (clean_week_sheets xls start_sheet end_sheet) = inr (frames, dates) →
  o ∈ concat frames → cleaned_row o.
Proof.
  intros Hrun Ho. unfold clean_week_sheets in Hrun. destruct (_ || _); [done |].
  apply sheets_loop_rows in Hrun; [| constructor].
  apply list_elem_of_In, in_concat in Ho as (df & Hdf & Ho).
  rewrite Forall_forall in Hrun. apply list_elem_of_In in Hdf, Ho.
  specialize (Hrun df Hdf). rewrite Forall_forall in Hrun. by apply Hrun.
Qed.

(** C5.  The key is a function of the seven descriptive columns: two rows
    that agree on them get the same key, whatever their other columns
    (date, sheet, flags, unrecognised columns) hold.  So two rows of the
    cleaned frames of a run, from any sheets, that agree on the seven
    columns carry the same [action_key]; and two rows of the daily table
    of a run with the same seven descriptive fields have the same
    [action_key], whatever their dates, sheets and flags. *)
Theorem action_key_pure :
  (∀ row1 row2 : Row,
     (∀ c, c ∈ text_columns → row1 !! c = row2 !! c) →
     _action_key row1 = _action_key row2)
  ∧ (∀ xls start_sheet end_sheet frames dates (o1 o2 : Row),
       outcome (clean_week_sheets xls start_sheet end_sheet) = inr (frames, dates) →
       o1 ∈ concat frames → o2 ∈ concat frames →
       (∀ c, c ∈ text_columns → o1 !! c = o2 !! c) →
       o1 !! py "action_key" = o2 !! py "action_key"
       ∧ is_Some (o1 !! py "action_key"))
  ∧ (∀ fs tmp_path file_bytes start_sheet end_sheet t (r1 r2 : DailyFact),
       outcome (build_week_tables_from_excel_bytes fs tmp_path file_bytes
                  start_sheet end_sheet).2 = inr t →
       r1 ∈ actions_daily t → r2 ∈ actions_daily t →
       descriptive_fields r1 = descriptive_fields r2 →
       action_key r1 = action_key r2).
Proof.
  split; [| split].
  - intros row1 row2 Hagree. unfold _action_key. f_equal. by apply payload_ext.
  - intros xls start_sheet end_sheet frames dates o1 o2 Hrun Ho1 Ho2 Hagree.
    destruct (sheets_rows _ _ _ _ _ _ Hrun Ho1) as [Hk1 _].
    destruct (sheets_rows _ _ _ _ _ _ Hrun Ho2) as [Hk2 _].
    rewrite Hk1, Hk2. split; [| by eexists].
    do 2 f_equal. unfold _action_key. f_equal. by apply payload_ext.
  - intros fs tmp_path file_bytes start_sheet end_sheet t r1 r2 Ht Hr1 Hr2 Heq.
    apply build_daily_rows in Ht as (xls & frames & dates & _ & Hrun & Hdaily).
    rewrite Hdaily, map_fmap in Hr1, Hr2.
    apply list_elem_of_fmap in Hr1 as (o1 & -> & Ho1).
    apply list_elem_of_fmap in Hr2 as (o2 & -> & Ho2).
    destruct (sheets_rows _ _ _ _ _ _ Hrun Ho1) as [Hk1 Hs1].
    destruct (sheets_rows _ _ _ _ _ _ Hrun Ho2) as [Hk2 Hs2].
    assert (∀ o : Row, keyed o → action_key (base_cols_row o) = _action_key o)
      as Hkey.
    { intros o Ho. unfold base_cols_row. cbn [action_key]. unfold row_get.
      by rewrite Ho. }
    rewrite !Hkey by done.
    unfold _action_key. f_equal. apply payload_ext. intros c Hc.
    by apply cleaned_rows_agree.
Qed.

End Key.

(** ** The forecast marker *)

Section Prevision.
Context `{PyRuntime}.

(** Cutting a list at the first element that a mask selects forgets a
    selected element and what follows it. *)
Lemma cut_at_first {A} (m : A → bool) (l1 l2 : list A) (s : A) :
  m s = true →
  match fst <$> list_find (λ b, b = true) (map m (l1 ++ s :: l2)) with
  | Some idx => take idx (l1 ++ s :: l2)
  | None => l1 ++ s :: l2
  end
  = match fst <$> list_find (λ b, b = true) (map m l1) with
    | Some idx => take idx l1
    | None => l1
    end.
Proof.
  intros Hs. induction l1 as [| r l1 IH]; simpl.
  - rewrite Hs. by rewrite decide_True.
  - destruct (m r) eqn:Hr.
    + by rewrite !decide_True.
    + rewrite !decide_False by done.
      destruct (list_find _ (map m (l1 ++ s :: l2))) as [[i x]|];
        destruct (list_find _ (map m l1)) as [[j y]|]; simpl in *; by f_equal.
Qed.

Lemma prevision_cut (columns : list pystr) (df1 df2 : Frame) (s : Row) :
  has_column (py "champ_zone") columns = true →
  upper (strip_accents_spaces (str (default NaN (s !! py "champ_zone"))))
  = py "PREVISION" →
  cut_prevision columns (df1 ++ s :: df2) = cut_prevision columns df1.
Proof.
  intros Hcol Hs. unfold cut_prevision, _get_prevision_index.
  rewrite Hcol. cbn [negb]. cbv zeta.
  unfold _strip_col, column. rewrite !map_map.
  apply (cut_at_first
           (λ r : Row, str_eqb (upper (strip_accents_spaces
                                         (str (default NaN (r !! py "champ_zone")))))
                               (py "PREVISION"))).
  rewrite Hs. by apply bool_decide_eq_true.
Qed.

(** Replacing the grid of one sheet by a grid that cleans to the same
    frame changes nothing in the loop over the sheets. *)
Lemma sheet_by_name_replace (before after : Workbook) (name : pystr)
    (raw1 raw2 : RawFrame) (n : pystr) :
  sheet_by_name (before ++ (name, raw1) :: after) n
  = sheet_by_name (before ++ (name, raw2) :: after) n
  ∨ n = name
    ∧ sheet_by_name (before ++ (name, raw1) :: after) n = Some raw1
    ∧ sheet_by_name (before ++ (name, raw2) :: after) n = Some raw2.
Proof.
  induction before as [| [name' raw'] before IH]; cbn [app sheet_by_name].
  - destruct (decide (name = n)) as [-> | Hne]; [by right | by left].
  - destruct (decide (name' = n)); [by left | exact IH].
Qed.

Lemma sheets_loop_replace (before after : Workbook) (name : pystr)
    (raw1 raw2 : RawFrame) (idxs : list Z) (final_dfs : list Frame)
    (dates : list cell) :
  clean_sheet name raw1 = clean_sheet name raw2 →
  sheets_loop (before ++ (name, raw1) :: after) idxs final_dfs dates
  = sheets_loop (before ++ (name, raw2) :: after) idxs final_dfs dates.
Proof.
  intros Hclean. revert final_dfs dates.
  induction idxs as [| i idxs IH]; intros final_dfs dates; [done |].
  rewrite !sheets_loop_cons.
  assert (map fst (before ++ (name, raw1) :: after)
          = map fst (before ++ (name, raw2) :: after)) as ->.
  { by rewrite !map_app. }
  apply bind_ext. intros n. unfold xls_parse.
  rewrite !bind_assoc. apply bind_ext. intros [].
  assert (∀ raw : RawFrame,
            (r ← lift_exn (clean_sheet n raw);
             match r.2 with
             | None => sheets_loop (before ++ (name, raw1) :: after) idxs
                         final_dfs (dates ++ [r.1])
             | Some df => sheets_loop (before ++ (name, raw1) :: after) idxs
                            (final_dfs ++ [df]) (dates ++ [r.1])
             end)
            = (r ← lift_exn (clean_sheet n raw);
               match r.2 with
               | None => sheets_loop (before ++ (name, raw2) :: after) idxs
                           final_dfs (dates ++ [r.1])
               | Some df => sheets_loop (before ++ (name, raw2) :: after) idxs
                              (final_dfs ++ [df]) (dates ++ [r.1])
               end)) as Hrest.
  { intros raw. apply bind_ext. intros [dt [df|]]; apply IH. }
  destruct (sheet_by_name_replace before after name raw1 raw2 n)
    as [-> | (-> & -> & ->)].
  - destruct (sheet_by_name _ n) as [raw|]; [| done].
    rewrite !bind_ret. apply Hrest.
  - rewrite !bind_ret, Hclean. apply Hrest.
Qed.

(** C6.  In a sheet whose data lines are [pre], then a line whose
    [champ_zone] normalises to "PREVISION", then [post], the cleaned
    frame is that of the sheet cut before the marker: the marker and
    every line after it leave no trace in the output, whatever they
    hold, also when [pre] is empty.  So a workbook with such a sheet
    gives, on any range, the frames, the dates and the failures of the
    workbook in which that sheet ends before its marker. *)
Theorem prevision_discards_rest sheet_name (top : list (list cell)) header
    (pre post : list (list cell)) (marker : list cell) :
  length top = 5%nat →
  top !! 4%nat = Some header →
  is_prevision_row (norm_cols header) marker →
  clean_sheet sheet_name (top ++ pre ++ marker :: post)
  = clean_sheet sheet_name (top ++ pre)
  ∧ ∀ (before after : Workbook) (start_sheet end_sheet : Z),
      clean_week_sheets
        (before ++ (sheet_name, top ++ pre ++ marker :: post) :: after)
        start_sheet end_sheet
      = clean_week_sheets (before ++ (sheet_name, top ++ pre) :: after)
          start_sheet end_sheet.
Proof.
  intros Hlen Hhdr [Hna Hmark].
  assert (clean_sheet sheet_name (top ++ pre ++ marker :: post)
          = clean_sheet sheet_name (top ++ pre)) as Hsheet.
  { assert (has_column (py "champ_zone") (norm_cols header) = true) as Hcol.
    { unfold row_get in Hna.
      destruct (mk_row (norm_cols header) marker !! py "champ_zone") as [v|] eqn:Hv;
        [| done].
      apply bool_decide_eq_true. by eapply mk_row_lookup_columns. }
    unfold clean_sheet.
    assert (∀ rest, _get_date_from_raw (top ++ rest) = _get_date_from_raw top) as Hdate.
    { intros rest. unfold _get_date_from_raw. by rewrite lookup_app_l by lia. }
    rewrite !Hdate, !(lookup_app_l top), Hhdr by lia.
    rewrite Hcol. cbn [negb]. cbv zeta.
    rewrite !drop_app_length' by done.
    rewrite map_app. cbn [map]. unfold select_rows.
    rewrite filter_app, filter_cons_True by done.
    by rewrite prevision_cut. }
  split; [exact Hsheet |].
  intros before after start_sheet end_sheet. unfold clean_week_sheets.
  rewrite !map_app. cbn [map fst].
  destruct (_ || _); [done |].
  by apply sheets_loop_replace.
Qed.

End Prevision.

(** ** Columns *)

Lemma fillna_astype (v : bool) (col : list bool) :
  fillna v (astype_boolean col) = col.
Proof.
  unfold fillna, astype_boolean. rewrite map_map. simpl. apply map_id.
Qed.

Lemma ffill_from_astype (last : option bool) (col : list bool) :
  ffill_from last (astype_boolean col) = astype_boolean col.
Proof.
  revert last. induction col as [| b col IH]; intros last; simpl; [done |].
  f_equal. apply IH.
Qed.

(** Forward filling a column without missing value changes nothing. *)
Lemma ffill_astype (col : list bool) :
  ffill (astype_boolean col) = astype_boolean col.
Proof. apply ffill_from_astype. Qed.

Lemma length_cummax_from acc col : length (cummax_from acc col) = length col.
Proof. revert acc. induction col; intros; simpl; auto. Qed.

Lemma cummax_from_false col : cummax_from false col = cummax col.
Proof. by destruct col. Qed.

Lemma length_cummax col : length (cummax col) = length col.
Proof. rewrite <- cummax_from_false. apply length_cummax_from. Qed.

Lemma cummax_from_lookup acc col i :
  (i < length col)%nat →
  cummax_from acc col !! i = Some (acc || existsb id (take (S i) col)).
Proof.
  revert acc i. induction col as [| b col IH]; intros acc i Hi; simpl in *; [lia |].
  destruct i as [| i]; simpl.
  - by rewrite orb_false_r.
  - rewrite IH by lia. by rewrite orb_assoc.
Qed.

(** The running maximum at a row is the disjunction of the column up to
    that row. *)
Lemma cummax_lookup col i :
  (i < length col)%nat →
  cummax col !! i = Some (existsb id (take (S i) col)).
Proof. intros Hi. rewrite <- cummax_from_false. by rewrite cummax_from_lookup. Qed.

Lemma existsb_take_mono (col : list bool) i j :
  (i ≤ j)%nat → existsb id (take i col) = true → existsb id (take j col) = true.
Proof.
  intros Hij Hi. apply existsb_exists in Hi as (b & Hb & Hid).
  apply existsb_exists. exists b. split; [| done].
  apply list_elem_of_In. apply list_elem_of_In in Hb.
  apply list_elem_of_lookup in Hb as [n Hn].
  apply lookup_take_Some in Hn as [Hn Hlt].
  apply list_elem_of_lookup. exists n. apply lookup_take_Some. split; [done | lia].
Qed.

(** Once the running maximum is true it stays true. *)
Lemma cummax_latch col i j :
  (i ≤ j)%nat → (j < length col)%nat →
  cummax col !! i = Some true → cummax col !! j = Some true.
Proof.
  intros Hij Hj. rewrite !cummax_lookup by lia. intros [= Hi]. f_equal.
  eapply existsb_take_mono; [| exact Hi]. lia.
Qed.

Lemma np_where_lookup (cond col : list bool) (v c x : bool) (i : nat) :
  cond !! i = Some c → col !! i = Some x →
  np_where cond v col !! i = Some (if c then v else x).
Proof.
  intros Hc Hx. unfold np_where. by rewrite lookup_zip_with, Hc, Hx.
Qed.

Lemma with_flags_id (r : DailyFact) :
  with_flags r (termine r) (en_cours r) (reporte r) = r.
Proof. by destruct r. Qed.

(** ** The stable sort *)

Section Sort.
Context {A : Type} (R : relation A) `{∀ x y, Decision (R x y)}.

Lemma insert_by_Permutation (x : A) (l : list A) : insert_by R x l ≡ₚ x :: l.
Proof.
  induction l as [| y l IH]; simpl; [done |].
  case_decide; [done |]. by rewrite IH, Permutation_swap.
Qed.

Lemma sort_values_Permutation (l : list A) : sort_values R l ≡ₚ l.
Proof.
  unfold sort_values. induction l as [| x l IH]; simpl; [done |].
  by rewrite insert_by_Permutation, IH.
Qed.

Lemma insert_by_sorted `{!Total R, !Transitive R} (x : A) (l : list A) :
  StronglySorted R l → StronglySorted R (insert_by R x l).
Proof.
  induction 1 as [| y l Hl IH Hy]; simpl.
  - repeat constructor.
  - case_decide as Hxy.
    + constructor; [by constructor |].
      constructor; [done |]. eapply Forall_impl; [exact Hy |].
      intros z Hyz. by transitivity y.
    + constructor; [done |]. rewrite insert_by_Permutation.
      constructor; [| done]. by destruct (total R x y).
Qed.

Lemma StronglySorted_sort_values `{!Total R, !Transitive R} (l : list A) :
  StronglySorted R (sort_values R l).
Proof.
  unfold sort_values. induction l as [| x l IH]; simpl; [constructor |].
  by apply insert_by_sorted.
Qed.

(** Sorting a sorted frame leaves it as it is. *)
Lemma sort_values_sorted (l : list A) :
  StronglySorted R l → sort_values R l = l.
Proof.
  unfold sort_values. induction 1 as [| x l Hl IH Hx]; simpl; [done |].
  rewrite IH. destruct Hx as [| y l' Hxy _]; simpl; [done |].
  by rewrite decide_True.
Qed.

End Sort.

(** ** Sorting by date *)

Lemma date_leb_total (a b : option timestamp) :
  date_leb a b = true ∨ date_leb b a = true.
Proof.
  destruct a as [x|], b as [y|]; simpl; auto.
  destruct (Z.leb_spec (ts_day x) (ts_day y)); [by left |].
  right. apply Z.leb_le. lia.
Qed.

Lemma date_leb_trans (a b c : option timestamp) :
  date_leb a b = true → date_leb b c = true → date_leb a c = true.
Proof.
  destruct a as [x|], b as [y|], c as [z|]; simpl; try done.
  rewrite !Z.leb_le. lia.
Qed.

#[global] Instance by_date_total {A} (date : A → option timestamp) :
  Total (by_date date).
Proof.
  intros x y. unfold by_date.
  destruct (date_leb_total (date x) (date y)) as [-> | ->]; simpl; auto.
Qed.

#[global] Instance by_date_trans {A} (date : A → option timestamp) :
  Transitive (by_date date).
Proof.
  intros x y z. unfold by_date. rewrite !Is_true_true.
  apply date_leb_trans.
Qed.

(** ** The roll-up, row by row *)

(** The row of [_rollup] at index [i]: the daily row at that index of
    the group sorted by date, the forward-filled flags equal to the raw
    ones, and the latch equal to the disjunction of [termine] so far. *)
Lemma rollup_lookup (group : list DailyFact) (i : nat) (x : RolledAction) :
  _rollup group !! i = Some x →
  ∃ r, sort_values (by_date date_rapport) group !! i = Some r
       ∧ x = (let seen := existsb id (take (S i)
                            (map termine (sort_values (by_date date_rapport) group))) in
              mkRolledAction r (en_cours r) (reporte r) seen seen
                (if seen then false else en_cours r)
                (if seen then false else reporte r)).
Proof.
  unfold _rollup. rewrite !fillna_astype, !ffill_astype, !fillna_astype.
  set (g := sort_values (by_date date_rapport) group).
  rewrite list_lookup_imap.
  destruct (g !! i) as [r|] eqn:Hr; [| done]. simpl. intros [= <-].
  exists r. split; [done |].
  assert (i < length g)%nat as Hi by (by eapply lookup_lt_Some).
  assert (∀ f : DailyFact → bool, map f g !! i = Some (f r)) as Hcol.
  { intros f. by rewrite map_fmap, list_lookup_fmap, Hr. }
  assert (cummax (map termine g) !! i
          = Some (existsb id (take (S i) (map termine g)))) as Hseen.
  { apply cummax_lookup. by rewrite length_map. }
  rewrite !(list_lookup_total_correct _ _ _ (Hcol _)).
  rewrite !(list_lookup_total_correct _ _ _ Hseen).
  rewrite !(list_lookup_total_correct _ _ _ (np_where_lookup _ _ _ _ _ _ Hseen (Hcol _))).
  by rewrite with_flags_id.
Qed.

Lemma length_rollup group : length (_rollup group) = length group.
Proof.
  unfold _rollup. rewrite length_imap.
  apply Permutation_length, sort_values_Permutation.
Qed.

Lemma rollup_fact group :
  map fact (_rollup group) = sort_values (by_date date_rapport) group.
Proof.
  apply list_eq. intros i. rewrite map_fmap, list_lookup_fmap.
  destruct (_rollup group !! i) as [x|] eqn:Hx; simpl.
  - apply rollup_lookup in Hx as (r & Hr & ->). by rewrite Hr.
  - symmetry. apply lookup_ge_None. apply lookup_ge_None in Hx.
    rewrite length_rollup in Hx.
    by rewrite (Permutation_length (sort_values_Permutation _ group)).
Qed.

Lemma rollup_termine_final group :
  map termine_final (_rollup group)
  = cummax (map termine (sort_values (by_date date_rapport) group)).
Proof.
  apply list_eq. intros i. rewrite map_fmap, list_lookup_fmap.
  destruct (_rollup group !! i) as [x|] eqn:Hx; simpl.
  - pose proof (lookup_lt_Some _ _ _ Hx) as Hi. rewrite length_rollup in Hi.
    apply rollup_lookup in Hx as (r & Hr & ->). simpl.
    rewrite cummax_lookup; [done |].
    by rewrite length_map, (Permutation_length (sort_values_Permutation _ group)).
  - symmetry. apply lookup_ge_None. apply lookup_ge_None in Hx.
    rewrite length_rollup in Hx.
    by rewrite length_cummax, length_map,
      (Permutation_length (sort_values_Permutation _ group)).
Qed.

(** The latch silences the two other flags, on every rolled row. *)
Lemma rollup_termine_wins group x :
  x ∈ _rollup group →
  termine_final x = true → en_cours_final x = false ∧ reporte_final x = false.
Proof.
  intros [i Hx]%list_elem_of_lookup.
  apply rollup_lookup in Hx as (r & _ & ->). simpl.
  by intros ->.
Qed.

Lemma rollup_key group x :
  x ∈ _rollup group → ∃ r, r ∈ group ∧ action_key r = action_key (fact x).
Proof.
  intros [i Hx]%list_elem_of_lookup.
  apply rollup_lookup in Hx as (r & Hr & ->). simpl.
  exists r. split; [| done].
  rewrite <- (sort_values_Permutation (by_date date_rapport) group).
  by eapply list_elem_of_lookup_2.
Qed.

(** ** Grouping *)

Section Grouping.
Context {A B : Type} (key : A → pystr) (key' : B → pystr).

Lemma group_keys_NoDup (df : list A) : NoDup (group_keys key df).
Proof.
  unfold group_keys. rewrite sort_values_Permutation. apply NoDup_remove_dups.
Qed.

Lemma elem_of_group_keys (df : list A) (k : pystr) :
  k ∈ group_keys key df ↔ ∃ r, r ∈ df ∧ key r = k.
Proof.
  unfold group_keys. rewrite sort_values_Permutation, elem_of_remove_dups.
  rewrite map_fmap, list_elem_of_fmap.
  split; intros (r & H1 & H2); exists r; by split.
Qed.

Lemma group_nil (df : list A) (k : pystr) :
  k ∉ group_keys key df → group key k df = [].
Proof.
  intros Hk. unfold group.
  destruct (filter (λ r, key r = k) df) as [| r l] eqn:Hf; [done |].
  exfalso. apply Hk, elem_of_group_keys. exists r.
  assert (r ∈ filter (λ r, key r = k) df) as Hr by (rewrite Hf; left).
  apply list_elem_of_filter in Hr as [? ?]. done.
Qed.

Lemma filter_all (P : B → Prop) `{∀ x, Decision (P x)} (l : list B) :
  Forall P l → filter P l = l.
Proof.
  induction 1 as [| x l Hx _ IH]; [done |].
  by rewrite filter_cons_True, IH.
Qed.

Lemma filter_none (P : B → Prop) `{∀ x, Decision (P x)} (l : list B) :
  Forall (λ x, ¬ P x) l → filter P l = [].
Proof.
  induction 1 as [| x l Hx _ IH]; [done |].
  by rewrite filter_cons_False, IH.
Qed.

Lemma filter_bind_keys (F : pystr → list B) (k : pystr) (keys : list pystr) :
  (∀ k' x, x ∈ F k' → key' x = k') →
  NoDup keys →
  filter (λ x, key' x = k) (keys ≫= F) = if decide (k ∈ keys) then F k else [].
Proof.
  intros HF. induction 1 as [| k0 keys Hk0 Hnd IH]; [done |].
  rewrite bind_cons, filter_app, IH.
  destruct (decide (k0 = k)) as [-> | Hne].
  - rewrite (decide_False (P := k ∈ keys)) by done.
    rewrite decide_True by left.
    rewrite filter_all; [by rewrite app_nil_r |].
    apply Forall_forall. intros x Hx. by apply HF in Hx.
  - rewrite filter_none.
    + simpl. destruct (decide (k ∈ keys)).
      * by rewrite decide_True by (by right).
      * rewrite decide_False; [done |]. by intros [? | ?]%elem_of_cons.
    + apply Forall_forall. intros x Hx. apply HF in Hx. congruence.
Qed.

(** The rows of one key in the result of a grouped [apply] are the
    result for the group of that key, as soon as [f] keeps the keys of
    the rows it is given. *)
Lemma filter_groupby_apply (f : list A → list B) (df : list A) (k : pystr) :
  f [] = [] →
  (∀ g x, x ∈ f g → ∃ r, r ∈ g ∧ key r = key' x) →
  filter (λ x, key' x = k) (groupby_apply key f df) = f (group key k df).
Proof.
  intros Hnil Hkeys. unfold groupby_apply.
  rewrite (filter_bind_keys (λ k, f (group key k df))).
  - case_decide as Hk; [done |]. by rewrite group_nil.
  - intros k' x Hx. apply Hkeys in Hx as (r & Hr & <-).
    unfold group in Hr. by apply list_elem_of_filter in Hr as [? _].
  - apply group_keys_NoDup.
Qed.

Lemma elem_of_groupby_apply (f : list A → list B) (df : list A) (x : B) :
  x ∈ groupby_apply key f df → ∃ k, x ∈ f (group key k df).
Proof.
  unfold groupby_apply. intros (k & Hx & _)%list_elem_of_bind. by exists k.
Qed.

End Grouping.

Lemma group_Permutation {A} (key : A → pystr) (k : pystr) (l1 l2 : list A) :
  l1 ≡ₚ l2 → group key k l1 ≡ₚ group key k l2.
Proof. intros Hp. unfold group. by rewrite Hp. Qed.

(** ** The rolled table *)

Lemma StronglySorted_lookup {A} (R : relation A) (l : list A) i j x y :
  StronglySorted R l → (i < j)%nat →
  l !! i = Some x → l !! j = Some y → R x y.
Proof.
  intros Hs. revert i j. induction Hs as [| a l Hs IH Hall]; intros i j Hij Hi Hj.
  - done.
  - destruct j as [| j]; [lia |]. simpl in Hj. destruct i as [| i]; simpl in Hi.
    + injection Hi as <-. rewrite Forall_forall in Hall.
      apply Hall. by eapply list_elem_of_lookup_2.
    + eapply IH; [| done | done]. lia.
Qed.

Lemma filter_fmap {A B} (f : A → B) (P : B → Prop) `{∀ y, Decision (P y)}
    (l : list A) :
  filter P (f <$> l) = f <$> filter (λ x, P (f x)) l.
Proof.
  induction l as [| x l IH]; [done |]. csimpl.
  rewrite !filter_cons, IH. by destruct (decide (P (f x))).
Qed.

(** The rows of the rolled table are those of [_rollup] on the groups. *)
Lemma rolled_elem (daily : list DailyFact) (x : RolledAction) :
  x ∈ groupby_apply action_key _rollup daily → ∃ g, x ∈ _rollup g.
Proof. intros [k Hx]%elem_of_groupby_apply. eauto. Qed.

(** The timeline of an action is the roll-up of its group. *)
Lemma timeline_rollup (daily : list DailyFact) (k : pystr) :
  timeline (tables_of_daily daily) k
  = map consistent_row
      (_rollup (group action_key k
                  (sort_values (by_key_date action_key date_rapport) daily))).
Proof.
  unfold timeline, tables_of_daily. cbn [actions_consistent].
  rewrite !map_fmap, filter_fmap. f_equal.
  apply (filter_groupby_apply action_key (λ x, action_key (fact x))).
  - done.
  - intros g x Hx. by apply rollup_key.
Qed.

Lemma consistent_rows_termine_wins (rolled : list RolledAction) :
  Forall (λ x, termine_final x = true →
               en_cours_final x = false ∧ reporte_final x = false) rolled →
  Forall (λ r, termine r = true → en_cours r = false ∧ reporte r = false)
         (map consistent_row rolled).
Proof.
  intros Hall. rewrite map_fmap. apply Forall_fmap.
  eapply Forall_impl; [exact Hall |]. by intros x Hx.
Qed.

(** C4.  For every action key, the rows of the rolled table of that key
    come in ascending date order (null dates last); along them the
    final [termine] never goes back from true to false, so a row of a
    strictly later date than a row with [termine] true has [termine]
    true; and on every row where the final [termine] is true the final
    [en_cours] and [reporte] are false. *)
Theorem termine_final_latch (daily : list DailyFact) (k : pystr) :
  let rows := timeline (tables_of_daily daily) k in
  StronglySorted (by_date date_rapport) rows
  ∧ non_decreasing (map termine rows)
  ∧ (∀ i j r1 r2,
       rows !! i = Some r1 → rows !! j = Some r2 →
       earlier (date_rapport r1) (date_rapport r2) →
       termine r1 = true → termine r2 = true)
  ∧ Forall (λ r, termine r = true → en_cours r = false ∧ reporte r = false) rows.
Proof.
  intros rows. subst rows. rewrite timeline_rollup.
  set (g := group action_key k _).
  assert (StronglySorted (by_date date_rapport) (map consistent_row (_rollup g)))
    as Hsorted.
  { rewrite map_fmap.
    apply (StronglySorted_fmap _ (by_date (λ x, date_rapport (fact x)))); [done |].
    pose proof (StronglySorted_sort_values (by_date date_rapport) g) as Hs.
    rewrite <- rollup_fact, map_fmap in Hs.
    clear -Hs. induction (_rollup g) as [| x l IH]; [constructor |].
    csimpl in Hs. apply StronglySorted_cons in Hs as [Hx Hl].
    constructor; [by apply IH |]. rewrite Forall_fmap in Hx. exact Hx. }
  assert (non_decreasing (map termine (map consistent_row (_rollup g)))) as Hmono.
  { rewrite map_map. simpl. rewrite rollup_termine_final.
    intros i j Hij Hj. rewrite length_cummax in Hj. by apply cummax_latch. }
  split; [done |]. split; [done |]. split.
  - intros i j r1 r2 Hi Hj Hlt Ht.
    assert (i ≤ j)%nat as Hij.
    { destruct (decide (j < i)%nat) as [Hji |]; [| lia].
      pose proof (StronglySorted_lookup _ _ _ _ _ _ Hsorted Hji Hj Hi) as Hle.
      unfold by_date, earlier in *. rewrite Hlt in Hle. done. }
    assert (map termine (map consistent_row (_rollup g)) !! j = Some true) as Hres.
    { apply (Hmono i j Hij).
      - rewrite length_map. by eapply lookup_lt_Some.
      - by rewrite map_fmap, list_lookup_fmap, Hi, <- Ht. }
    rewrite map_fmap, list_lookup_fmap, Hj in Hres. by injection Hres.
  - apply consistent_rows_termine_wins, Forall_forall.
    intros x Hx. by eapply rollup_termine_wins.
Qed.

Lemma elem_of_tail1 {A} (l : list A) (x : A) : x ∈ tail1 l → x ∈ l.
Proof. unfold tail1. apply subseteq_drop. Qed.

(** Every row of [latest] is the projection of a row of a roll-up. *)
Lemma latest_elem (daily : list DailyFact) (l : LatestAction) :
  l ∈ actions_latest (tables_of_daily daily) →
  ∃ g x, x ∈ _rollup g ∧ l = latest_row x.
Proof.
  unfold tables_of_daily. cbn [actions_latest]. rewrite map_fmap.
  intros (x & -> & Hx)%list_elem_of_fmap.
  apply elem_of_groupby_apply in Hx as [k Hx].
  apply elem_of_tail1 in Hx. unfold group in Hx.
  apply list_elem_of_filter in Hx as [_ Hx].
  rewrite sort_values_Permutation in Hx.
  apply rolled_elem in Hx as [g Hx]. by exists g, x.
Qed.


(** ** Equipment downtime *)

Lemma group_filter {A} (key : A → pystr) (P : A → Prop) `{∀ x, Decision (P x)}
    (k : pystr) (l : list A) :
  group key k (filter P l) = filter P (group key k l).
Proof.
  unfold group. induction l as [| x l IH]; [done |].
  rewrite !filter_cons.
  destruct (decide (P x)), (decide (key x = k));
    rewrite ?filter_cons, ?decide_True, ?decide_False by done; by rewrite IH.
Qed.

(** C7.  [equipment_downtime] is the daily table filtered on
    [indisponible], in the order of the daily table and with every
    occurrence kept; so an action present with [indisponible] true on a
    first and on a third sheet, and absent from the second, has exactly
    these two rows in it. *)
Theorem downtime_is_raw_filter :
  (∀ daily : list DailyFact,
     equipment_downtime (tables_of_daily daily)
     = filter (λ r, indisponible r = true) daily)
  ∧ (∀ (rt : PyRuntime) fs tmp_path file_bytes start_sheet end_sheet t,
       outcome (build_week_tables_from_excel_bytes fs tmp_path file_bytes
                  start_sheet end_sheet).2 = inr t →
       equipment_downtime t = filter (λ r, indisponible r = true) (actions_daily t))
  ∧ (∀ (daily : list DailyFact) (k : pystr) (day1 day3 : DailyFact),
       group action_key k daily = [day1; day3] →
       indisponible day1 = true → indisponible day3 = true →
       group action_key k (equipment_downtime (tables_of_daily daily))
       = [day1; day3]).
Proof.
  split; [done |]. split.
  - intros rt fs tmp_path file_bytes start_sheet end_sheet t Ht.
    apply build_tables_of_daily in Ht as (daily & -> & _). done.
  - intros daily k day1 day3 Hgroup H1 H3.
    unfold tables_of_daily. cbn [equipment_downtime].
    rewrite group_filter, Hgroup.
    by rewrite filter_cons_True, filter_cons_True by done.
Qed.

(** ** The transitions *)

Lemma prev_shift (col : list bool) :
  fillna false (shift1 (astype_boolean col)) = take (length col) (false :: col).
Proof.
  unfold fillna, shift1, astype_boolean. rewrite length_map, !map_fmap, fmap_take.
  csimpl. by rewrite <- list_fmap_compose, list_fmap_id.
Qed.

(** The column-wise frame of [_transitions] is the one-pass frame, for
    any flags taken as those of the missing predecessor. *)
Lemma diff_imap (g : list RolledAction) (pt pe pr : bool) :
  imap (λ i x,
          let c_t := map termine_final g in
          let c_e := map en_cours_final g in
          let c_r := map reporte_final g in
          let p_t := take (length c_t) (pt :: c_t) in
          let p_e := take (length c_e) (pe :: c_e) in
          let p_r := take (length c_r) (pr :: c_r) in
          {| d_action_key := action_key (fact x);
             d_date_rapport := date_rapport (fact x);
             d_termine_final := c_t !!! i;
             d_en_cours_final := c_e !!! i;
             d_reporte_final := c_r !!! i;
             termine_final_prev := p_t !!! i;
             termine_final_changed := col_ne c_t p_t !!! i;
             en_cours_final_prev := p_e !!! i;
             en_cours_final_changed := col_ne c_e p_e !!! i;
             reporte_final_prev := p_r !!! i;
             reporte_final_changed := col_ne c_r p_r !!! i |}) g
  = diff_from pt pe pr g.
Proof.
  revert pt pe pr. induction g as [| x g IH]; intros pt pe pr; [done |].
  rewrite imap_cons. cbn [diff_from]. f_equal.
  rewrite <- IH. apply imap_ext. intros i y _. reflexivity.
Qed.

Lemma diff_rows_scan (sub : list RolledAction) :
  diff_rows sub
  = diff_from false false false
      (sort_values (by_date (λ r, date_rapport (fact r))) sub).
Proof.
  unfold diff_rows. cbv zeta. rewrite !fillna_astype, !prev_shift.
  apply diff_imap.
Qed.

Lemma transitions_scan (sub : list RolledAction) :
  _transitions sub
  = map event_of
      (filter (λ row, any_changed row = true)
         (diff_from false false false
            (sort_values (by_date (λ r, date_rapport (fact r))) sub))).
Proof. unfold _transitions. by rewrite diff_rows_scan. Qed.

Lemma diff_from_elem (g : list RolledAction) (pt pe pr : bool) (row : DiffRow) :
  row ∈ diff_from pt pe pr g →
  ∃ x, x ∈ g ∧ d_action_key row = action_key (fact x).
Proof.
  revert pt pe pr. induction g as [| x g IH]; intros pt pe pr; cbn [diff_from].
  - by intros ?%elem_of_nil.
  - intros [-> | Hrow]%elem_of_cons.
    + exists x. split; [left | done].
    + apply IH in Hrow as (y & Hy & Hk). exists y. split; [by right | done].
Qed.

Lemma transitions_key (g : list RolledAction) (e : TransitionEvent) :
  e ∈ _transitions g →
  ∃ x, x ∈ g ∧ action_key (fact x) = tr_action_key e.
Proof.
  rewrite transitions_scan, map_fmap.
  intros (row & -> & Hrow)%list_elem_of_fmap.
  apply list_elem_of_filter in Hrow as [_ Hrow].
  apply diff_from_elem in Hrow as (x & Hx & Hk).
  rewrite sort_values_Permutation in Hx. exists x. by split.
Qed.

(** The events of an action are the transitions of the roll-up of its
    group. *)
Lemma events_rollup (daily : list DailyFact) (k : pystr) :
  events (tables_of_daily daily) k
  = _transitions
      (_rollup (group action_key k
                  (sort_values (by_key_date action_key date_rapport) daily))).
Proof.
  unfold events, tables_of_daily. cbn [transitions].
  rewrite (filter_groupby_apply (λ x, action_key (fact x)) tr_action_key);
    [| done | apply transitions_key].
  f_equal.
  apply (filter_groupby_apply action_key (λ x, action_key (fact x))); [done |].
  intros g x Hx. by apply rollup_key.
Qed.

(** A frame whose final flags are those of the predecessor throughout
    has no changed row. *)
Lemma diff_from_steady (g : list RolledAction) (T E P : bool) :
  Forall (λ x, termine_final x = T ∧ en_cours_final x = E ∧ reporte_final x = P) g →
  filter (λ row, any_changed row = true) (diff_from T E P g) = [].
Proof.
  induction 1 as [| x g (Ht & He & Hp) _ IH]; [done |].
  cbn [diff_from]. rewrite filter_cons_False.
  - by rewrite Ht, He, Hp.
  - unfold any_changed. simpl. by rewrite Ht, He, Hp, !xorb_nilpotent.
Qed.

Lemma existsb_take_constant (col : list bool) (T : bool) (i : nat) :
  Forall (λ b, b = T) col → (i < length col)%nat →
  existsb id (take (S i) col) = T.
Proof.
  intros Hall Hi. destruct col as [| b col]; [simpl in Hi; lia |].
  apply Forall_cons in Hall as [-> Hall]. simpl.
  destruct T; [done |]. simpl.
  apply not_true_is_false. intros (b & Hb & Hid)%existsb_exists.
  apply list_elem_of_In, subseteq_take in Hb.
  rewrite Forall_forall in Hall. apply Hall in Hb. by subst.
Qed.

(** The roll-up of rows whose raw flags are all [(T, E, P)] has the same
    final flags on all its rows. *)
Lemma rollup_steady (g : list DailyFact) (T E P : bool) :
  Forall (λ r, termine r = T ∧ en_cours r = E ∧ reporte r = P) g →
  Forall (λ x, termine_final x = T
               ∧ en_cours_final x = (if T then false else E)
               ∧ reporte_final x = (if T then false else P)) (_rollup g).
Proof.
  intros Hall. apply Forall_forall. intros x [i Hx]%list_elem_of_lookup.
  pose proof (lookup_lt_Some _ _ _ Hx) as Hi. rewrite length_rollup in Hi.
  apply rollup_lookup in Hx as (r & Hr & ->). cbv zeta. cbn.
  assert (r ∈ g) as Hrg.
  { rewrite <- (sort_values_Permutation (by_date date_rapport) g).
    by eapply list_elem_of_lookup_2. }
  rewrite Forall_forall in Hall. destruct (Hall r Hrg) as (_ & -> & ->).
  rewrite (existsb_take_constant _ T); [done | |].
  - rewrite map_fmap. apply Forall_fmap, Forall_forall. intros r'.
    rewrite sort_values_Permutation. intros Hr'. by apply Hall.
  - by rewrite length_map, (Permutation_length (sort_values_Permutation _ g)).
Qed.

Lemma date_leb_refl (a : option timestamp) : date_leb a a = true.
Proof. destruct a; simpl; [apply Z.leb_refl | done]. Qed.

Lemma sorted_pair {A} (R : relation A) (l : list A) (a b : A) :
  l ≡ₚ [a; b] → StronglySorted R l → ¬ R b a → l = [a; b].
Proof.
  intros Hp Hs Hba. symmetry in Hp.
  apply Permutation_length_2_inv in Hp as [-> | ->]; [done |].
  apply StronglySorted_cons in Hs as [Hall _].
  apply Forall_cons in Hall as [? _]. done.
Qed.

Lemma sorted_group_Permutation (daily : list DailyFact) (k : pystr) :
  group action_key k (sort_values (by_key_date action_key date_rapport) daily)
  ≡ₚ group action_key k daily.
Proof. apply group_Permutation, sort_values_Permutation. Qed.

(** The transitions of a frame in date order whose rows all have the
    final flags [(T, E, P)]: one event, for the first row, unless the
    three flags are false. *)
Lemma transitions_steady (x : RolledAction) (g : list RolledAction) (T E P : bool) :
  Forall (λ y, termine_final y = T ∧ en_cours_final y = E ∧ reporte_final y = P)
         (x :: g) →
  map event_of
    (filter (λ row, any_changed row = true) (diff_from false false false (x :: g)))
  = if T || E || P
    then [ {| tr_action_key := action_key (fact x);
              tr_date_rapport := date_rapport (fact x);
              tr_termine := T; tr_en_cours := E; tr_reporte := P;
              change_desc :=
                _desc (mkDiffRow (action_key (fact x)) (date_rapport (fact x))
                         T E P false T false E false P) |} ]
    else [].
Proof.
  intros [(Ht & He & Hp) Hall]%Forall_cons. cbn [diff_from].
  rewrite filter_cons, Ht, He, Hp, (diff_from_steady g T E P Hall).
  unfold any_changed. cbn. rewrite !xorb_false_r.
  by destruct (T || E || P).
Qed.

(** C2, as amended.  The predecessor of the first row of an action counts
    as all false.  So an action whose raw flags never change across the
    rows where it appears gets no event when its three flags are false,
    and otherwise exactly one event, for its first row in date order,
    with the final flags of that row; and an action seen with
    [en_cours] alone on one day and with [termine] on a later day gets
    exactly two events: its first appearance, then the flip. *)
Theorem transitions_of_steady_and_flipped (daily : list DailyFact) (k : pystr) :
  let t := tables_of_daily daily in
  let rows := group action_key k daily in
  (flags_never_change rows →
   ∀ r, r ∈ rows →
     if termine r || en_cours r || reporte r
     then ∃ e, events t k = [e]
               ∧ tr_action_key e = k
               ∧ Forall (λ r', date_leb (tr_date_rapport e) (date_rapport r') = true)
                        rows
               ∧ tr_termine e = termine r
               ∧ tr_en_cours e = (if termine r then false else en_cours r)
               ∧ tr_reporte e = (if termine r then false else reporte r)
     else events t k = [])
  ∧ (∀ r1 r2,
       rows ≡ₚ [r1; r2] →
       earlier (date_rapport r1) (date_rapport r2) →
       termine r1 = false → en_cours r1 = true → reporte r1 = false →
       termine r2 = true →
       events t k
       = [ mkTransitionEvent k (date_rapport r1) false true false
             (py "en_cours: False -> True");
           mkTransitionEvent k (date_rapport r2) true false false
             (py "termine: False -> True; en_cours: True -> False") ]).
Proof.
  intros t rows. subst t.
  set (G := group action_key k
              (sort_values (by_key_date action_key date_rapport) daily)).
  assert (G ≡ₚ rows) as HG by apply sorted_group_Permutation.
  split.
  - intros Hsteady r Hr. rewrite events_rollup, transitions_scan. fold G.
    assert (Forall (λ r', termine r' = termine r ∧ en_cours r' = en_cours r
                          ∧ reporte r' = reporte r) G) as Hflags.
    { apply Forall_forall. intros r' Hr'. rewrite HG in Hr'.
      by apply Hsteady. }
    pose proof (rollup_steady G _ _ _ Hflags) as Hroll.
    pose proof (StronglySorted_sort_values
                  (by_date (λ x, date_rapport (fact x))) (_rollup G)) as Hsorted.
    pose proof (sort_values_Permutation
                  (by_date (λ x, date_rapport (fact x))) (_rollup G)) as Hperm.
    rewrite <- Hperm in Hroll.
    destruct (sort_values _ (_rollup G)) as [| x g'] eqn:Hsub.
    { apply Permutation_length in Hperm, HG. rewrite length_rollup in Hperm.
      apply list_elem_of_lookup in Hr as [i Hi]. apply lookup_lt_Some in Hi.
      simpl in Hperm. lia. }
    rewrite (transitions_steady x g' _ _ _ Hroll).
    assert (action_key (fact x) = k) as Hkey.
    { assert (x ∈ _rollup G) as Hx by (rewrite <- Hperm; left).
      apply rollup_key in Hx as (r' & Hr' & <-).
      unfold G, group in Hr'. by apply list_elem_of_filter in Hr' as [? _]. }
    assert (Forall (λ r', date_leb (date_rapport (fact x)) (date_rapport r') = true)
                   rows) as Hdate.
    { apply Forall_forall. intros r' Hr'. rewrite <- HG in Hr'.
      rewrite <- (sort_values_Permutation (by_date date_rapport) G) in Hr'.
      rewrite <- rollup_fact, map_fmap in Hr'.
      apply list_elem_of_fmap in Hr' as (y & -> & Hy). rewrite <- Hperm in Hy.
      apply elem_of_cons in Hy as [-> | Hy]; [apply date_leb_refl |].
      apply StronglySorted_cons in Hsorted as [Hall _].
      rewrite Forall_forall in Hall. apply Is_true_true. by apply Hall. }
    destruct (termine r), (en_cours r), (reporte r); cbn [orb];
      try done; by eexists.
  - intros r1 r2 Hrows Hearlier Ht1 He1 Hp1 Ht2.
    rewrite events_rollup. fold G. rewrite <- HG in Hrows.
    assert (sort_values (by_date date_rapport) G = [r1; r2]) as Hg.
    { apply (sorted_pair (by_date date_rapport)).
      - by rewrite sort_values_Permutation.
      - apply StronglySorted_sort_values; apply _.
      - unfold by_date. by apply Is_true_false. }
    assert (action_key r1 = k ∧ action_key r2 = k) as [Hk1 Hk2].
    { split.
      - assert (r1 ∈ G) as Hin by (rewrite Hrows; left).
        unfold G, group in Hin. by apply list_elem_of_filter in Hin as [? _].
      - assert (r2 ∈ G) as Hin by (rewrite Hrows; right; left).
        unfold G, group in Hin. by apply list_elem_of_filter in Hin as [? _]. }
    assert (_rollup G
            = [ mkRolledAction r1 true false false false true false;
                mkRolledAction r2 (en_cours r2) (reporte r2) true true false false ])
      as ->.
    { unfold _rollup. rewrite Hg. cbn. rewrite !with_flags_id.
      by rewrite Ht1, He1, Hp1, Ht2. }
    rewrite transitions_scan.
    rewrite (sorted_pair _ _ _ _ (sort_values_Permutation _ _)
               (StronglySorted_sort_values _ _)).
    + cbn. by rewrite Hk1, Hk2.
    + unfold by_date. cbn. by apply Is_true_false.
Qed.

(** ** Normalisation of ASCII text *)

Section Ascii.
Context `{rt : PyRuntime} `{!AsciiRuntime rt}.

Lemma str_replace_absent (a b : N) (s : pystr) :
  a ∉ s → str_replace a b s = s.
Proof.
  unfold str_replace. induction s as [| c s IH]; intros Ha; [done |].
  apply not_elem_of_cons in Ha as [Hne Ha]. simpl.
  rewrite decide_False by done. by rewrite IH.
Qed.

Lemma str_split_aux_word (s cur : pystr) :
  Forall (λ c, isspace c = false) s →
  str_split_aux isspace s cur
  = match reverse cur ++ s with [] => [] | w => [w] end.
Proof.
  revert cur. induction s as [| c s IH]; intros cur Hall.
  - simpl. rewrite app_nil_r. destruct cur as [| c cur]; [done |].
    destruct (reverse (c :: cur)) eqn:Hrev; [| done].
    apply (f_equal length) in Hrev. rewrite length_reverse in Hrev. done.
  - apply Forall_cons in Hall as [Hc Hall]. simpl. rewrite Hc, IH by done.
    by rewrite reverse_cons, <- app_assoc.
Qed.

(** A word of ASCII characters without blank is its own normal form. *)
Lemma strip_accents_spaces_word (s : pystr) :
  Forall (λ c, is_ascii c ∧ Ref.isspace c = false) s →
  strip_accents_spaces s = s.
Proof.
  intros Hall.
  assert (Forall is_ascii s) as Hascii.
  { apply (Forall_impl _ _ _ Hall). by intros c [? ?]. }
  assert (Forall (λ c, isspace c = false) s) as Hsp.
  { apply (Forall_impl _ _ _ Hall). intros c [Hc Hs]. by rewrite isspace_ascii. }
  assert (∀ a, Ref.isspace a = true → a ∉ s) as Habs.
  { intros a Ha Hin. rewrite Forall_forall in Hall.
    destruct (Hall a Hin) as [_ Hf]. congruence. }
  unfold strip_accents_spaces.
  rewrite (str_replace_absent 10) by (by apply Habs).
  rewrite (str_replace_absent 13) by (by apply Habs).
  unfold str_split. rewrite str_split_aux_word by done.
  change (reverse [] ++ s) with s.
  assert (str_join (py " ") match s with [] => [] | n :: l => [n :: l] end = s)
    as ->.
  { by destruct s. }
  cbv zeta. rewrite nfkd_ascii by done.
  apply filter_all. eapply Forall_impl; [exact Hascii |].
  intros c Hc. by apply combining_ascii.
Qed.

Lemma lower_strip_word (s : pystr) :
  Forall (λ c, is_ascii c ∧ Ref.isspace c = false) s →
  lower (strip_accents_spaces s) = Ref.lower s.
Proof.
  intros Hall. rewrite strip_accents_spaces_word by done.
  apply lower_ascii. apply (Forall_impl _ _ _ Hall). by intros c [? ?].
Qed.

End Ascii.

(** ** The reference run time on ASCII *)

Lemma Ref_nfkd_char_ascii (c : N) : is_ascii c → Ref.nfkd_char c = [c].
Proof.
  unfold is_ascii, Ref.nfkd_char. intros Hc.
  rewrite (proj2 (N.leb_gt 160 c)), (proj2 (N.eqb_neq c 255)) by lia.
  rewrite (proj2 (N.leb_gt 192 c)), (proj2 (N.leb_gt 224 c)) by lia.
  done.
Qed.

#[global] Instance Ref_ascii (decoder : list N → option Workbook) :
  AsciiRuntime (Ref.runtime decoder).
Proof.
  split; try done.
  - intros s Hs. simpl. unfold Ref.nfkd.
    induction Hs as [| c s Hc _ IH]; [done |].
    rewrite bind_cons, IH. by rewrite Ref_nfkd_char_ascii.
  - intros c Hc. simpl. unfold Ref.combining, is_ascii in *.
    by rewrite (proj2 (N.leb_gt 768 c)) by lia.
Qed.

(** ** The separator collision *)

Ltac eval_lookups :=
  repeat match goal with
         | |- context [@lookup _ _ (gmap _ _) _ ?k ?m] =>
             let v := eval vm_compute in (m !! k) in
             change (m !! k) with v
         end.

Ltac ascii_word :=
  repeat constructor; vm_compute; reflexivity.

Section Collision.
Context `{rt : PyRuntime} `{!AsciiRuntime rt}.

Lemma normalize_text_word (s : pystr) :
  s ≠ py "nan" →
  Forall (λ c, is_ascii c ∧ Ref.isspace c = false) s →
  normalize_text (Str s) = Str s.
Proof.
  intros Hnan Hs. unfold normalize_text. cbn [str]. unfold str_eqb.
  rewrite bool_decide_eq_false_2 by done.
  by rewrite strip_accents_spaces_word.
Qed.

(** C10.  The two rows, whose seven descriptive fields are in normal
    form and differ in [champ_zone] and in [plateforme_sous_zone], have
    the same joined payload, "a||b||c||1||tag||sub||prod||work", hence
    the same key for every hash function: no SHA-1 collision is
    involved. *)
Theorem separator_collision :
  map normalize_text collision_fields1 = collision_fields1
  ∧ map normalize_text collision_fields2 = collision_fields2
  ∧ collision_row1 !! py "champ_zone" ≠ collision_row2 !! py "champ_zone"
  ∧ collision_row1 !! py "plateforme_sous_zone"
    ≠ collision_row2 !! py "plateforme_sous_zone"
  ∧ payload collision_row1 = py "a||b||c||1||tag||sub||prod||work"
  ∧ payload collision_row2 = py "a||b||c||1||tag||sub||prod||work"
  ∧ _action_key collision_row1 = _action_key collision_row2.
Proof.
  assert (payload collision_row1 = py "a||b||c||1||tag||sub||prod||work") as H1.
  { unfold payload, row_get. eval_lookups. cbn [default str].
    rewrite !lower_strip_word by ascii_word. reflexivity. }
  assert (payload collision_row2 = py "a||b||c||1||tag||sub||prod||work") as H2.
  { unfold payload, row_get. eval_lookups. cbn [default str].
    rewrite !lower_strip_word by ascii_word. reflexivity. }
  repeat split.
  - unfold collision_fields1. cbn [map].
    rewrite !normalize_text_word by (first [ascii_word | discriminate]). done.
  - unfold collision_fields2. cbn [map].
    rewrite !normalize_text_word by (first [ascii_word | discriminate]). done.
  - eval_lookups. discriminate.
  - eval_lookups. discriminate.
  - exact H1.
  - exact H2.
  - unfold _action_key. by rewrite H1, H2.
Qed.

End Collision.

(** * Runs on the sample workbooks *)

(** The repository's test [test_build_week_tables_rollup_and_bounds]:
    four daily rows, action 1 done and action 2 postponed in the latest
    table, two downtime rows. *)
Example repository_test :
  let t := Sample.tables Sample.test_bytes 1 2 in
  outcome (Sample.run Sample.test_bytes 1 2) = inr t
  ∧ length (actions_daily t) = 4%nat
  ∧ map (λ l, (la_tag_equipement l, la_termine l, la_en_cours l, la_reporte l))
        (actions_latest t)
    = [ (Str (py "TAG1"), true, false, false);
        (Str (py "TAG2"), false, false, true) ]
  ∧ map change_desc (transitions t)
    = [ py "en_cours: False -> True";
        py "termine: False -> True; en_cours: True -> False";
        py "reporte: False -> True" ]
  ∧ length (equipment_downtime t) = 2%nat.
Proof. vm_compute. repeat split. Qed.

(** C1 as stated fails: a sheet line marked both in progress and
    postponed gives a rolled row with two final flags true, and the
    latest row of that action is in [running_actions] and in
    [postponed_actions]. *)
Lemma at_most_one_flag_counterexample :
  let t := Sample.tables Sample.both_bytes 1 1 in
  outcome (Sample.run Sample.both_bytes 1 1) = inr t
  ∧ (∃ r, r ∈ actions_consistent t
          ∧ termine r = false ∧ en_cours r = true ∧ reporte r = true)
  ∧ (∃ l, l ∈ running_actions t ∧ l ∈ postponed_actions t).
Proof.
  vm_compute. split; [reflexivity |]. split.
  - eexists. split; [left |]. repeat split.
  - eexists. split; left.
Qed.

Lemma flags_never_change_Forall (rows : list DailyFact) :
  Forall (λ r1, Forall (λ r2, termine r1 = termine r2 ∧ en_cours r1 = en_cours r2
                              ∧ reporte r1 = reporte r2) rows) rows →
  flags_never_change rows.
Proof.
  intros Hall r1 r2 Hr1 Hr2. rewrite Forall_forall in Hall.
  specialize (Hall r1 Hr1). rewrite Forall_forall in Hall. by apply Hall.
Qed.

(** C2 as stated fails on the workbook of the repository's test: action 2
    keeps the same raw flags on both days and still gets one event (its
    first appearance), and action 1, in progress on the first day and
    done on the second, gets two events, not one. *)
Lemma transition_count_counterexample :
  let t := Sample.tables Sample.test_bytes 1 2 in
  let k1 := Sample.key t 0 in
  let k2 := Sample.key t 1 in
  outcome (Sample.run Sample.test_bytes 1 2) = inr t
  ∧ flags_never_change (group action_key k2 (actions_daily t))
  ∧ length (group action_key k2 (actions_daily t)) = 2%nat
  ∧ length (events t k2) = 1%nat
  ∧ map (λ r, (ts_day <$> date_rapport r, termine r, en_cours r, reporte r))
        (group action_key k1 (actions_daily t))
    = [ (Some 19358, false, true, false); (Some 19359, true, false, false) ]
  ∧ length (events t k1) = 2%nat.
Proof.
  split; [vm_compute; reflexivity |]. split.
  { apply flags_never_change_Forall. refine (bool_decide_unpack _ _).
    vm_compute. exact I. }
  vm_compute. repeat split.
Qed.

(** C3 as stated fails: with two sheets, the range (2, 1) has
    [end < start] and is not rejected by the range check; the run fails
    with the error of the empty result. *)
Lemma invalid_range_counterexample :
  let run := Sample.run Sample.test_bytes 2 1 in
  1 < 2
  ∧ trace run = []
  ∧ outcome run = inl (ValueError msg_no_usable_sheets)
  ∧ outcome run ≠ inl (ValueError (msg_invalid_range 2 1 2)).
Proof. vm_compute. repeat split. discriminate. Qed.

(** ** Instances of the theorems *)

Lemma invalid_range_fails_witness :
  let run := Sample.run Sample.test_bytes 3 5 in
  (3 < 1 ∨ 2 < 5 ∨ 5 < 3)
  ∧ trace run = []
  ∧ outcome run = inl (ValueError (msg_invalid_range 3 5 2)).
Proof.
  split; [right; left; reflexivity |].
  apply (@invalid_range_fails Sample.runtime ∅ Sample.tmp_path Sample.test_bytes
           Sample.test_workbook 3 5).
  - reflexivity.
  - right. left. reflexivity.
Defined.

Lemma cleaned_run (file_bytes : list N) (start_sheet end_sheet : Z) :
  (if outcome (@_clean_week_sheets_from_bytes Sample.runtime ∅ Sample.tmp_path
                 file_bytes start_sheet end_sheet).2 is inr _ then true else false)
  = true →
  outcome (@_clean_week_sheets_from_bytes Sample.runtime ∅ Sample.tmp_path
             file_bytes start_sheet end_sheet).2
  = inr ((Sample.cleaned file_bytes start_sheet end_sheet).1,
         (Sample.cleaned file_bytes start_sheet end_sheet).2).
Proof.
  unfold Sample.cleaned. destruct (outcome _) as [e | [frames dates]]; [discriminate |].
  done.
Defined.

Lemma empty_result_fails_witness :
  ∃ msg, outcome (Sample.run Sample.undated_bytes 1 1) = inl (ValueError msg)
         ∧ (msg = msg_no_usable_sheets ∨ msg = msg_no_dates).
Proof.
  apply (@empty_result_fails Sample.runtime ∅ Sample.tmp_path Sample.undated_bytes 1 1
           (Sample.cleaned Sample.undated_bytes 1 1).1
           (Sample.cleaned Sample.undated_bytes 1 1).2).
  - apply cleaned_run. vm_compute. reflexivity.
  - right. refine (bool_decide_unpack _ _). vm_compute. exact I.
Defined.

Lemma prevision_discards_rest_witness :
  @clean_sheet Sample.runtime (py "S1")
    (Sample.prevision_top ++ Sample.prevision_pre
     ++ Sample.prevision_marker :: Sample.prevision_post)
  = @clean_sheet Sample.runtime (py "S1")
      (Sample.prevision_top ++ Sample.prevision_pre)
  ∧ @clean_week_sheets Sample.runtime
      ([] ++ (py "S1", Sample.prevision_top ++ Sample.prevision_pre
                       ++ Sample.prevision_marker :: Sample.prevision_post) :: [])
      1 1
    = @clean_week_sheets Sample.runtime
        ([] ++ (py "S1", Sample.prevision_top ++ Sample.prevision_pre) :: []) 1 1.
Proof.
  destruct (@prevision_discards_rest Sample.runtime (py "S1") Sample.prevision_top
              Sample.header Sample.prevision_pre Sample.prevision_post
              Sample.prevision_marker) as [Hsheet Hbook].
  - reflexivity.
  - reflexivity.
  - split; vm_compute; reflexivity.
  - split; [exact Hsheet | exact (Hbook [] [] 1 1)].
Defined.

Lemma tables_run (file_bytes : list N) (start_sheet end_sheet : Z) :
  (if outcome (@build_week_tables_from_excel_bytes Sample.runtime ∅ Sample.tmp_path
                 file_bytes start_sheet end_sheet).2 is inr _
   then true else false) = true →
  outcome (@build_week_tables_from_excel_bytes Sample.runtime ∅ Sample.tmp_path
             file_bytes start_sheet end_sheet).2
  = inr (Sample.tables file_bytes start_sheet end_sheet).
Proof.
  unfold Sample.tables, Sample.run.
  destruct (outcome _) as [e | t]; [discriminate | done].
Defined.

Lemma cleaned_sheets_run (xls : Workbook) (start_sheet end_sheet : Z) :
  (if outcome (@clean_week_sheets Sample.runtime xls start_sheet end_sheet) is inr _
   then true else false) = true →
  outcome (@clean_week_sheets Sample.runtime xls start_sheet end_sheet)
  = inr ((Sample.cleaned_sheets xls start_sheet end_sheet).1,
         (Sample.cleaned_sheets xls start_sheet end_sheet).2).
Proof.
  unfold Sample.cleaned_sheets.
  destruct (outcome _) as [e | [frames dates]]; [discriminate | done].
Defined.

(** The line of action 1 on the first sheet and its line on the second
    sheet differ in date, sheet label and flags, and carry the same
    key, in the cleaned frames and in the daily table. *)
Lemma action_key_pure_witness :
  Sample.test_line 0 0 !! py "date_rapport" ≠ Sample.test_line 1 0 !! py "date_rapport"
  ∧ @_action_key Sample.runtime (Sample.test_line 0 0)
    = @_action_key Sample.runtime (Sample.test_line 1 0)
  ∧ Sample.test_line 0 0 !! py "action_key" = Sample.test_line 1 0 !! py "action_key"
  ∧ date_rapport (Sample.test_daily !!! 0%nat)
    ≠ date_rapport (Sample.test_daily !!! 2%nat)
  ∧ action_key (Sample.test_daily !!! 0%nat)
    = action_key (Sample.test_daily !!! 2%nat).
Proof.
  destruct (@action_key_pure Sample.runtime) as (Hkey & Hpipeline & Hdaily).
  assert (∀ c, c ∈ text_columns →
               Sample.test_line 0 0 !! c = Sample.test_line 1 0 !! c) as Hagree.
  { intros c Hc. unfold text_columns in Hc.
    repeat (apply elem_of_cons in Hc as [-> | Hc]; [vm_compute; reflexivity |]).
    destruct (proj1 (elem_of_nil _) Hc). }
  split; [refine (bool_decide_unpack _ _); vm_compute; exact I |].
  split; [| split; [| split]].
  - apply Hkey. exact Hagree.
  - apply (Hpipeline Sample.test_workbook 1 2
             (Sample.cleaned_sheets Sample.test_workbook 1 2).1
             (Sample.cleaned_sheets Sample.test_workbook 1 2).2
             (Sample.test_line 0 0) (Sample.test_line 1 0)).
    + apply cleaned_sheets_run. vm_compute. reflexivity.
    + refine (bool_decide_unpack _ _). vm_compute. exact I.
    + refine (bool_decide_unpack _ _). vm_compute. exact I.
    + exact Hagree.
  - refine (bool_decide_unpack _ _). vm_compute. exact I.
  - apply (Hdaily ∅ Sample.tmp_path Sample.test_bytes 1 2
             (Sample.tables Sample.test_bytes 1 2)).
    + apply tables_run. vm_compute. reflexivity.
    + refine (bool_decide_unpack _ _). vm_compute. exact I.
    + refine (bool_decide_unpack _ _). vm_compute. exact I.
    + vm_compute. reflexivity.
Defined.

(** Action 2 is unavailable on the first and on the third sheet and
    absent from the second: two downtime rows. *)
Lemma downtime_is_raw_filter_witness :
  length Sample.gap_daily = 3%nat
  ∧ group action_key Sample.key2
      (equipment_downtime (tables_of_daily Sample.gap_daily))
    = [ Sample.gap_daily !!! 0%nat; Sample.gap_daily !!! 2%nat ]
  ∧ equipment_downtime (Sample.tables Sample.gap_bytes 1 3)
    = filter (λ r, indisponible r = true)
        (actions_daily (Sample.tables Sample.gap_bytes 1 3)).
Proof.
  destruct downtime_is_raw_filter as (_ & Hrun & Hscenario).
  split; [vm_compute; reflexivity |]. split.
  - apply Hscenario; vm_compute; reflexivity.
  - apply (Hrun Sample.runtime ∅ Sample.tmp_path Sample.gap_bytes 1 3).
    apply tables_run. vm_compute. reflexivity.
Defined.

Lemma separator_collision_witness :
  AsciiRuntime Sample.runtime
  ∧ @payload Sample.runtime collision_row1 = @payload Sample.runtime collision_row2
  ∧ @_action_key Sample.runtime collision_row1
    = @_action_key Sample.runtime collision_row2.
Proof.
  split; [apply Ref_ascii |].
  destruct (@separator_collision Sample.runtime (Ref_ascii Sample.decoder))
    as (_ & _ & _ & _ & H1 & H2 & Hkey).
  split; [rewrite H1, H2; reflexivity | exact Hkey].
Defined.

(** The two lines of the collision workbook differ in their zone, get
    the same key, the SHA-1 of their common payload, and are rolled up
    as one action. *)
Example collision_workbook_run :
  let t := Sample.tables Sample.collision_bytes 1 1 in
  outcome (Sample.run Sample.collision_bytes 1 1) = inr t
  ∧ map champ_zone (actions_daily t) = [ Str (py "a||b"); Str (py "a") ]
  ∧ map action_key (actions_daily t)
    = [ py "e7fb23b66debfbda90a76f7d1e778669288a2e20";
        py "e7fb23b66debfbda90a76f7d1e778669288a2e20" ]
  ∧ length (actions_latest t) = 1%nat.
Proof. vm_compute. repeat split. Qed.

(** Action 1 is done on the first day and marked in progress on the
    second: its final [termine] stays true and its final [en_cours]
    false. *)
Lemma termine_final_latch_witness :
  map (λ r, (termine r, en_cours r)) Sample.relapse_daily
  = [ (true, false); (false, true) ]
  ∧ termine (timeline (tables_of_daily Sample.relapse_daily) Sample.key1 !!! 1%nat)
    = true
  ∧ en_cours (timeline (tables_of_daily Sample.relapse_daily) Sample.key1 !!! 1%nat)
    = false.
Proof.
  destruct (termine_final_latch Sample.relapse_daily Sample.key1)
    as (_ & _ & Hlater & Hwins).
  assert (termine (timeline (tables_of_daily Sample.relapse_daily) Sample.key1
                   !!! 1%nat) = true) as Hdone.
  { apply (Hlater 0%nat 1%nat
             (timeline (tables_of_daily Sample.relapse_daily) Sample.key1 !!! 0%nat));
      vm_compute; reflexivity. }
  split; [vm_compute; reflexivity |]. split; [exact Hdone |].
  rewrite Forall_forall in Hwins.
  refine (proj1 (Hwins _ _ Hdone)).
  refine (bool_decide_unpack _ _). vm_compute. exact I.
Defined.


(** On the workbook of the repository's test: one event for action 2,
    whose flags never change, and two for action 1. *)
Lemma transitions_of_steady_and_flipped_witness :
  (∃ e, events (tables_of_daily Sample.test_daily) Sample.key2 = [e]
        ∧ tr_reporte e = true)
  ∧ map change_desc (events (tables_of_daily Sample.test_daily) Sample.key1)
    = [ py "en_cours: False -> True";
        py "termine: False -> True; en_cours: True -> False" ].
Proof.
  split.
  - destruct (transitions_of_steady_and_flipped Sample.test_daily Sample.key2)
      as [Hsteady _].
    assert (flags_never_change (group action_key Sample.key2 Sample.test_daily))
      as Hflags.
    { apply flags_never_change_Forall. refine (bool_decide_unpack _ _).
      vm_compute. exact I. }
    assert (Sample.test_daily !!! 1%nat
            ∈ group action_key Sample.key2 Sample.test_daily) as Hin.
    { refine (bool_decide_unpack _ _). vm_compute. exact I. }
    specialize (Hsteady Hflags _ Hin).
    assert (termine (Sample.test_daily !!! 1%nat)
            || en_cours (Sample.test_daily !!! 1%nat)
            || reporte (Sample.test_daily !!! 1%nat) = true) as Hany
      by (vm_compute; reflexivity).
    rewrite Hany in Hsteady.
    destruct Hsteady as (e & He & _ & _ & _ & _ & Hr).
    exists e. split; [exact He |]. rewrite Hr. vm_compute. reflexivity.
  - destruct (transitions_of_steady_and_flipped Sample.test_daily Sample.key1)
      as [_ Hflip].
    rewrite (Hflip (Sample.test_daily !!! 0%nat) (Sample.test_daily !!! 2%nat));
      [reflexivity | vm_compute; reflexivity ..].
Defined.

(** * Further properties

    Properties of the code around the claims: the loop over the sheets,
    the text helpers, the views of the tables, the date filters, the
    names of the export and the indicators of the application. *)

(** ** The loop over the sheets *)

Lemma trace_bind {A B} (m : M A) (k : A → M B) a :
  outcome m = inr a → trace (m ≫= k) = trace m ++ trace (k a).
Proof.
  destruct m as [tr [e|a']]; simpl; [discriminate |].
  intros [= ->]. unfold mbind, M_bind. by destruct (k a).
Qed.

Section VisitFacts.
Context `{PyRuntime}.

Lemma sheet_by_name_lookup (xls : Workbook) (i : nat) (name : pystr) (raw : RawFrame) :
  NoDup (map fst xls) → xls !! i = Some (name, raw) →
  sheet_by_name xls name = Some raw.
Proof.
  revert i. induction xls as [| [n0 raw0] xls IH]; intros i Hnd Hi; [done |].
  cbn [map fst] in Hnd. apply NoDup_cons in Hnd as [Hn0 Hnd].
  cbn [sheet_by_name]. destruct i as [| i]; simpl in Hi.
  - injection Hi as -> ->. by rewrite decide_True.
  - rewrite decide_False; [by eapply IH |].
    intros ->. apply Hn0. rewrite map_fmap. apply list_elem_of_fmap.
    exists (name, raw). split; [done |]. by eapply list_elem_of_lookup_2.
Qed.

Lemma visit_sheets_cons (name : pystr) (raw : RawFrame) (rest : Workbook)
    (final_dfs : list Frame) (dates : list cell) :
  visit_sheets ((name, raw) :: rest) final_dfs dates
  = match clean_sheet name raw with
    | inl e => ([Parse name], inl e)
    | inr (dt, odf) =>
        let r := visit_sheets rest
                   (match odf with Some df => final_dfs ++ [df] | None => final_dfs end)
                   (dates ++ [dt]) in
        (Parse name :: trace r, outcome r)
    end.
Proof.
  cbn [visit_sheets]. destruct (clean_sheet name raw) as [e | [dt [df|]]];
    unfold mbind, M_bind, tell, lift_exn; cbn [fst snd]; cbv zeta.
  - done.
  - by destruct (visit_sheets rest _ _) as [tr r].
  - by destruct (visit_sheets rest _ _) as [tr r].
Qed.

Lemma sheets_loop_visit (xls : Workbook) (n a : nat) (final_dfs : list Frame)
    (dates : list cell) :
  NoDup (map fst xls) → (a + n ≤ length xls)%nat →
  sheets_loop xls (seqZ (Z.of_nat a) (Z.of_nat n)) final_dfs dates
  = visit_sheets (take n (drop a xls)) final_dfs dates.
Proof.
  intros Hnd. revert a final_dfs dates.
  induction n as [| n IH]; intros a final_dfs dates Hlen.
  - by rewrite take_0.
  - destruct (lookup_lt_is_Some_2 xls a ltac:(lia)) as [[name raw] Hsheet].
    rewrite (drop_S _ _ _ Hsheet). cbn [take].
    rewrite Nat2Z.inj_succ, seqZ_cons by lia.
    rewrite sheets_loop_cons.
    replace (Z.pred (Z.succ (Z.of_nat n))) with (Z.of_nat n) by lia.
    replace (Z.succ (Z.of_nat a)) with (Z.of_nat (S a)) by lia.
    assert (py_index (map fst xls) (Z.of_nat a) = Some name) as ->.
    { unfold py_index. rewrite (proj2 (Z.leb_le _ _)) by lia.
      by rewrite Nat2Z.id, map_fmap, list_lookup_fmap, Hsheet. }
    cbn [from_option]. change (lift_exn (inr name)) with (mret name : M pystr).
    rewrite bind_ret. unfold xls_parse.
    rewrite (sheet_by_name_lookup _ _ _ _ Hnd Hsheet).
    rewrite bind_assoc. cbn [visit_sheets].
    apply bind_ext. intros []. rewrite bind_ret.
    apply bind_ext. intros [dt [df|]]; cbn [fst snd]; apply IH; lia.
Qed.

Lemma clean_week_sheets_visit (xls : Workbook) (start_sheet end_sheet : Z) :
  NoDup (map fst xls) → 1 ≤ start_sheet → end_sheet ≤ Z.of_nat (length xls) →
  clean_week_sheets xls start_sheet end_sheet
  = visit_sheets (sheet_range xls start_sheet end_sheet) [] [].
Proof.
  intros Hnd Hs He. unfold clean_week_sheets, sheet_range. rewrite length_map.
  rewrite (proj2 (Z.ltb_ge _ _)) by lia.
  rewrite (proj2 (Z.ltb_ge _ _)) by lia. cbn [orb].
  destruct (decide (end_sheet - (start_sheet - 1) ≤ 0)) as [Hle | Hgt].
  - unfold seqZ. replace (Z.to_nat (end_sheet - (start_sheet - 1))) with 0%nat by lia.
    by rewrite take_0.
  - rewrite <- (Z2Nat.id (start_sheet - 1)) at 1 by lia.
    rewrite <- (Z2Nat.id (end_sheet - (start_sheet - 1))) at 1 by lia.
    apply sheets_loop_visit; [done | lia].
Qed.

End VisitFacts.

Section VisitProps.
Context `{PyRuntime}.

Lemma clean_sheet_inv (name : pystr) (raw : RawFrame) :
  match raw !! 4%nat with
  | None => clean_sheet name raw = inl IndexError
  | Some header =>
      ∃ odf, clean_sheet name raw = inr (_get_date_from_raw raw, odf)
  end.
Proof.
  unfold clean_sheet. destruct (raw !! 4%nat) as [header|]; [| done].
  destruct (negb _); eauto.
Qed.

(** The sheets parsed, the dates and the frames of a pass. *)
Lemma visit_sheets_trace (sheets : Workbook) (final_dfs : list Frame)
    (dates : list cell) :
  let run := visit_sheets sheets final_dfs dates in
  trace run `prefix_of` map (λ sh, Parse sh.1) sheets
  ∧ ∀ frames dates',
      outcome run = inr (frames, dates') →
      trace run = map (λ sh, Parse sh.1) sheets
      ∧ dates' = dates ++ map (λ sh, _get_date_from_raw sh.2) sheets
      ∧ (length final_dfs ≤ length frames ≤ length final_dfs + length sheets)%nat.
Proof.
  revert final_dfs dates. induction sheets as [| [name raw] sheets IH];
    intros final_dfs dates run; subst run.
  - cbn [visit_sheets map]. split; [done |].
    intros frames dates' [= <- <-]. rewrite app_nil_r. split; [done |].
    split; [done |]. simpl. lia.
  - rewrite visit_sheets_cons. cbn [map fst snd].
    pose proof (clean_sheet_inv name raw) as Hinv.
    destruct (raw !! 4%nat) as [header|].
    + destruct Hinv as [odf ->]. cbv zeta.
      match goal with |- context [visit_sheets sheets ?fd ?d] =>
        destruct (IH fd d) as [Hpre Hok] end.
      cbv zeta in Hpre, Hok. split.
      * cbn [trace fst]. by apply prefix_cons.
      * intros frames dates' Hout. cbn [outcome snd] in Hout.
        destruct (Hok _ _ Hout) as (Htr & Hd & Hlen).
        cbn [trace fst]. rewrite Htr. split; [done |].
        split; [by rewrite Hd, <- app_assoc |].
        destruct odf; [rewrite length_app in Hlen |]; simpl in *; lia.
    + rewrite Hinv. split; [| done]. cbn [trace fst].
      apply prefix_cons, prefix_nil.
Qed.

(** A pass fails exactly when one of its sheets has fewer than five
    rows, and then with [IndexError]. *)
Lemma visit_sheets_outcome (sheets : Workbook) (final_dfs : list Frame)
    (dates : list cell) :
  if bool_decide (Forall (λ sh : pystr * RawFrame, (5 ≤ length sh.2)%nat) sheets)
  then ∃ r, outcome (visit_sheets sheets final_dfs dates) = inr r
  else outcome (visit_sheets sheets final_dfs dates) = inl IndexError.
Proof.
  revert final_dfs dates. induction sheets as [| [name raw] sheets IH];
    intros final_dfs dates.
  - rewrite bool_decide_eq_true_2 by constructor. by eexists.
  - rewrite visit_sheets_cons.
    pose proof (clean_sheet_inv name raw) as Hinv.
    destruct (raw !! 4%nat) as [header|] eqn:Hrow.
    + destruct Hinv as [odf ->]. cbv zeta. cbn [outcome snd].
      apply lookup_lt_Some in Hrow.
      match goal with |- context [visit_sheets sheets ?fd ?d] =>
        specialize (IH fd d) end.
      case_bool_decide as Hall.
      * rewrite bool_decide_eq_true_2; [done |]. constructor; [simpl; lia | done].
      * rewrite bool_decide_eq_false_2; [done |].
        intros Hc. apply Forall_cons in Hc as [_ Hc]. done.
    + rewrite Hinv. apply lookup_ge_None in Hrow.
      rewrite bool_decide_eq_false_2; [done |].
      intros Hc. apply Forall_cons in Hc as [Hc _]. simpl in Hc. lia.
Qed.

End VisitProps.

Section RowFacts.
Context `{PyRuntime}.

(** [finish_sheet] works row by row, and then drops the blank rows. *)
Lemma finish_sheet_rowwise (sheet_name : pystr) (columns : list pystr)
    (dt_report : cell) (df : Frame) :
  finish_sheet sheet_name columns dt_report df
  = select_rows
      (λ r : Row,
         existsb (λ c, negb (str_eqb (str_strip isspace (str (row_get r c NaN))) []))
                 (filter (λ c, has_column c columns = true) text_columns))
      (map (finish_row sheet_name columns dt_report) df).
Proof.
  unfold finish_sheet. cbv zeta. f_equal.
  unfold assign_apply, assign_scalar.
  rewrite (foldl_rowwise _
             (λ (r : Row) c,
                if has_column c columns
                then <[c := normalize_text (default NaN (r !! c))]> r
                else r)).
  2:{ intros df' c. cbv beta. destruct (has_column c columns);
        [apply assign_map_column | by rewrite map_id]. }
  rewrite (foldl_rowwise _
             (λ (r : Row) c,
                if has_column c columns
                then <[c := Bool (to_bool_cell (default NaN (r !! c)))]> r
                else <[c := Bool false]> r)).
  2:{ intros df' c. cbv beta. destruct (has_column c columns); [| reflexivity].
      apply (assign_map_column c (λ x, Bool (to_bool_cell x))). }
  by rewrite !map_map.
Qed.

Lemma flag_not_stamp (c : pystr) :
  c ∈ flag_columns →
  c ≠ py "date_rapport" ∧ c ≠ py "feuille" ∧ c ≠ py "action_key".
Proof.
  intros Hc. apply list_elem_of_In in Hc. vm_compute in Hc.
  intuition (subst; discriminate).
Qed.

Lemma stamp_not_text :
  (py "date_rapport" ∉ text_columns) ∧ (py "feuille" ∉ text_columns).
Proof.
  split; intros Hc; apply list_elem_of_In in Hc; vm_compute in Hc;
    intuition discriminate.
Qed.

Lemma flag_columns_NoDup : NoDup flag_columns.
Proof. refine (bool_decide_unpack _ _). vm_compute. exact I. Qed.

Lemma text_columns_NoDup : NoDup text_columns.
Proof. refine (bool_decide_unpack _ _). vm_compute. exact I. Qed.

(** A fold of assignments over distinct columns: the column [c] gets
    the value computed from the row as it was. *)
Lemma foldl_insert_at (step : Row → pystr → Row) (v : Row → pystr → option cell)
    (cols : list pystr) (r : Row) (c : pystr) :
  (∀ (r : Row) c, step r c = match v r c with Some x => <[c := x]> r | None => r end) →
  (∀ (r : Row) c' x, c' ≠ c → v (<[c' := x]> r) c = v r c) →
  NoDup cols → c ∈ cols →
  foldl step r cols !! c = match v r c with Some x => Some x | None => r !! c end.
Proof.
  intros Hstep Hv Hnd. revert r.
  induction Hnd as [| c' cols Hc' Hnd IH]; intros r Hc.
  - by apply elem_of_nil in Hc.
  - cbn [foldl]. apply elem_of_cons in Hc as [-> | Hc].
    + rewrite foldl_insert_other; [| | done].
      * rewrite Hstep. destruct (v r c'); [by rewrite lookup_insert_eq | done].
      * intros r' c'' Hne. rewrite Hstep. destruct (v r' c''); [| done].
        by rewrite lookup_insert_ne.
    + assert (c' ≠ c) as Hne by (intros ->; done).
      rewrite IH by done. rewrite Hstep.
      destruct (v r c') as [x|] eqn:Hx; [| done].
      rewrite Hv by done. by rewrite lookup_insert_ne.
Qed.

Lemma finish_row_feuille (sheet_name : pystr) (columns : list pystr)
    (dt_report : cell) (r : Row) :
  finish_row sheet_name columns dt_report r !! py "feuille" = Some (Str sheet_name).
Proof.
  unfold finish_row. cbv zeta.
  rewrite lookup_insert_ne by (by vm_compute).
  rewrite foldl_insert_other.
  - by rewrite lookup_insert_eq.
  - intros r' c' Hne. destruct (has_column c' columns); [| done].
    by rewrite lookup_insert_ne.
  - apply stamp_not_text.
Qed.

Lemma finish_row_date (sheet_name : pystr) (columns : list pystr)
    (dt_report : cell) (r : Row) :
  finish_row sheet_name columns dt_report r !! py "date_rapport" = Some dt_report.
Proof.
  unfold finish_row. cbv zeta.
  rewrite lookup_insert_ne by (by vm_compute).
  rewrite foldl_insert_other.
  - rewrite lookup_insert_ne by (by vm_compute). by rewrite lookup_insert_eq.
  - intros r' c' Hne. destruct (has_column c' columns); [| done].
    by rewrite lookup_insert_ne.
  - apply stamp_not_text.
Qed.

Lemma finish_row_flag (sheet_name : pystr) (columns : list pystr)
    (dt_report : cell) (r : Row) (c : pystr) :
  c ∈ flag_columns →
  finish_row sheet_name columns dt_report r !! c
  = Some (Bool (if has_column c columns
                then to_bool_cell (default NaN (r !! c)) else false)).
Proof.
  intros Hc. unfold finish_row. cbv zeta.
  destruct (flag_not_stamp c Hc) as (Hdate & Hsheet & Hkey).
  rewrite lookup_insert_ne by done.
  rewrite foldl_insert_other.
  - rewrite !lookup_insert_ne by done.
    rewrite (foldl_insert_at _
               (λ (r : Row) c,
                  Some (if has_column c columns
                        then Bool (to_bool_cell (default NaN (r !! c)))
                        else Bool false))).
    + by destruct (has_column c columns).
    + intros r' c'. by destruct (has_column c' columns).
    + intros r' c' x Hne. by rewrite lookup_insert_ne.
    + apply flag_columns_NoDup.
    + done.
  - intros r' c' Hne. destruct (has_column c' columns); [| done].
    by rewrite lookup_insert_ne.
  - intros Hc'. by apply text_not_flag in Hc'.
Qed.

Lemma finish_row_text (sheet_name : pystr) (columns : list pystr)
    (dt_report : cell) (r : Row) (c : pystr) :
  c ∈ text_columns → has_column c columns = true →
  finish_row sheet_name columns dt_report r !! c
  = Some (normalize_text (default NaN (r !! c))).
Proof.
  intros Hc Hcol. unfold finish_row. cbv zeta.
  destruct (text_not_stamp c Hc) as (Hdate & Hsheet & Hkey).
  rewrite lookup_insert_ne by done.
  rewrite (foldl_insert_at _
             (λ (r : Row) c,
                if has_column c columns
                then Some (normalize_text (default NaN (r !! c))) else None)).
  - rewrite Hcol. rewrite !lookup_insert_ne by done.
    rewrite foldl_insert_other; [done | | by apply text_not_flag].
    intros r' c' Hne. destruct (has_column c' columns); by rewrite lookup_insert_ne.
  - intros r' c'. by destruct (has_column c' columns).
  - intros r' c' x Hne. by rewrite lookup_insert_ne.
  - apply text_columns_NoDup.
  - done.
Qed.

End RowFacts.

Section Provenance.
Context `{PyRuntime}.

(** Where a row of a cleaned sheet comes from: a data line of the grid,
    under the normalised header, finished row by row, and not blank. *)
Lemma clean_sheet_row (name : pystr) (raw : RawFrame) (dt : cell) (df : Frame)
    (o : Row) :
  clean_sheet name raw = inr (dt, Some df) → o ∈ df →
  ∃ header cells,
    raw !! 4%nat = Some header
    ∧ dt = _get_date_from_raw raw
    ∧ has_column (py "champ_zone") (norm_cols header) = true
    ∧ cells ∈ drop 5 raw
    ∧ o = finish_row name (norm_cols header) dt (mk_row (norm_cols header) cells)
    ∧ existsb (λ c, negb (str_eqb (str_strip isspace (str (row_get o c NaN))) []))
              (filter (λ c, has_column c (norm_cols header) = true) text_columns)
      = true.
Proof.
  unfold clean_sheet. destruct (raw !! 4%nat) as [header|]; [| discriminate].
  destruct (has_column (py "champ_zone") (norm_cols header)) eqn:Hcol;
    cbn [negb]; [| discriminate]. cbv zeta.
  match goal with |- inr (_, Some ?X) = _ → _ => remember X as out eqn:Hout end.
  intros [= <- <-] Ho. subst out. rewrite finish_sheet_rowwise in Ho.
  unfold select_rows in Ho. apply list_elem_of_filter in Ho as [Hne Ho].
  rewrite map_fmap in Ho. apply list_elem_of_fmap in Ho as (r & -> & Hr).
  assert (r ∈ map (mk_row (norm_cols header)) (drop 5 raw)) as Hraw.
  { unfold cut_prevision in Hr. destruct (_get_prevision_index _ _);
      [apply subseteq_take in Hr |];
      unfold select_rows in Hr; by apply list_elem_of_filter in Hr as [_ Hr]. }
  rewrite map_fmap in Hraw. apply list_elem_of_fmap in Hraw as (cells & -> & Hcells).
  exists header, cells. done.
Qed.

Lemma visit_sheets_frames (sheets : Workbook) (final_dfs : list Frame)
    (dates : list cell) (frames : list Frame) (dates' : list cell) (df : Frame) :
  outcome (visit_sheets sheets final_dfs dates) = inr (frames, dates') →
  df ∈ frames →
  df ∈ final_dfs
  ∨ ∃ name raw dt, (name, raw) ∈ sheets ∧ clean_sheet name raw = inr (dt, Some df).
Proof.
  revert final_dfs dates. induction sheets as [| [name raw] sheets IH];
    intros final_dfs dates.
  - cbn [visit_sheets]. intros [= <- <-]. by left.
  - rewrite visit_sheets_cons.
    destruct (clean_sheet name raw) as [e | [dt odf]] eqn:Hclean; [done |].
    cbv zeta. cbn [outcome snd]. intros Hrun Hdf.
    destruct (IH _ _ Hrun Hdf) as [Hin | (n & r & d & Hsh & Hc)].
    + destruct odf as [df0|]; [| by left].
      apply elem_of_app in Hin as [Hin | Hin]; [by left |].
      apply list_elem_of_singleton in Hin as ->.
      right. exists name, raw, dt. split; [left | done].
    + right. exists n, r, d. split; [by right | done].
Qed.

(** The daily table of a successful run on a workbook with distinct
    sheet labels: the range was valid, and each row comes from a line
    of a sheet of the range. *)
Lemma build_rows (fs : FileSystem) (tmp_path : pystr) (file_bytes : list N)
    (xls : Workbook) (start_sheet end_sheet : Z) (t : Tables) :
  excel_file file_bytes = Some xls → NoDup (map fst xls) →
  outcome (build_week_tables_from_excel_bytes fs tmp_path file_bytes
             start_sheet end_sheet).2 = inr t →
  1 ≤ start_sheet ∧ end_sheet ≤ Z.of_nat (length xls)
  ∧ ∀ r, r ∈ actions_daily t →
      ∃ name raw header cells,
        (name, raw) ∈ sheet_range xls start_sheet end_sheet
        ∧ raw !! 4%nat = Some header
        ∧ has_column (py "champ_zone") (norm_cols header) = true
        ∧ cells ∈ drop 5 raw
        ∧ let o := finish_row name (norm_cols header) (_get_date_from_raw raw)
                     (mk_row (norm_cols header) cells) in
          r = base_cols_row o
          ∧ existsb (λ c, negb (str_eqb (str_strip isspace (str (row_get o c NaN))) []))
                    (filter (λ c, has_column c (norm_cols header) = true) text_columns)
            = true.
Proof.
  intros Hxls Hnd Ht.
  apply build_daily_rows in Ht as (xls' & frames & dates & Hxls' & Hrun & Hdaily).
  rewrite Hxls in Hxls'. injection Hxls' as <-.
  assert (1 ≤ start_sheet ∧ end_sheet ≤ Z.of_nat (length xls)) as [Hs He].
  { unfold clean_week_sheets in Hrun. rewrite length_map in Hrun.
    destruct (start_sheet <? 1) eqn:H1; [done |].
    destruct (Z.of_nat (length xls) <? end_sheet) eqn:H2; [done |].
    apply Z.ltb_ge in H1, H2. lia. }
  split; [done |]. split; [done |].
  rewrite clean_week_sheets_visit in Hrun by done.
  intros r Hr. rewrite Hdaily, map_fmap in Hr.
  apply list_elem_of_fmap in Hr as (o & -> & Ho).
  apply list_elem_of_In, in_concat in Ho as (df & Hdf & Ho).
  apply list_elem_of_In in Hdf, Ho.
  destruct (visit_sheets_frames _ _ _ _ _ _ Hrun Hdf)
    as [Hnil | (name & raw & dt & Hsheet & Hclean)];
    [by apply elem_of_nil in Hnil |].
  destruct (clean_sheet_row _ _ _ _ _ Hclean Ho)
    as (header & cells & Hhdr & -> & Hcol & Hcells & -> & Hne).
  exists name, raw, header, cells. done.
Qed.

End Provenance.

Section SheetTheorems.
Context `{PyRuntime}.

(** X1.  On a workbook with distinct sheet labels and a range within
    it, the cleaning parses the sheets of the range in order, each
    once, and no other sheet; it stops at the first sheet that fails.
    When it succeeds it has parsed all of them, it returns one date per
    sheet of the range, sheets without a zone column included, and at
    most one frame per sheet. *)
Theorem sheets_parsed_in_order (xls : Workbook) (start_sheet end_sheet : Z) :
  NoDup (map fst xls) → 1 ≤ start_sheet → end_sheet ≤ Z.of_nat (length xls) →
  let run := clean_week_sheets xls start_sheet end_sheet in
  let sheets := sheet_range xls start_sheet end_sheet in
  trace run `prefix_of` map (λ sh, Parse sh.1) sheets
  ∧ ∀ frames dates,
      outcome run = inr (frames, dates) →
      trace run = map (λ sh, Parse sh.1) sheets
      ∧ dates = map (λ sh, _get_date_from_raw sh.2) sheets
      ∧ (length frames ≤ length sheets)%nat.
Proof.
  intros Hnd Hs He run sheets. subst run sheets.
  rewrite clean_week_sheets_visit by done.
  destruct (visit_sheets_trace (sheet_range xls start_sheet end_sheet) [] [])
    as [Hpre Hok].
  split; [exact Hpre |]. intros frames dates Hrun.
  destruct (Hok _ _ Hrun) as (Htr & Hd & Hlen). simpl in Hlen, Hd.
  split; [done |]. split; [done | lia].
Qed.

Lemma daily_of_frames_error (frames : list Frame) (e : exn) :
  outcome (daily_of_frames frames) = inl e → ∃ msg, e = ValueError msg.
Proof.
  unfold daily_of_frames. case_bool_decide; [intros [= <-]; by eexists |].
  destruct (forallb _ _); [intros [= <-]; by eexists | done].
Qed.

(** X2.  On a workbook with distinct sheet labels and a range within
    it, whose sheets have pairwise distinct column labels, the run
    fails with [IndexError] exactly when a sheet of the range has fewer
    than five rows: the header is read at row 4 of every sheet of the
    range, before the sheet is known to be usable.  The columns must
    have distinct labels because a sheet with two columns of one label
    can stop the run with another exception before the short sheet is
    reached. *)
Theorem short_sheet_index_error (fs : FileSystem) (tmp_path : pystr)
    (file_bytes : list N) (xls : Workbook) (start_sheet end_sheet : Z) :
  excel_file file_bytes = Some xls → NoDup (map fst xls) →
  1 ≤ start_sheet → end_sheet ≤ Z.of_nat (length xls) →
  Forall (λ sh : pystr * RawFrame, distinct_labels sh.2)
         (sheet_range xls start_sheet end_sheet) →
  outcome (build_week_tables_from_excel_bytes fs tmp_path file_bytes
             start_sheet end_sheet).2 = inl IndexError
  ↔ Exists (λ sh : pystr * RawFrame, (length sh.2 < 5)%nat)
           (sheet_range xls start_sheet end_sheet).
Proof.
  intros Hxls Hnd Hs He _. rewrite build_result, Hxls.
  rewrite clean_week_sheets_visit by done.
  pose proof (visit_sheets_outcome (sheet_range xls start_sheet end_sheet) [] [])
    as Hout.
  case_bool_decide as Hall.
  - destruct Hout as [r Hr]. split.
    + intros Hfail. erewrite outcome_bind_inr in Hfail by exact Hr.
      destruct (outcome (daily_of_frames r.1)) as [e | daily] eqn:Hd.
      * erewrite outcome_bind_inl in Hfail by exact Hd.
        apply daily_of_frames_error in Hd as [msg ->]. done.
      * erewrite outcome_bind_inr in Hfail by exact Hd. done.
    + intros Hex. exfalso. apply Exists_exists in Hex as (sh & Hsh & Hlt).
      rewrite Forall_forall in Hall. specialize (Hall sh Hsh). simpl in Hall. lia.
  - split; [| intros _; by apply outcome_bind_inl].
    intros _. apply not_Forall_Exists in Hall; [| apply _].
    eapply Exists_impl; [exact Hall |]. intros sh Hsh. simpl in Hsh. lia.
Qed.

Lemma sheet_unique (xls : Workbook) (name : pystr) (raw1 raw2 : RawFrame) :
  NoDup (map fst xls) → (name, raw1) ∈ xls → (name, raw2) ∈ xls → raw1 = raw2.
Proof.
  intros Hnd [i Hi]%list_elem_of_lookup H2.
  apply list_elem_of_lookup in H2 as [j Hj].
  pose proof (sheet_by_name_lookup _ _ _ _ Hnd Hi) as E1.
  pose proof (sheet_by_name_lookup _ _ _ _ Hnd Hj) as E2.
  congruence.
Qed.

Lemma sheet_range_subseteq (xls : Workbook) (start_sheet end_sheet : Z) :
  sheet_range xls start_sheet end_sheet ⊆ xls.
Proof.
  unfold sheet_range. etrans; [apply subseteq_take | apply subseteq_drop].
Qed.

(** X3.  In the daily table of a run on a workbook with distinct sheet
    labels, every row carries the label of a sheet of the range in
    [feuille] and the report date of that sheet in [date_rapport],
    whatever the sheet holds in columns of these names; so two rows
    with the same [feuille] have the same date. *)
Theorem rows_carry_sheet_and_date (fs : FileSystem) (tmp_path : pystr)
    (file_bytes : list N) (xls : Workbook) (start_sheet end_sheet : Z) (t : Tables) :
  excel_file file_bytes = Some xls → NoDup (map fst xls) →
  outcome (build_week_tables_from_excel_bytes fs tmp_path file_bytes
             start_sheet end_sheet).2 = inr t →
  (∀ r, r ∈ actions_daily t →
        ∃ name raw, (name, raw) ∈ sheet_range xls start_sheet end_sheet
                    ∧ feuille r = Str name
                    ∧ date_rapport r = as_date (_get_date_from_raw raw))
  ∧ (∀ r1 r2, r1 ∈ actions_daily t → r2 ∈ actions_daily t →
              feuille r1 = feuille r2 → date_rapport r1 = date_rapport r2).
Proof.
  intros Hxls Hnd Ht.
  destruct (build_rows _ _ _ _ _ _ _ Hxls Hnd Ht) as (_ & _ & Hrows).
  assert (∀ r, r ∈ actions_daily t →
               ∃ name raw, (name, raw) ∈ sheet_range xls start_sheet end_sheet
                           ∧ feuille r = Str name
                           ∧ date_rapport r = as_date (_get_date_from_raw raw))
    as Hstamp.
  { intros r Hr.
    destruct (Hrows r Hr) as (name & raw & header & cells & Hsh & _ & _ & _ & -> & _).
    exists name, raw. split; [done |].
    unfold base_cols_row. cbn [feuille date_rapport]. unfold row_get.
    by rewrite finish_row_feuille, finish_row_date. }
  split; [exact Hstamp |].
  intros r1 r2 Hr1 Hr2 Hsame.
  destruct (Hstamp r1 Hr1) as (n1 & raw1 & Hs1 & Hf1 & ->).
  destruct (Hstamp r2 Hr2) as (n2 & raw2 & Hs2 & Hf2 & ->).
  rewrite Hf1, Hf2 in Hsame. injection Hsame as ->.
  apply sheet_range_subseteq in Hs1, Hs2.
  by rewrite (sheet_unique _ _ _ _ Hnd Hs1 Hs2).
Qed.

Lemma flag_columns_elem :
  py "termine" ∈ flag_columns ∧ py "en_cours" ∈ flag_columns
  ∧ py "reporte" ∈ flag_columns ∧ py "indisponible" ∈ flag_columns.
Proof. repeat split; refine (bool_decide_unpack _ _); vm_compute; exact I. Qed.

(** The four flags of the daily row of a line: what [to_bool] makes of
    the cell when the sheet has the column, [False] when it has not. *)
Lemma daily_row_flags (sheet_name : pystr) (columns : list pystr) (dt : cell)
    (r : Row) :
  let d := base_cols_row (finish_row sheet_name columns dt r) in
  let flag := λ c, if has_column c columns
                   then to_bool_cell (default NaN (r !! c)) else false in
  termine d = flag (py "termine") ∧ en_cours d = flag (py "en_cours")
  ∧ reporte d = flag (py "reporte") ∧ indisponible d = flag (py "indisponible").
Proof.
  destruct flag_columns_elem as (Ht & He & Hr & Hi).
  intros d flag. subst d flag. unfold base_cols_row.
  cbn [termine en_cours reporte indisponible]. unfold row_get.
  rewrite (finish_row_flag _ _ _ _ _ Ht), (finish_row_flag _ _ _ _ _ He),
    (finish_row_flag _ _ _ _ _ Hr), (finish_row_flag _ _ _ _ _ Hi).
  done.
Qed.

(** X5.  A status column that a sheet does not have is [False] on every
    row of that sheet in the daily table; so when no sheet of the range
    has an [indisponible] column, the downtime table is empty. *)
Theorem absent_flag_column_false (fs : FileSystem) (tmp_path : pystr)
    (file_bytes : list N) (xls : Workbook) (start_sheet end_sheet : Z) (t : Tables) :
  excel_file file_bytes = Some xls → NoDup (map fst xls) →
  outcome (build_week_tables_from_excel_bytes fs tmp_path file_bytes
             start_sheet end_sheet).2 = inr t →
  (∀ r, r ∈ actions_daily t →
        ∃ name raw,
          (name, raw) ∈ sheet_range xls start_sheet end_sheet
          ∧ feuille r = Str name
          ∧ (sheet_has_column (py "termine") raw = false → termine r = false)
          ∧ (sheet_has_column (py "en_cours") raw = false → en_cours r = false)
          ∧ (sheet_has_column (py "reporte") raw = false → reporte r = false)
          ∧ (sheet_has_column (py "indisponible") raw = false →
             indisponible r = false))
  ∧ (Forall (λ sh : pystr * RawFrame,
               sheet_has_column (py "indisponible") sh.2 = false)
            (sheet_range xls start_sheet end_sheet) →
     equipment_downtime t = []).
Proof.
  intros Hxls Hnd Ht.
  destruct (build_rows _ _ _ _ _ _ _ Hxls Hnd Ht) as (_ & _ & Hrows).
  assert (∀ r, r ∈ actions_daily t →
        ∃ name raw,
          (name, raw) ∈ sheet_range xls start_sheet end_sheet
          ∧ feuille r = Str name
          ∧ (sheet_has_column (py "termine") raw = false → termine r = false)
          ∧ (sheet_has_column (py "en_cours") raw = false → en_cours r = false)
          ∧ (sheet_has_column (py "reporte") raw = false → reporte r = false)
          ∧ (sheet_has_column (py "indisponible") raw = false →
             indisponible r = false)) as Hflags.
  { intros r Hr.
    destruct (Hrows r Hr) as (name & raw & header & cells & Hsh & Hhdr & _ & _ & Hrow & _).
    cbv zeta in Hrow.
    destruct (daily_row_flags name (norm_cols header) (_get_date_from_raw raw)
                (mk_row (norm_cols header) cells)) as (Et & Ee & Er & Ei).
    rewrite <- Hrow in Et, Ee, Er, Ei.
    exists name, raw. split; [done |]. split.
    { rewrite Hrow. unfold base_cols_row. cbn [feuille]. unfold row_get.
      by rewrite finish_row_feuille. }
    unfold sheet_has_column. rewrite Hhdr.
    rewrite Et, Ee, Er, Ei.
    split; [by intros -> |]. split; [by intros -> |].
    split; [by intros -> | by intros ->]. }
  split; [exact Hflags |].
  intros Hnone.
  assert (equipment_downtime t = filter (λ r, indisponible r = true) (actions_daily t))
    as ->.
  { apply build_tables_of_daily in Ht as (daily & -> & _). done. }
  apply filter_none. apply Forall_forall. intros r Hr.
  destruct (Hflags r Hr) as (name & raw & Hsh & _ & _ & _ & _ & Hind).
  rewrite Forall_forall in Hnone. specialize (Hnone _ Hsh). simpl in Hnone.
  rewrite (Hind Hnone). done.
Qed.

End SheetTheorems.

Section NotBlank.
Context `{PyRuntime}.

Lemma sheets_loop_Forall (P : Row → Prop) (xls : Workbook) (idxs : list Z)
    (final_dfs : list Frame) (dates : list cell) (frames : list Frame)
    (dates' : list cell) :
  (∀ name raw dt df, clean_sheet name raw = inr (dt, Some df) → Forall P df) →
  Forall (Forall P) final_dfs →
  outcome (sheets_loop xls idxs final_dfs dates) = inr (frames, dates') →
  Forall (Forall P) frames.
Proof.
  intros Hclean. revert final_dfs dates.
  induction idxs as [| i idxs IH]; intros final_dfs dates Hinv.
  - simpl. by intros [= <- _].
  - rewrite sheets_loop_cons. intros Hrun.
    apply outcome_bind_inv in Hrun as (sheet_name & _ & Hrun).
    apply outcome_bind_inv in Hrun as (df_raw & _ & Hrun).
    apply outcome_bind_inv in Hrun as ([dt odf] & Hc & Hrun).
    cbn [fst snd] in Hrun. destruct odf as [df|]; [| exact (IH _ _ Hinv Hrun)].
    refine (IH _ _ _ Hrun).
    apply Forall_app. split; [done |]. constructor; [| done].
    eapply Hclean. exact Hc.
Qed.

(** A row of a cleaned sheet has a string as zone and a descriptive
    column that holds a string with a character that is not a blank. *)
Lemma clean_sheet_not_blank (name : pystr) (raw : RawFrame) (dt : cell) (df : Frame) :
  clean_sheet name raw = inr (dt, Some df) →
  Forall (λ o : Row,
            (∃ z, o !! py "champ_zone" = Some (Str z))
            ∧ ∃ c x, c ∈ text_columns ∧ o !! c = Some (Str x)
                     ∧ str_strip isspace x ≠ []) df.
Proof.
  intros Hclean. apply Forall_forall. intros o Ho.
  destruct (clean_sheet_row _ _ _ _ _ Hclean Ho)
    as (header & cells & _ & _ & Hcol & _ & -> & Hne).
  split.
  - rewrite finish_row_text; [by eexists | | done].
    refine (bool_decide_unpack _ _). vm_compute. exact I.
  - apply existsb_exists in Hne as (c & Hc & Hnb).
    apply list_elem_of_In, list_elem_of_filter in Hc as [Hhas Hc].
    unfold row_get in Hnb. rewrite finish_row_text in Hnb by done.
    exists c. eexists. split; [done |]. split; [by apply finish_row_text |].
    cbn [default normalize_text str] in Hnb.
    apply negb_true_iff, bool_decide_eq_false in Hnb. exact Hnb.
Qed.

(** X4.  Every row of the daily table of a run has a string in
    [champ_zone], never a missing value, and at least one of its seven
    descriptive fields is a string with a character that is not a
    blank: the lines without zone and the blank lines of the sheets are
    not in the table. *)
Theorem daily_rows_not_blank (fs : FileSystem) (tmp_path : pystr)
    (file_bytes : list N) (start_sheet end_sheet : Z) (t : Tables) :
  outcome (build_week_tables_from_excel_bytes fs tmp_path file_bytes
             start_sheet end_sheet).2 = inr t →
  ∀ r, r ∈ actions_daily t →
       (∃ z, champ_zone r = Str z)
       ∧ ∃ x, Str x ∈ descriptive_fields r ∧ str_strip isspace x ≠ [].
Proof.
  intros Ht r Hr.
  apply build_daily_rows in Ht as (xls & frames & dates & _ & Hrun & Hdaily).
  rewrite Hdaily, map_fmap in Hr. apply list_elem_of_fmap in Hr as (o & -> & Ho).
  unfold clean_week_sheets in Hrun. destruct (_ || _); [done |].
  eapply sheets_loop_Forall in Hrun;
    [| intros name raw dt df; apply clean_sheet_not_blank | constructor].
  apply list_elem_of_In, in_concat in Ho as (df & Hdf & Ho).
  apply list_elem_of_In in Hdf, Ho.
  rewrite Forall_forall in Hrun. specialize (Hrun df Hdf).
  rewrite Forall_forall in Hrun.
  destruct (Hrun o Ho) as [[z Hz] (c & x & Hc & Hx & Hnb)].
  split.
  - exists z. unfold base_cols_row. cbn [champ_zone]. unfold row_get. by rewrite Hz.
  - exists x. split; [| done]. rewrite descriptive_fields_row, map_fmap.
    apply list_elem_of_fmap. exists c. split; [| done].
    unfold row_get. by rewrite Hx.
Qed.

End NotBlank.

(** ** The text helpers *)

(** ** Words and blanks *)

Section Words.
Variable isspace : N → bool.
Hypothesis space_blank : isspace 32 = true.

Lemma str_split_aux_app (w s cur : pystr) :
  Forall (λ c, isspace c = false) w →
  str_split_aux isspace (w ++ s) cur = str_split_aux isspace s (reverse w ++ cur).
Proof.
  intros Hw. revert cur. induction Hw as [| c w Hc _ IH]; intros cur; [done |].
  cbn [app str_split_aux]. rewrite Hc, IH.
  by rewrite reverse_cons, <- app_assoc.
Qed.

Lemma reverse_nil_inv {A} (l : list A) : reverse l = [] → l = [].
Proof.
  intros E. apply (f_equal length) in E. rewrite length_reverse in E.
  by destruct l.
Qed.

Lemma str_split_join (ws : list pystr) :
  Forall (is_word isspace) ws → str_split isspace (str_join (py " ") ws) = ws.
Proof.
  unfold str_split. induction 1 as [| w ws [Hne Hw] Hws IH]; [done |].
  destruct ws as [| w2 ws].
  - cbn [str_join]. rewrite <- (app_nil_r w) at 1.
    rewrite str_split_aux_app by done. rewrite app_nil_r. cbn [str_split_aux].
    destruct (reverse w) eqn:E; [by apply reverse_nil_inv in E |].
    by rewrite <- E, reverse_involutive.
  - change (str_join (py " ") (w :: w2 :: ws))
      with (w ++ 32%N :: str_join (py " ") (w2 :: ws)).
    rewrite str_split_aux_app by done. rewrite app_nil_r.
    cbn [str_split_aux]. rewrite space_blank.
    destruct (reverse w) eqn:E; [by apply reverse_nil_inv in E |].
    by rewrite <- E, reverse_involutive, IH.
Qed.

Lemma str_split_aux_words (Q : N → Prop) (s cur : pystr) :
  Forall (λ c, Q c ∧ isspace c = false) cur → Forall Q s →
  Forall (λ w, is_word isspace w ∧ Forall Q w) (str_split_aux isspace s cur).
Proof.
  intros Hcur Hs. revert cur Hcur.
  assert (∀ cur, Forall (λ c, Q c ∧ isspace c = false) cur → cur ≠ [] →
                 is_word isspace (reverse cur) ∧ Forall Q (reverse cur)) as Hword.
  { intros cur Hcur Hne. split; [split |].
    - intros E. by apply reverse_nil_inv in E.
    - apply Forall_reverse. eapply Forall_impl; [exact Hcur |]. by intros c [_ ?].
    - apply Forall_reverse. eapply Forall_impl; [exact Hcur |]. by intros c [? _]. }
  induction Hs as [| c s Hc _ IH]; intros cur Hcur.
  - cbn [str_split_aux]. destruct cur as [| c cur]; [constructor |].
    constructor; [by apply Hword | constructor].
  - cbn [str_split_aux]. destruct (isspace c) eqn:Hsp.
    + destruct cur as [| c0 cur]; [by apply IH |].
      constructor; [by apply Hword | by apply IH].
    + apply IH. by constructor.
Qed.

Lemma str_lstrip_id (s : pystr) :
  (∀ c, head s = Some c → isspace c = false) → str_lstrip isspace s = s.
Proof.
  destruct s as [| c s]; [done |]. intros Hc. cbn [str_lstrip].
  by rewrite (Hc c).
Qed.

Lemma str_strip_id (s : pystr) :
  (∀ c, head s = Some c → isspace c = false) →
  (∀ c, last s = Some c → isspace c = false) →
  str_strip isspace s = s.
Proof.
  intros Hhead Hlast. unfold str_strip, str_rstrip.
  rewrite (str_lstrip_id s) by done.
  rewrite str_lstrip_id; [by rewrite reverse_involutive |].
  intros c Hc. rewrite head_reverse in Hc. by apply Hlast.
Qed.

Lemma head_join_words (ws : list pystr) (c : N) :
  Forall (is_word isspace) ws → head (str_join (py " ") ws) = Some c → isspace c = false.
Proof.
  intros Hws. destruct Hws as [| w ws [Hne Hw] Hws]; [done |].
  assert (head (str_join (py " ") (w :: ws)) = head w) as ->.
  { destruct ws as [| p ws]; [done |].
    change (str_join (py " ") (w :: p :: ws))
      with (w ++ 32%N :: str_join (py " ") (p :: ws)).
    by destruct w. }
  destruct Hw as [| c0 w Hc0 _]; [done |]. by intros [= <-].
Qed.

Lemma last_join_words (ws : list pystr) (c : N) :
  Forall (is_word isspace) ws → last (str_join (py " ") ws) = Some c → isspace c = false.
Proof.
  induction 1 as [| w ws [Hne Hw] Hws IH]; [done |].
  destruct ws as [| w2 ws].
  - cbn [str_join]. intros Hl. apply last_Some in Hl as [l' ->].
    rewrite Forall_app, Forall_singleton in Hw. by destruct Hw.
  - change (str_join (py " ") (w :: w2 :: ws))
      with (w ++ 32%N :: str_join (py " ") (w2 :: ws)).
    rewrite last_app, last_cons.
    destruct (last (str_join (py " ") (w2 :: ws))) as [y|] eqn:E.
    + intros [= <-]. by apply IH.
    + exfalso. apply last_None in E.
      apply Forall_cons in Hws as [[Hne2 _] _].
      destruct ws as [| p ws]; [done |].
      change (str_join (py " ") (w2 :: p :: ws))
        with (w2 ++ 32%N :: str_join (py " ") (p :: ws)) in E.
      by destruct w2.
Qed.

Lemma str_strip_join (ws : list pystr) :
  Forall (is_word isspace) ws → str_strip isspace (str_join (py " ") ws) = str_join (py " ") ws.
Proof.
  intros Hws. apply str_strip_id; intros c.
  - by apply head_join_words.
  - by apply last_join_words.
Qed.

(** The characters of words joined by single spaces. *)
Lemma Forall_join (Q : N → Prop) (ws : list pystr) :
  Q 32%N → Forall (Forall Q) ws → Forall Q (str_join (py " ") ws).
Proof.
  intros Hq. induction 1 as [| w ws Hw Hws IH]; [constructor |].
  destruct ws as [| w2 ws]; [done |].
  change (str_join (py " ") (w :: w2 :: ws))
    with (w ++ 32%N :: str_join (py " ") (w2 :: ws)).
  apply Forall_app. split; [done |]. by constructor.
Qed.

Lemma map_join (f : N → N) (ws : list pystr) :
  f 32%N = 32%N →
  map f (str_join (py " ") ws) = str_join (py " ") (map (map f) ws).
Proof.
  intros Hf. induction ws as [| w ws IH]; [done |].
  destruct ws as [| w2 ws]; [done |].
  change (str_join (py " ") (w :: w2 :: ws))
    with (w ++ 32%N :: str_join (py " ") (w2 :: ws)).
  rewrite map_app. cbn [map]. rewrite Hf, IH. done.
Qed.

End Words.

(** ** Words and the gaps between them *)

Section Layout.
Variable isspace : N → bool.

Lemma str_split_aux_replace (a b : N) (s cur : pystr) :
  isspace a = true → isspace b = true →
  str_split_aux isspace (str_replace a b s) cur = str_split_aux isspace s cur.
Proof.
  intros Ha Hb. unfold str_replace. revert cur.
  induction s as [| c s IH]; intros cur; [done |].
  cbn [map str_split_aux]. destruct (decide (c = a)) as [-> | Hne].
  - rewrite Ha, Hb. destruct cur; by rewrite IH.
  - destruct (isspace c); [destruct cur; by rewrite IH | apply IH].
Qed.

Lemma str_split_aux_blanks (l s : pystr) :
  Forall (λ c, isspace c = true) l →
  str_split_aux isspace (l ++ s) [] = str_split_aux isspace s [].
Proof.
  induction 1 as [| c l Hc _ IH]; [done |].
  cbn [app str_split_aux]. by rewrite Hc.
Qed.

Lemma str_split_word_first (w s : pystr) :
  is_word isspace w →
  str_split_aux isspace (w ++ s) []
  = match s with
    | [] => [w]
    | c :: s' => if isspace c then w :: str_split_aux isspace s' []
                 else str_split_aux isspace (w ++ s) []
    end.
Proof.
  intros [Hne Hw]. destruct s as [| c s'].
  - rewrite str_split_aux_app by done. rewrite app_nil_r. cbn [str_split_aux].
    destruct (reverse w) eqn:E; [by apply reverse_nil_inv in E |].
    by rewrite <- E, reverse_involutive.
  - destruct (isspace c) eqn:Hc; [| done].
    rewrite str_split_aux_app by done. rewrite app_nil_r. cbn [str_split_aux].
    rewrite Hc.
    destruct (reverse w) eqn:E; [by apply reverse_nil_inv in E |].
    by rewrite <- E, reverse_involutive.
Qed.

Lemma str_split_weave (w : pystr) (rest : list (pystr * pystr)) (trail : pystr) :
  is_word isspace w →
  Forall (λ gw : pystr * pystr,
            gw.1 ≠ [] ∧ Forall (λ c, isspace c = true) gw.1
            ∧ is_word isspace gw.2) rest →
  Forall (λ c, isspace c = true) trail →
  str_split isspace (weave w rest ++ trail) = w :: map snd rest.
Proof.
  unfold str_split. intros Hw Hrest Htrail. revert w Hw.
  induction Hrest as [| [g w'] rest (Hne & Hg & Hw') _ IH]; intros w Hw.
  - cbn [weave map]. rewrite str_split_word_first by done.
    destruct Htrail as [| c trail Hc Htrail]; [done |].
    rewrite Hc. f_equal. rewrite <- (app_nil_r trail).
    by rewrite str_split_aux_blanks.
  - cbn [weave map fst snd] in *. rewrite <- !app_assoc.
    rewrite str_split_word_first by done.
    destruct Hg as [| c g Hc Hg]; [done |].
    cbn [app]. rewrite Hc. f_equal.
    rewrite str_split_aux_blanks by done. by apply IH.
Qed.

End Layout.

Lemma str_split_aux_ext (f g : N → bool) (s cur : pystr) :
  Forall (λ c, f c = g c) s → str_split_aux f s cur = str_split_aux g s cur.
Proof.
  intros Hs. revert cur. induction Hs as [| c s Hc _ IH]; intros cur; [done |].
  cbn [str_split_aux]. rewrite Hc. destruct (g c); [| apply IH].
  destruct cur; by rewrite IH.
Qed.

Lemma str_lstrip_ext (f g : N → bool) (s : pystr) :
  Forall (λ c, f c = g c) s → str_lstrip f s = str_lstrip g s.
Proof.
  induction 1 as [| c s Hc _ IH]; [done |].
  cbn [str_lstrip]. rewrite Hc, IH. done.
Qed.

Lemma str_lstrip_sublist (f : N → bool) (s : pystr) : str_lstrip f s ⊆ s.
Proof.
  induction s as [| c s IH]; [done |]. cbn [str_lstrip].
  destruct (f c); [| done]. intros x Hx. right. by apply IH.
Qed.

Lemma str_strip_ext (f g : N → bool) (s : pystr) :
  Forall (λ c, f c = g c) s → str_strip f s = str_strip g s.
Proof.
  intros Hs. unfold str_strip, str_rstrip.
  rewrite (str_lstrip_ext f g s) by done. f_equal.
  apply str_lstrip_ext. apply Forall_reverse.
  apply Forall_forall. intros c Hc. apply str_lstrip_sublist in Hc.
  rewrite Forall_forall in Hs. by apply Hs.
Qed.

(** A property of the 128 ASCII characters, checked on each. *)
Lemma ascii_cases (P : N → Prop) :
  Forall P (map N.of_nat (seq 0 128)) → ∀ c, is_ascii c → P c.
Proof.
  intros Hall c Hc. rewrite Forall_forall in Hall. apply Hall.
  rewrite map_fmap. apply list_elem_of_fmap. exists (N.to_nat c).
  split; [by rewrite N2Nat.id |].
  apply elem_of_seq. unfold is_ascii in Hc. lia.
Qed.

Lemma lower_char_ascii (c : N) :
  is_ascii c →
  let c' := if Ref.is_upper_letter c then (c + 32)%N else c in
  is_ascii c' ∧ (Ref.isspace c = false → Ref.isspace c' = false)
  ∧ Ref.is_upper_letter c' = false.
Proof.
  revert c. apply ascii_cases. unfold is_ascii.
  refine (bool_decide_unpack _ _). vm_compute. exact I.
Qed.

Lemma Ref_lower_idempotent (s : pystr) :
  Forall is_ascii s → Ref.lower (Ref.lower s) = Ref.lower s.
Proof.
  intros Hs. unfold Ref.lower. rewrite map_map.
  apply map_ext_in. intros c Hc%list_elem_of_In. rewrite Forall_forall in Hs.
  destruct (lower_char_ascii c (Hs c Hc)) as (_ & _ & ->). done.
Qed.

Section AsciiText.
Context `{rt : PyRuntime} `{!AsciiRuntime rt}.

Lemma spaced_ascii (s : pystr) : spaced s → Forall is_ascii s.
Proof.
  intros (ws & Hws & ->). apply Forall_join; [done |].
  eapply Forall_impl; [exact Hws |]. by intros w [_ ?].
Qed.

Lemma spaced_chars (s : pystr) :
  spaced s → Forall (λ c, c = 32%N ∨ Ref.isspace c = false) s.
Proof.
  intros (ws & Hws & ->). apply Forall_join; [by left |].
  eapply Forall_impl; [exact Hws |]. intros w [[_ Hw] _].
  eapply Forall_impl; [exact Hw |]. intros c Hc. by right.
Qed.

Lemma isspace_ascii_Forall (s : pystr) :
  Forall is_ascii s → Forall (λ c, isspace c = Ref.isspace c) s.
Proof. intros Hs. eapply Forall_impl; [exact Hs |]. apply isspace_ascii. Qed.

Lemma str_replace_ascii (a b : N) (s : pystr) :
  is_ascii b → Forall is_ascii s → Forall is_ascii (str_replace a b s).
Proof.
  intros Hb Hs. unfold str_replace. rewrite map_fmap. apply Forall_fmap.
  eapply Forall_impl; [exact Hs |]. intros c Hc. simpl. by destruct (decide _).
Qed.

(** On ASCII text [strip_accents_spaces] is: newlines to spaces, split
    at the blanks, join with single spaces. *)
Lemma strip_accents_spaces_ascii (s : pystr) :
  Forall is_ascii s →
  strip_accents_spaces s
  = str_join (py " ")
      (str_split Ref.isspace (str_replace 13 32 (str_replace 10 32 s)))
  ∧ spaced (strip_accents_spaces s).
Proof.
  intros Hs.
  set (s1 := str_replace 13 32 (str_replace 10 32 s)).
  assert (Forall is_ascii s1) as Hs1.
  { apply str_replace_ascii; [done |]. by apply str_replace_ascii. }
  pose proof (str_split_aux_words Ref.isspace is_ascii s1 [] ltac:(constructor) Hs1)
    as Hwords.
  assert (strip_accents_spaces s = str_join (py " ") (str_split Ref.isspace s1)) as E.
  { unfold strip_accents_spaces. fold s1. cbv zeta.
    unfold str_split at 1.
    rewrite (str_split_aux_ext isspace Ref.isspace) by (by apply isspace_ascii_Forall).
    fold (str_split Ref.isspace s1).
    assert (Forall is_ascii (str_join (py " ") (str_split Ref.isspace s1))) as Hj.
    { apply Forall_join; [done |]. eapply Forall_impl; [exact Hwords |].
      by intros w [_ ?]. }
    rewrite nfkd_ascii by done. apply filter_all.
    eapply Forall_impl; [exact Hj |]. intros c Hc. by apply combining_ascii. }
  split; [exact E |]. rewrite E. by eexists.
Qed.

Lemma spaced_fixed (s : pystr) : spaced s → strip_accents_spaces s = s.
Proof.
  intros Hsp. pose proof (spaced_ascii s Hsp) as Hascii.
  pose proof (spaced_chars s Hsp) as Hchars.
  destruct (strip_accents_spaces_ascii s Hascii) as [-> _].
  assert (∀ a, a ≠ 32%N → Ref.isspace a = true → a ∉ s) as Habs.
  { intros a Hne Ha Hin. rewrite Forall_forall in Hchars.
    destruct (Hchars a Hin) as [-> | Hf]; [done | congruence]. }
  rewrite (str_replace_absent 10) by (by apply Habs).
  rewrite (str_replace_absent 13) by (by apply Habs).
  destruct Hsp as (ws & Hws & ->). rewrite str_split_join; [done | done |].
  eapply Forall_impl; [exact Hws |]. by intros w [? _].
Qed.

Lemma spaced_strip (s : pystr) : spaced s → str_strip isspace s = s.
Proof.
  intros Hsp. rewrite (str_strip_ext isspace Ref.isspace)
    by (by apply isspace_ascii_Forall, spaced_ascii).
  destruct Hsp as (ws & Hws & ->). apply str_strip_join.
  eapply Forall_impl; [exact Hws |]. by intros w [? _].
Qed.

Lemma spaced_lower (s : pystr) :
  spaced s → lower s = Ref.lower s ∧ spaced (Ref.lower s).
Proof.
  intros Hsp. split; [by apply lower_ascii, spaced_ascii |].
  destruct Hsp as (ws & Hws & ->).
  exists (map Ref.lower ws). split.
  - rewrite map_fmap. apply Forall_fmap. eapply Forall_impl; [exact Hws |].
    intros w [[Hne Hw] Ha]. unfold Ref.lower. split; [split |].
    + by destruct w.
    + rewrite map_fmap. apply Forall_fmap.
      rewrite Forall_forall in Hw, Ha. apply Forall_forall. intros c Hc. simpl.
      destruct (lower_char_ascii c (Ha c Hc)) as (_ & Hb & _). by apply Hb, Hw.
    + rewrite map_fmap. apply Forall_fmap.
      rewrite Forall_forall in Ha. apply Forall_forall. intros c Hc. simpl.
      by destruct (lower_char_ascii c (Ha c Hc)) as (? & _ & _).
  - unfold Ref.lower at 1. by rewrite map_join.
Qed.

(** The lower-cased base of a header of ASCII text, and what the
    normaliser makes of it when it is read again. *)
Lemma norm_col_low (s : pystr) :
  Forall is_ascii s →
  let low := lower (str_strip isspace (strip_accents_spaces s)) in
  low = Ref.lower (str_join (py " ")
          (str_split Ref.isspace (str_replace 13 32 (str_replace 10 32 s))))
  ∧ spaced low
  ∧ lower (str_strip isspace (strip_accents_spaces low)) = low.
Proof.
  intros Hs low. subst low.
  destruct (strip_accents_spaces_ascii s Hs) as [E Hsp].
  rewrite (spaced_strip _ Hsp).
  destruct (spaced_lower _ Hsp) as [El Hlow]. rewrite El.
  split; [by rewrite E |]. split; [done |].
  rewrite (spaced_fixed _ Hlow), (spaced_strip _ Hlow).
  destruct (spaced_lower _ Hlow) as [-> _].
  apply Ref_lower_idempotent. by apply spaced_ascii.
Qed.

End AsciiText.

Section TextTheorems.
Context `{rt : PyRuntime} `{!AsciiRuntime rt}.

Lemma str_split_aux_blank (f : N → bool) (s : pystr) :
  Forall (λ c, f c = true) s → str_split_aux f s [] = [].
Proof. induction 1 as [| c s Hc _ IH]; [done |]. cbn [str_split_aux]. by rewrite Hc. Qed.


(** X6.  On ASCII text [strip_accents_spaces] returns the words of the
    text separated by single spaces: it is [" ".join(s.split())], and
    on a text laid out as blanks, a word, gaps of one blank or more
    each followed by a word, and blanks again, it returns these words
    in this order with one space between them.  So the result has no
    blank at either end, no newline, no two blanks in a row.  Applying
    it again, or stripping the result, changes nothing; a text of
    blanks only gives the empty string. *)
Theorem strip_accents_spaces_normal_form (s : pystr) :
  Forall is_ascii s →
  strip_accents_spaces s = str_join (py " ") (str_split Ref.isspace s)
  ∧ (∀ (lead w : pystr) (rest : list (pystr * pystr)) (trail : pystr),
       s = lead ++ weave w rest ++ trail →
       Forall (λ c, Ref.isspace c = true) lead →
       Forall (λ c, Ref.isspace c = true) trail →
       is_word Ref.isspace w →
       Forall (λ gw : pystr * pystr,
                 gw.1 ≠ [] ∧ Forall (λ c, Ref.isspace c = true) gw.1
                 ∧ is_word Ref.isspace gw.2) rest →
       strip_accents_spaces s = str_join (py " ") (w :: map snd rest))
  ∧ spaced (strip_accents_spaces s)
  ∧ strip_accents_spaces (strip_accents_spaces s) = strip_accents_spaces s
  ∧ str_strip isspace (strip_accents_spaces s) = strip_accents_spaces s
  ∧ (Forall (λ c, Ref.isspace c = true) s → strip_accents_spaces s = []).
Proof.
  intros Hs. destruct (strip_accents_spaces_ascii s Hs) as [E Hsp].
  assert (strip_accents_spaces s = str_join (py " ") (str_split Ref.isspace s)) as E'.
  { rewrite E. unfold str_split. by rewrite !str_split_aux_replace. }
  split; [exact E' |]. split.
  { intros lead w rest trail -> Hlead Htrail Hw Hrest. rewrite E'.
    unfold str_split. rewrite str_split_aux_blanks by done.
    fold (str_split Ref.isspace (weave w rest ++ trail)).
    by rewrite str_split_weave. }
  split; [done |]. split; [by apply spaced_fixed |].
  split; [by apply spaced_strip |].
  intros Hblank. rewrite E'. unfold str_split.
  by rewrite str_split_aux_blank.
Qed.

(** On a header of ASCII text the normaliser does not depend on the
    tables of the run time beyond ASCII. *)
Lemma norm_col_ref (decoder : list N → option Workbook) (c : cell) :
  Forall is_ascii (str c) → norm_col c = @norm_col (Ref.runtime decoder) c.
Proof.
  intros Hc. unfold norm_col. cbv zeta.
  destruct (norm_col_low (str c) Hc) as (E1 & _ & _).
  destruct (@norm_col_low (Ref.runtime decoder) _ (str c) Hc) as (E2 & _ & _).
  cbv zeta in E1, E2. rewrite E1. rewrite E2. reflexivity.
Qed.

Ltac canonical_name :=
  rewrite (norm_col_ref (λ _, None)) by (refine (bool_decide_unpack _ _); vm_compute; exact I);
  vm_compute; reflexivity.

(** X7.  On headers of ASCII text the normaliser of the column labels
    is idempotent: a label it returns is returned as it is when it is
    read as a header again, be it one of the eleven names of the
    pipeline or the lower-cased text of an unrecognised header. *)
Theorem norm_cols_idempotent (cols : list cell) :
  Forall (λ c, Forall is_ascii (str c)) cols →
  norm_cols (map Str (norm_cols cols)) = norm_cols cols.
Proof.
  intros Hcols. unfold norm_cols. rewrite !map_map.
  apply map_ext_in. intros c Hc%list_elem_of_In.
  rewrite Forall_forall in Hcols. specialize (Hcols c Hc).
  destruct (norm_col_low (str c) Hcols) as (_ & _ & Hfix). cbv zeta in Hfix.
  remember (norm_col c) as out eqn:Hout.
  unfold norm_col in Hout. cbv zeta in Hout.
  set (low := lower (str_strip isspace (strip_accents_spaces (str c)))) in *.
  repeat lazymatch type of Hout with
         | out = (if ?b then _ else _) =>
             destruct b eqn:?; [subst out; canonical_name |]
         end.
  subst out. unfold norm_col. cbv zeta. cbn [str]. rewrite Hfix.
  repeat match goal with E : _ = false |- _ => rewrite E; clear E end.
  reflexivity.
Qed.

End TextTheorems.


Lemma strip_accents_spaces_normal_form_witness :
  let s := py "  Champ " ++ [10%N] ++ py " Zone  " in
  @strip_accents_spaces Sample.runtime s = py "Champ Zone"
  ∧ spaced (@strip_accents_spaces Sample.runtime s)
  ∧ @strip_accents_spaces Sample.runtime (@strip_accents_spaces Sample.runtime s)
    = @strip_accents_spaces Sample.runtime s
  ∧ str_strip (@isspace Sample.runtime) (@strip_accents_spaces Sample.runtime s)
    = @strip_accents_spaces Sample.runtime s.
Proof.
  intros s.
  destruct (@strip_accents_spaces_normal_form Sample.runtime
              (Ref_ascii Sample.decoder) s)
    as (_ & Hlay & Hsp & Hfix & Hstrip & _).
  { refine (bool_decide_unpack _ _). vm_compute. exact I. }
  split; [| by repeat split].
  apply (Hlay (py "  ") (py "Champ") [(py " " ++ [10%N] ++ py " ", py "Zone")]
           (py "  ")).
  - reflexivity.
  - refine (bool_decide_unpack _ _). vm_compute. exact I.
  - refine (bool_decide_unpack _ _). vm_compute. exact I.
  - split; [discriminate |]. refine (bool_decide_unpack _ _). vm_compute. exact I.
  - constructor; [| constructor]. split; [discriminate |]. split.
    + refine (bool_decide_unpack _ _). vm_compute. exact I.
    + split; [discriminate |]. refine (bool_decide_unpack _ _). vm_compute. exact I.
Defined.

Lemma norm_cols_idempotent_witness :
  let cols := [ Str (py "Champ / Zone"); Str (py " TAG "); Str (py "Sous equipement");
                Str (py "Remarque  HSE"); Int 2024; NaN ] in
  @norm_cols Sample.runtime (map Str (@norm_cols Sample.runtime cols))
  = @norm_cols Sample.runtime cols.
Proof.
  apply (@norm_cols_idempotent Sample.runtime (Ref_ascii Sample.decoder)).
  refine (bool_decide_unpack _ _). vm_compute. exact I.
Defined.

Section ToBool.
Context `{rt : PyRuntime} `{!AsciiRuntime rt}.

Lemma to_bool_cell_ref (decoder : list N → option Workbook) (c : cell) :
  Forall is_ascii (str c) → to_bool_cell c = @to_bool_cell (Ref.runtime decoder) c.
Proof.
  intros Hc. unfold to_bool_cell.
  rewrite (str_strip_ext isspace Ref.isspace) by (by apply isspace_ascii_Forall).
  rewrite lower_ascii; [done |].
  apply Forall_forall. intros x Hx. rewrite Forall_forall in Hc. apply Hc.
  unfold str_strip, str_rstrip in Hx. rewrite elem_of_reverse in Hx.
  apply str_lstrip_sublist in Hx. rewrite elem_of_reverse in Hx.
  by apply str_lstrip_sublist in Hx.
Qed.

Lemma to_bool_cell_Bool (b : bool) : to_bool_cell (Bool b) = b.
Proof.
  rewrite (to_bool_cell_ref (λ _, None))
    by (destruct b; refine (bool_decide_unpack _ _); vm_compute; exact I).
  by destruct b.
Qed.

(** X8.  [to_bool] keeps the booleans: on a column of booleans its two
    branches, the one for the [bool] dtype and the one that reads the
    text of the cells, give the same column; so converting a converted
    column changes nothing.  A missing value becomes [False]. *)
Theorem to_bool_keeps_booleans :
  (∀ bs : list bool, to_bool false (map Bool bs) = to_bool true (map Bool bs))
  ∧ (∀ col : list cell, to_bool false (to_bool false col) = to_bool false col)
  ∧ (∀ (col : list cell) (i : nat),
       col !! i = Some NaN → to_bool false col !! i = Some (Bool false)).
Proof.
  assert (∀ bs : list bool, to_bool false (map Bool bs) = map Bool bs) as Hbool.
  { intros bs. unfold to_bool. rewrite map_map. apply map_ext.
    intros b. by rewrite to_bool_cell_Bool. }
  split; [exact Hbool |]. split.
  - intros col. unfold to_bool at 2.
    rewrite <- (map_map to_bool_cell Bool), Hbool.
    unfold to_bool. by rewrite map_map.
  - intros col i Hi. unfold to_bool. rewrite map_fmap, list_lookup_fmap, Hi.
    cbn [fmap option_fmap option_map]. do 2 f_equal.
    rewrite (to_bool_cell_ref (λ _, None))
      by (refine (bool_decide_unpack _ _); vm_compute; exact I).
    reflexivity.
Qed.

End ToBool.

(** ** The order of the keys *)

Lemma str_leb_total (a b : pystr) : str_leb a b = true ∨ str_leb b a = true.
Proof.
  revert b. induction a as [| x a IH]; intros [| y b]; cbn [str_leb]; auto.
  destruct (N.lt_trichotomy x y) as [Hlt | [-> | Hgt]].
  - left. by rewrite (proj2 (N.ltb_lt _ _) Hlt).
  - rewrite N.ltb_irrefl, !bool_decide_eq_true_2 by done. cbn [orb andb]. apply IH.
  - right. by rewrite (proj2 (N.ltb_lt _ _) Hgt).
Qed.

Lemma str_leb_trans (a b c : pystr) :
  str_leb a b = true → str_leb b c = true → str_leb a c = true.
Proof.
  revert b c. induction a as [| x a IH]; intros [| y b] [| z c]; cbn [str_leb];
    try done.
  rewrite !orb_true_iff, !andb_true_iff, !N.ltb_lt, !bool_decide_eq_true.
  intros [Hxy | [-> Hab]] [Hyz | [-> Hbc]].
  - left. lia.
  - by left.
  - by left.
  - right. split; [done |]. by eapply IH.
Qed.

Lemma str_leb_antisym (a b : pystr) :
  str_leb a b = true → str_leb b a = true → a = b.
Proof.
  revert b. induction a as [| x a IH]; intros [| y b]; cbn [str_leb]; try done.
  rewrite !orb_true_iff, !andb_true_iff, !N.ltb_lt, !bool_decide_eq_true.
  intros [Hxy | [-> Hab]] [Hyx | [Heq Hba]]; try lia.
  f_equal. by apply IH.
Qed.

#[global] Instance str_le_total : Total (λ a b : pystr, Is_true (str_leb a b)).
Proof.
  intros a b. destruct (str_leb_total a b) as [-> | ->]; simpl; auto.
Qed.
#[global] Instance str_le_trans : Transitive (λ a b : pystr, Is_true (str_leb a b)).
Proof. intros a b c. rewrite !Is_true_true. apply str_leb_trans. Qed.

Lemma last_elem {A} (l : list A) (x : A) : last l = Some x → x ∈ l.
Proof. intros [l' ->]%last_Some. apply elem_of_app. right. left. Qed.

(** ** Groups *)

Section Groups.
Context {A : Type} (key : A → pystr).

Lemma bind_nil_all {B} (ks : list pystr) (F : pystr → list B) :
  (∀ k, k ∈ ks → F k = []) → ks ≫= F = [].
Proof.
  induction ks as [| k ks IH]; intros HF; [done |].
  rewrite bind_cons, HF by left. apply IH. intros k' Hk'. apply HF. by right.
Qed.

Lemma bind_ext_in {B} (ks : list pystr) (F G : pystr → list B) :
  (∀ k, k ∈ ks → F k = G k) → ks ≫= F = ks ≫= G.
Proof.
  induction ks as [| k ks IH]; intros HF; [done |].
  rewrite !bind_cons, HF by left. f_equal. apply IH. intros k' Hk'. apply HF.
  by right.
Qed.

Lemma bind_Permutation_in {B} (ks : list pystr) (F G : pystr → list B) :
  (∀ k, k ∈ ks → F k ≡ₚ G k) → ks ≫= F ≡ₚ ks ≫= G.
Proof.
  induction ks as [| k ks IH]; intros HF; [done |].
  rewrite !bind_cons, HF by left. f_equiv. apply IH. intros k' Hk'. apply HF.
  by right.
Qed.

Lemma bind_groups_cons (ks : list pystr) (x : A) (df : list A) :
  NoDup ks → key x ∈ ks →
  (ks ≫= λ k, group key k (x :: df)) ≡ₚ x :: (ks ≫= λ k, group key k df).
Proof.
  unfold group. induction 1 as [| k ks Hk Hnd IH]; intros Hx.
  - by apply elem_of_nil in Hx.
  - rewrite !bind_cons, filter_cons. destruct (decide (key x = k)) as [<- | Hne].
    + cbn [app]. f_equiv. f_equiv.
      rewrite (bind_ext_in ks _ (λ k, filter (λ r, key r = k) df)); [done |].
      intros k' Hk'. rewrite filter_cons_False; [done |].
      intros E. by rewrite <- E in Hk'.
    + apply elem_of_cons in Hx as [E | Hx]; [done |].
      rewrite IH by done. by rewrite Permutation_middle.
Qed.

(** The groups of a frame, one after the other, hold the rows of the
    frame, each once. *)
Lemma groupby_Permutation (df : list A) : groupby_apply key (λ g, g) df ≡ₚ df.
Proof.
  unfold groupby_apply.
  assert (∀ (ks : list pystr) (l : list A),
            NoDup ks → (∀ r, r ∈ l → key r ∈ ks) →
            (ks ≫= λ k, group key k l) ≡ₚ l) as Hgen.
  { intros ks l Hnd. induction l as [| x l IH]; intros Hin.
    - rewrite bind_nil_all; [done |]. done.
    - rewrite bind_groups_cons; [| done | apply Hin; left].
      f_equiv. apply IH. intros r Hr. apply Hin. by right. }
  apply Hgen; [apply group_keys_NoDup |].
  intros r Hr. apply elem_of_group_keys. by exists r.
Qed.

Lemma map_bind {B C} (h : B → C) (ks : list pystr) (F : pystr → list B) :
  map h (ks ≫= F) = ks ≫= λ k, map h (F k).
Proof.
  induction ks as [| k ks IH]; [done |]. by rewrite !bind_cons, map_app, IH.
Qed.

Lemma groupby_apply_Permutation {B} (f : list A → list B) (h : A → B) (df : list A) :
  (∀ g, f g ≡ₚ map h g) → groupby_apply key f df ≡ₚ map h df.
Proof.
  intros Hf. rewrite <- (groupby_Permutation df) at 2.
  unfold groupby_apply. rewrite map_bind.
  apply bind_Permutation_in. intros k _. apply Hf.
Qed.

Lemma length_groupby_apply {B} (f : list A → list B) (df : list A) :
  (∀ g, (length (f g) ≤ length g)%nat) →
  (length (groupby_apply key f df) ≤ length df)%nat.
Proof.
  intros Hf. rewrite <- (Permutation_length (groupby_Permutation df)).
  unfold groupby_apply. induction (group_keys key df) as [| k ks IH]; [done |].
  rewrite !bind_cons, !length_app. specialize (Hf (group key k df)). lia.
Qed.

Lemma group_elem (k : pystr) (df : list A) (x : A) :
  x ∈ group key k df ↔ x ∈ df ∧ key x = k.
Proof. unfold group. rewrite list_elem_of_filter. tauto. Qed.

(** The last row of each group: one row per key, in key order. *)
Lemma tail1_group (df : list A) (k : pystr) :
  k ∈ group_keys key df →
  ∃ x, tail1 (group key k df) = [x] ∧ last (group key k df) = Some x ∧ key x = k.
Proof.
  intros (r & Hr & Hk)%elem_of_group_keys.
  assert (r ∈ group key k df) as Hin by (by apply group_elem).
  destruct (last (group key k df)) as [y|] eqn:Hlast.
  - exists y. pose proof Hlast as Hy'. apply last_Some in Hy' as [g Hg].
    unfold tail1. rewrite Hg, length_app. cbn [length].
    replace (length g + 1 - 1)%nat with (length g) by lia.
    rewrite drop_app_length. split; [done |]. split; [done |].
    assert (y ∈ group key k df) as Hy by (by apply last_elem).
    by apply group_elem in Hy as [_ ?].
  - apply last_None in Hlast. rewrite Hlast in Hin. by apply elem_of_nil in Hin.
Qed.

Lemma map_key_tail1 (df : list A) :
  map key (groupby_apply key tail1 df) = group_keys key df.
Proof.
  unfold groupby_apply.
  assert (∀ ks, (∀ k, k ∈ ks → k ∈ group_keys key df) →
                map key (ks ≫= λ k, tail1 (group key k df)) = ks) as Hgen.
  { induction ks as [| k ks IH]; intros Hin; [done |].
    rewrite bind_cons, map_app, IH by (intros k' Hk'; apply Hin; by right).
    destruct (tail1_group df k (Hin k ltac:(left))) as (x & -> & _ & <-). done. }
  by apply Hgen.
Qed.

End Groups.

Lemma StronglySorted_app_2 {A} (R : relation A) (l1 l2 : list A) :
  StronglySorted R l1 → StronglySorted R l2 →
  (∀ x y, x ∈ l1 → y ∈ l2 → R x y) → StronglySorted R (l1 ++ l2).
Proof.
  induction 1 as [| x l1 Hl1 IH Hx]; intros Hl2 Hcross; [done |].
  cbn [app]. constructor.
  - apply IH; [done |]. intros a b Ha Hb. apply Hcross; [by right | done].
  - apply Forall_app. split; [done |]. apply Forall_forall. intros y Hy.
    apply Hcross; [left | done].
Qed.

Lemma StronglySorted_last {A} (R : relation A) `{!Reflexive R} (l : list A) (x y : A) :
  StronglySorted R l → last l = Some y → x ∈ l → R x y.
Proof.
  intros Hs Hl [i Hi]%list_elem_of_lookup.
  rewrite last_lookup in Hl.
  destruct (decide (i = pred (length l))) as [-> | Hne].
  - rewrite Hi in Hl. by injection Hl as ->.
  - eapply (StronglySorted_lookup R l i (pred (length l))); [done | | done | done].
    apply lookup_lt_Some in Hi. lia.
Qed.

(** ** The structure of the rolled table *)

Lemma group_rolled (df : list DailyFact) (k : pystr) :
  group (λ x, action_key (fact x)) k (groupby_apply action_key _rollup df)
  = _rollup (group action_key k df).
Proof.
  apply (filter_groupby_apply action_key (λ x, action_key (fact x))); [done |].
  intros g x Hx. by apply rollup_key.
Qed.

Lemma rolled_Permutation (df : list DailyFact) :
  map fact (groupby_apply action_key _rollup df) ≡ₚ df.
Proof.
  rewrite <- (groupby_Permutation action_key df) at 2.
  unfold groupby_apply. rewrite map_bind.
  apply bind_Permutation_in. intros k _.
  by rewrite rollup_fact, sort_values_Permutation.
Qed.

Lemma rolled_keys (df : list DailyFact) (k : pystr) :
  k ∈ group_keys (λ x, action_key (fact x)) (groupby_apply action_key _rollup df)
  ↔ k ∈ group_keys action_key df.
Proof.
  rewrite !elem_of_group_keys. split.
  - intros (x & Hx & Hk). exists (fact x). split; [| done].
    rewrite <- (rolled_Permutation df), map_fmap. apply list_elem_of_fmap. eauto.
  - intros (r & Hr & Hk). rewrite <- (rolled_Permutation df), map_fmap in Hr.
    apply list_elem_of_fmap in Hr as (x & -> & Hx). eauto.
Qed.

Lemma rollup_sorted (g : list DailyFact) :
  StronglySorted (by_date (λ x, date_rapport (fact x))) (_rollup g).
Proof.
  pose proof (StronglySorted_sort_values (by_date date_rapport) g) as Hs.
  rewrite <- rollup_fact, map_fmap in Hs.
  induction (_rollup g) as [| x l IH]; [constructor |].
  csimpl in Hs. apply StronglySorted_cons in Hs as [Hx Hl].
  constructor; [by apply IH |]. rewrite Forall_fmap in Hx. exact Hx.
Qed.

Section SortedBind.
Context {A : Type} (key : A → pystr) (date : A → option timestamp).

Lemma sorted_bind (ks : list pystr) (F : pystr → list A) :
  StronglySorted (λ a b : pystr, Is_true (str_leb a b)) ks → NoDup ks →
  (∀ k, k ∈ ks → StronglySorted (by_date date) (F k)) →
  (∀ k x, k ∈ ks → x ∈ F k → key x = k) →
  StronglySorted (by_key_date key date) (ks ≫= F).
Proof.
  induction 1 as [| k ks Hks IH Hk]; intros Hnd Hin Hkey; [constructor |].
  apply NoDup_cons in Hnd as [Hnk Hnd]. rewrite bind_cons.
  apply StronglySorted_app_2.
  - assert (Forall (λ x, key x = k) (F k)) as Hall.
    { apply Forall_forall. intros x Hx. apply (Hkey k x); [left | done]. }
    specialize (Hin k ltac:(left)). revert Hall.
    induction Hin as [| x l Hl IHl Hx]; intros Hall; [constructor |].
    apply Forall_cons in Hall as [Ex Hall]. constructor; [by apply IHl |].
    rewrite Forall_forall in Hall, Hx. apply Forall_forall. intros y Hy.
    unfold by_key_date. rewrite bool_decide_eq_true_2 by (by rewrite Ex, (Hall y Hy)).
    by apply Hx.
  - apply IH; [done | |].
    + intros k' Hk'. apply Hin. by right.
    + intros k' x Hk'. apply Hkey. by right.
  - intros x y Hx Hy. apply list_elem_of_bind in Hy as (k' & Hy & Hk').
    unfold by_key_date.
    rewrite (Hkey k x ltac:(left) Hx), (Hkey k' y ltac:(by right) Hy).
    rewrite bool_decide_eq_false_2 by (by intros ->).
    rewrite Forall_forall in Hk. by apply Hk.
Qed.

End SortedBind.

(** The rolled table is in the order of
    [sort_values(["action_key", "date_rapport"])]. *)
Lemma rolled_sorted (df : list DailyFact) :
  StronglySorted (by_key_date (λ x, action_key (fact x)) (λ x, date_rapport (fact x)))
                 (groupby_apply action_key _rollup df).
Proof.
  unfold groupby_apply. apply sorted_bind.
  - unfold group_keys. apply StronglySorted_sort_values; apply _.
  - apply group_keys_NoDup.
  - intros k _. apply rollup_sorted.
  - intros k x _ Hx. apply rollup_key in Hx as (r & Hr & <-).
    by apply group_elem in Hr as [_ ?].
Qed.

(** The rows of [latest]: for each action, the last row of the roll-up
    of its group. *)
Lemma latest_rows (daily : list DailyFact) :
  actions_latest (tables_of_daily daily)
  = map latest_row
      (groupby_apply (λ x, action_key (fact x)) tail1
         (groupby_apply action_key _rollup
            (sort_values (by_key_date action_key date_rapport) daily))).
Proof.
  unfold tables_of_daily. cbn [actions_latest].
  by rewrite (sort_values_sorted _ _ (rolled_sorted _)).
Qed.

Lemma latest_elem_last (daily : list DailyFact) (l : LatestAction) :
  l ∈ actions_latest (tables_of_daily daily)
  ↔ ∃ k x, k ∈ group_keys action_key daily
           ∧ last (_rollup (group action_key k
                     (sort_values (by_key_date action_key date_rapport) daily)))
             = Some x
           ∧ l = latest_row x.
Proof.
  rewrite latest_rows, map_fmap, list_elem_of_fmap.
  set (ds := sort_values (by_key_date action_key date_rapport) daily).
  assert (∀ k, k ∈ group_keys (λ x, action_key (fact x))
                     (groupby_apply action_key _rollup ds)
               ↔ k ∈ group_keys action_key daily) as Hkeys.
  { intros k. rewrite rolled_keys, !elem_of_group_keys.
    unfold ds. by setoid_rewrite sort_values_Permutation. }
  split.
  - intros (x & -> & Hx). unfold groupby_apply at 1 in Hx.
    apply list_elem_of_bind in Hx as (k & Hx & Hk).
    destruct (tail1_group _ _ _ Hk) as (y & Ht & Hl & _).
    rewrite Ht in Hx. apply list_elem_of_singleton in Hx as ->.
    rewrite group_rolled in Hl. exists k, y. by rewrite <- Hkeys.
  - intros (k & x & Hk & Hl & ->). exists x. split; [done |].
    apply Hkeys in Hk. unfold groupby_apply at 1.
    apply list_elem_of_bind. exists k. split; [| done].
    destruct (tail1_group _ _ _ Hk) as (y & Ht & Hl' & _).
    rewrite group_rolled, Hl in Hl'. injection Hl' as <-.
    rewrite Ht. left.
Qed.

(** The last row of a roll-up: the last daily row in date order, and
    the latch true when [termine] is true on some row of the group. *)
Lemma rollup_last (g : list DailyFact) (x : RolledAction) :
  last (_rollup g) = Some x →
  last (sort_values (by_date date_rapport) g) = Some (fact x)
  ∧ termine_final x = existsb id (map termine g).
Proof.
  intros Hl. split.
  - by rewrite <- rollup_fact, map_fmap, fmap_last, Hl.
  - rewrite last_lookup, length_rollup in Hl.
    pose proof (lookup_lt_Some _ _ _ Hl) as Hlt. rewrite length_rollup in Hlt.
    apply rollup_lookup in Hl as (r & _ & ->). cbv zeta. cbn [termine_final].
    replace (S (pred (length g))) with (length g) by lia.
    rewrite take_ge
      by (by rewrite length_map, (Permutation_length (sort_values_Permutation _ g))).
    apply eq_true_iff_eq. rewrite !existsb_exists.
    split; intros (b & Hb & ?); exists b; (split; [| done]);
      apply list_elem_of_In; apply list_elem_of_In in Hb;
      rewrite map_fmap in *; apply list_elem_of_fmap in Hb as (r' & -> & Hr');
      apply list_elem_of_fmap; exists r'; (split; [done |]).
    + by rewrite sort_values_Permutation in Hr'.
    + by rewrite sort_values_Permutation.
Qed.

(** ** The final flags against the raw ones *)

(** A rolled row: its final [en_cours] and [reporte] are the raw flags
    of its own daily row unless the latch is set, and the latch is set
    where the raw [termine] is. *)
Lemma rolled_row_flags (daily : list DailyFact) (x : RolledAction) :
  x ∈ groupby_apply action_key _rollup daily →
  consistent_row x
  = with_flags (fact x) (termine_final x)
      (if termine_final x then false else en_cours (fact x))
      (if termine_final x then false else reporte (fact x))
  ∧ (termine (fact x) = true → termine_final x = true).
Proof.
  intros [g Hx]%rolled_elem.
  apply list_elem_of_lookup in Hx as [i Hx].
  apply rollup_lookup in Hx as (r & Hr & ->). cbn zeta.
  set (seen := existsb id _).
  split; [done |]. cbn [fact termine_final]. intros Ht.
  subst seen. apply existsb_exists. exists true. split; [| done].
  apply list_elem_of_In, list_elem_of_lookup. exists i.
  rewrite lookup_take_lt by lia.
  by rewrite map_fmap, list_lookup_fmap, Hr, <- Ht.
Qed.

(** C1, as amended.  On every row of the rolled table a true final
    [termine] excludes the two other final flags; the same holds on
    [actions_latest], and so [ended_actions] shares no row with
    [running_actions] or with [postponed_actions].  When the final
    [termine] is false the two other final flags are the forward-filled
    raw flags: the rolled table is the daily table, sorted by key and
    date, in which each row keeps its raw [en_cours] and [reporte] (the
    forward fill runs over columns without missing values, so it
    leaves them as they are) unless its final [termine] is true, and a
    row with a true raw [termine] has a true final one.  Nothing makes
    the two flags exclude each other. *)
Theorem termine_excludes_others (daily : list DailyFact) :
  let t := tables_of_daily daily in
  Forall (λ r, termine r = true → en_cours r = false ∧ reporte r = false)
         (actions_consistent t)
  ∧ Forall (λ l, la_termine l = true → la_en_cours l = false ∧ la_reporte l = false)
           (actions_latest t)
  ∧ (∀ l, l ∈ ended_actions t →
          (l ∉ running_actions t) ∧ (l ∉ postponed_actions t))
  ∧ (∃ raw : list DailyFact,
       raw ≡ₚ actions_daily t
       ∧ StronglySorted (by_key_date action_key date_rapport) raw
       ∧ Forall2 (λ r' r,
                    r' = with_flags r (termine r')
                           (if termine r' then false else en_cours r)
                           (if termine r' then false else reporte r)
                    ∧ (termine r = true → termine r' = true))
                 (actions_consistent t) raw).
Proof.
  intros t. split; [| split; [| split]].
  - subst t. unfold tables_of_daily. cbn [actions_consistent].
    apply consistent_rows_termine_wins, Forall_forall.
    intros x [g Hx]%rolled_elem. by eapply rollup_termine_wins.
  - apply Forall_forall. intros l (g & x & Hx & ->)%latest_elem. simpl.
    by eapply rollup_termine_wins.
  - subst t. unfold tables_of_daily.
    cbn [ended_actions running_actions postponed_actions].
    intros l [Hend _]%list_elem_of_filter.
    split; intros [Hrun _]%list_elem_of_filter; by rewrite Hend in Hrun.
  - subst t. unfold tables_of_daily. cbn [actions_consistent actions_daily].
    set (ds := sort_values (by_key_date action_key date_rapport) daily).
    exists (map fact (groupby_apply action_key _rollup ds)).
    split; [| split].
    + rewrite rolled_Permutation. apply sort_values_Permutation.
    + rewrite map_fmap.
      apply (StronglySorted_fmap _
               (by_key_date (λ x, action_key (fact x)) (λ x, date_rapport (fact x))));
        [done | apply rolled_sorted].
    + rewrite !map_fmap. apply Forall2_fmap, Forall_Forall2_diag, Forall_forall.
      intros x Hx. apply rolled_row_flags in Hx as [E Ht].
      split; [exact E | exact Ht].
Qed.

Lemma termine_excludes_others_witness :
  Forall (λ r, termine r = true → en_cours r = false ∧ reporte r = false)
         (actions_consistent (tables_of_daily Sample.relapse_daily))
  ∧ length (actions_consistent (tables_of_daily Sample.relapse_daily)) = 2%nat.
Proof.
  split; [| vm_compute; reflexivity].
  exact (proj1 (termine_excludes_others Sample.relapse_daily)).
Defined.

(** ** The views of the tables *)

Lemma with_flags_consistent (x : RolledAction) :
  with_flags (consistent_row x) false false false
  = with_flags (fact x) false false false.
Proof. done. Qed.

(** X9.  The consistent table is the daily table with its three status
    flags replaced: but for these flags its rows are those of the daily
    table, each once, in the order of action key and date.  No row is
    lost or added, and the other columns, [indisponible] and [feuille]
    among them, are kept. *)
Theorem consistent_is_daily_reflagged (daily : list DailyFact) :
  let t := tables_of_daily daily in
  let erase := λ r, with_flags r false false false in
  map erase (actions_consistent t) ≡ₚ map erase (actions_daily t)
  ∧ length (actions_consistent t) = length (actions_daily t)
  ∧ StronglySorted (by_key_date action_key date_rapport) (actions_consistent t).
Proof.
  intros t erase. subst t. unfold tables_of_daily.
  cbn [actions_consistent actions_daily].
  set (ds := sort_values (by_key_date action_key date_rapport) daily).
  assert (map erase (map consistent_row (groupby_apply action_key _rollup ds))
          ≡ₚ map erase daily) as Hperm.
  { rewrite map_map.
    rewrite (map_ext _ (λ x, erase (fact x))) by (intros x; apply with_flags_consistent).
    rewrite <- (map_map fact erase), rolled_Permutation.
    unfold ds. by rewrite sort_values_Permutation. }
  split; [exact Hperm |]. split.
  - apply Permutation_length in Hperm. rewrite !length_map in Hperm.
    by rewrite length_map.
  - rewrite map_fmap.
    apply (StronglySorted_fmap _
             (by_key_date (λ x, action_key (fact x)) (λ x, date_rapport (fact x))));
      [done | apply rolled_sorted].
Qed.

(** X10.  [actions_latest] has exactly one row for each action key of
    the daily table. *)
Theorem latest_one_row_per_action (daily : list DailyFact) :
  let t := tables_of_daily daily in
  NoDup (map la_action_key (actions_latest t))
  ∧ ∀ k, k ∈ map la_action_key (actions_latest t)
         ↔ ∃ r, r ∈ actions_daily t ∧ action_key r = k.
Proof.
  intros t. subst t. rewrite latest_rows.
  set (ds := sort_values (by_key_date action_key date_rapport) daily).
  rewrite map_map.
  change (map (λ x, la_action_key (latest_row x)))
    with (map (λ x : RolledAction, action_key (fact x))).
  rewrite (map_key_tail1 (λ x, action_key (fact x))).
  split; [apply group_keys_NoDup |].
  intros k. rewrite rolled_keys, elem_of_group_keys.
  unfold ds, tables_of_daily. cbn [actions_daily].
  by setoid_rewrite sort_values_Permutation.
Qed.

Lemma date_by_refl {A} (date : A → option timestamp) : Reflexive (by_date date).
Proof. intros x. unfold by_date. by rewrite date_leb_refl. Qed.

(** X11.  A row of [actions_latest] is the last report of its action:
    it copies the date and the descriptive fields of a row of the daily
    table of that key, and no row of that key has a later date.  A null
    date counts as the latest, so an action with an undated row has an
    undated latest row. *)
Theorem latest_is_last_report (daily : list DailyFact) (l : LatestAction) :
  let t := tables_of_daily daily in
  l ∈ actions_latest t →
  (∃ r, r ∈ actions_daily t
        ∧ action_key r = la_action_key l
        ∧ date_rapport r = la_date_rapport l
        ∧ descriptive_fields r
          = [la_champ_zone l; la_plateforme_sous_zone l; la_num_puits l;
             la_tag_equipement l; la_sous_equipement l; la_metier l;
             la_travaux_commentaires l])
  ∧ ∀ r, r ∈ actions_daily t → action_key r = la_action_key l →
         date_leb (date_rapport r) (la_date_rapport l) = true.
Proof.
  intros t Hl. subst t.
  apply latest_elem_last in Hl as (k & x & Hk & Hlast & ->).
  unfold tables_of_daily. cbn [actions_daily].
  set (g := group action_key k
              (sort_values (by_key_date action_key date_rapport) daily)) in *.
  destruct (rollup_last g x Hlast) as [Hfact _].
  assert (∀ r, r ∈ g ↔ r ∈ daily ∧ action_key r = k) as Hg.
  { intros r. unfold g. rewrite group_elem.
    by rewrite sort_values_Permutation. }
  assert (fact x ∈ g) as Hx.
  { rewrite <- (sort_values_Permutation (by_date date_rapport) g).
    by apply last_elem. }
  apply Hg in Hx as [Hx Hkx]. split.
  - exists (fact x). done.
  - intros r Hr Hkr. cbn [la_action_key latest_row] in Hkr.
    assert (r ∈ sort_values (by_date date_rapport) g) as Hrg.
    { rewrite sort_values_Permutation. apply Hg. split; [done | congruence]. }
    pose proof (StronglySorted_last (by_date date_rapport) (Reflexive0 := date_by_refl _)
                  _ r (fact x)
                  (StronglySorted_sort_values _ g) Hfact Hrg) as Hle.
    by apply Is_true_true in Hle.
Qed.

(** X12.  An action is in [ended_actions] exactly when [termine] is
    true on one of its rows of the daily table, on whatever day. *)
Theorem ended_iff_ever_done (daily : list DailyFact) (k : pystr) :
  let t := tables_of_daily daily in
  (∃ l, l ∈ ended_actions t ∧ la_action_key l = k)
  ↔ ∃ r, r ∈ actions_daily t ∧ action_key r = k ∧ termine r = true.
Proof.
  intros t.
  assert (∀ l, l ∈ ended_actions t ↔ l ∈ actions_latest t ∧ la_termine l = true)
    as Hended.
  { intros l. subst t. unfold tables_of_daily. cbn [ended_actions actions_latest].
    rewrite list_elem_of_filter. tauto. }
  subst t. cbn [actions_daily tables_of_daily].
  assert (∀ k' r, r ∈ group action_key k'
                        (sort_values (by_key_date action_key date_rapport) daily)
                  ↔ r ∈ daily ∧ action_key r = k') as Hg.
  { intros k' r. rewrite group_elem. by rewrite sort_values_Permutation. }
  split.
  - intros (l & [Hl Ht]%Hended & Hk).
    apply latest_elem_last in Hl as (k' & x & Hk' & Hlast & ->).
    destruct (rollup_last _ x Hlast) as [Hfact Hseen].
    cbn [la_termine la_action_key latest_row] in Ht, Hk.
    rewrite Hseen in Ht. apply existsb_exists in Ht as (b & Hb & Hid).
    apply list_elem_of_In in Hb. rewrite map_fmap in Hb.
    apply list_elem_of_fmap in Hb as (r & -> & Hr).
    apply Hg in Hr as [Hr Hkr].
    assert (fact x ∈ group action_key k'
                       (sort_values (by_key_date action_key date_rapport) daily))
      as Hx.
    { rewrite <- (sort_values_Permutation (by_date date_rapport)).
      by apply last_elem. }
    apply Hg in Hx as [_ Hkx].
    exists r. split; [done |]. split; [congruence | done].
  - intros (r & Hr & Hk & Ht).
    set (g := group action_key k
                (sort_values (by_key_date action_key date_rapport) daily)).
    assert (r ∈ g) as Hrg by (by apply Hg).
    destruct (last (_rollup g)) as [x|] eqn:Hlast.
    + exists (latest_row x). split.
      * apply Hended. split.
        -- apply latest_elem_last. exists k, x. split; [| done].
           apply elem_of_group_keys. by exists r.
        -- cbn [la_termine latest_row].
           destruct (rollup_last g x Hlast) as [_ ->].
           apply existsb_exists. exists (termine r). split; [| by rewrite Ht].
           apply list_elem_of_In. rewrite map_fmap. apply list_elem_of_fmap. eauto.
      * cbn [la_action_key latest_row].
        destruct (rollup_last g x Hlast) as [Hfact _].
        assert (fact x ∈ g) as Hx.
        { rewrite <- (sort_values_Permutation (by_date date_rapport) g).
          by apply last_elem. }
        by apply Hg in Hx as [_ ?].
    + apply last_None in Hlast. apply (f_equal length) in Hlast.
      rewrite length_rollup in Hlast. destruct g; [by apply elem_of_nil in Hrg | done].
Qed.

(** ** The transitions, row by row *)

Lemma StronglySorted_lookup_2 {A} (R : relation A) (l : list A) :
  (∀ i j x y, (i < j)%nat → l !! i = Some x → l !! j = Some y → R x y) →
  StronglySorted R l.
Proof.
  induction l as [| a l IH]; intros Hl; [constructor |]. constructor.
  - apply IH. intros i j x y Hij Hi Hj. apply (Hl (S i) (S j)); [lia | done | done].
  - apply Forall_forall. intros y [j Hj]%list_elem_of_lookup.
    apply (Hl 0%nat (S j)); [lia | done | done].
Qed.

(** Along a roll-up the latch never goes back. *)
Lemma rollup_latched (g : list DailyFact) :
  StronglySorted (λ a b, termine_final a = true → termine_final b = true)
                 (_rollup g).
Proof.
  apply StronglySorted_lookup_2. intros i j x y Hij Hi Hj Hx.
  pose proof (rollup_termine_final g) as Hcol.
  assert (map termine_final (_rollup g) !! i = Some true) as Hi'.
  { by rewrite map_fmap, list_lookup_fmap, Hi, <- Hx. }
  assert (j < length (map termine_final (_rollup g)))%nat as Hlt.
  { rewrite length_map. by eapply lookup_lt_Some. }
  rewrite Hcol in Hi', Hlt. rewrite length_cummax in Hlt.
  pose proof (cummax_latch _ i j ltac:(lia) Hlt Hi') as Hres.
  rewrite <- Hcol, map_fmap, list_lookup_fmap, Hj in Hres. by injection Hres.
Qed.

(** A row of the frame of [_transitions]: the key, the date and the
    final flags of a rolled row, each [_changed] flag the difference
    between the flag and its [_prev]; and where the latch does not go
    back, a true previous [termine] comes with a true [termine]. *)
Lemma diff_from_row (g : list RolledAction) (pt pe pr : bool) (row : DiffRow) :
  row ∈ diff_from pt pe pr g →
  (∃ x, x ∈ g
        ∧ d_action_key row = action_key (fact x)
        ∧ d_date_rapport row = date_rapport (fact x)
        ∧ d_termine_final row = termine_final x
        ∧ d_en_cours_final row = en_cours_final x
        ∧ d_reporte_final row = reporte_final x)
  ∧ termine_final_changed row = xorb (d_termine_final row) (termine_final_prev row)
  ∧ en_cours_final_changed row = xorb (d_en_cours_final row) (en_cours_final_prev row)
  ∧ reporte_final_changed row = xorb (d_reporte_final row) (reporte_final_prev row)
  ∧ (StronglySorted (λ a b, termine_final a = true → termine_final b = true) g →
     (pt = true → Forall (λ y, termine_final y = true) g) →
     termine_final_prev row = true → d_termine_final row = true).
Proof.
  revert pt pe pr. induction g as [| x g IH]; intros pt pe pr; cbn [diff_from].
  - by intros ?%elem_of_nil.
  - intros [-> | Hrow]%elem_of_cons.
    + cbn. split; [exists x; split; [left | done] |].
      split; [done |]. split; [done |]. split; [done |].
      intros _ Hpt Ept. specialize (Hpt Ept). by apply Forall_cons in Hpt as [? _].
    + destruct (IH _ _ _ Hrow) as ((y & Hy & Hrest) & Ht & He & Hr & Hlatch).
      split; [exists y; split; [by right | done] |].
      split; [done |]. split; [done |]. split; [done |].
      intros Hs _. apply StronglySorted_cons in Hs as [Hx Hs].
      apply Hlatch; [done |]. intros Ex.
      eapply Forall_impl; [exact Hx |]. intros z Hz. by apply Hz.
Qed.

Lemma transitions_rows (daily : list DailyFact) (e : TransitionEvent) :
  e ∈ transitions (tables_of_daily daily) →
  ∃ g row, row ∈ diff_from false false false (_rollup g)
           ∧ (∀ x, x ∈ _rollup g →
                   x ∈ groupby_apply action_key _rollup
                         (sort_values (by_key_date action_key date_rapport) daily))
           ∧ any_changed row = true ∧ e = event_of row.
Proof.
  unfold tables_of_daily. cbn [transitions].
  intros [k He]%elem_of_groupby_apply.
  rewrite group_rolled, transitions_scan, map_fmap in He.
  apply list_elem_of_fmap in He as (row & -> & Hrow).
  apply list_elem_of_filter in Hrow as [Hch Hrow].
  rewrite (sort_values_sorted _ _ (rollup_sorted _)) in Hrow.
  eexists _, row. split; [exact Hrow |]. split; [| done].
  intros x Hx. rewrite <- group_rolled in Hx. by apply group_elem in Hx as [? _].
Qed.


(** ** The sort of one column *)

Lemma stable_sort_sorts : sorts_by_date stable_sort.
Proof.
  intros A date l. split.
  - apply sort_values_Permutation.
  - apply StronglySorted_sort_values; apply _.
Qed.

Lemma reversing_sort_sorts : sorts_by_date reversing_sort.
Proof.
  intros A date l. unfold reversing_sort. split.
  - by rewrite sort_values_Permutation, reverse_Permutation.
  - apply StronglySorted_sort_values; apply _.
Qed.

Lemma tables_of_daily_stable (daily : list DailyFact) :
  tables_of_daily_by stable_sort daily = tables_of_daily daily.
Proof. reflexivity. Qed.

Lemma date_tie (a b : option timestamp) :
  date_leb a b = true → date_leb b a = true → day_of a = day_of b.
Proof.
  destruct a as [x|], b as [y|]; cbn; try done.
  intros H1%Z.leb_le H2%Z.leb_le. f_equal. lia.
Qed.

(** Two sorted arrangements of rows of distinct days are the same. *)
Lemma sorted_unique {A} (date : A → option timestamp) (l1 l2 : list A) :
  NoDup (map (λ r, day_of (date r)) l1) → l1 ≡ₚ l2 →
  StronglySorted (by_date date) l1 → StronglySorted (by_date date) l2 →
  l1 = l2.
Proof.
  revert l2. induction l1 as [| x l1 IH]; intros l2 Hnd Hp H1 H2.
  - by apply Permutation_nil_l in Hp.
  - destruct l2 as [| y l2]; [by apply Permutation_nil_r in Hp |].
    cbn [map] in Hnd. apply NoDup_cons in Hnd as [Hx Hnd].
    apply StronglySorted_cons in H1 as [Hx1 H1].
    apply StronglySorted_cons in H2 as [Hy2 H2].
    assert (x = y) as <-.
    { destruct (decide (day_of (date x) = day_of (date y))) as [E | Hne].
      - assert (y ∈ x :: l1) as Hy by (rewrite Hp; left).
        apply elem_of_cons in Hy as [-> | Hy]; [done |].
        exfalso. apply Hx. rewrite E, map_fmap.
        apply list_elem_of_fmap. by exists y.
      - exfalso. apply Hne.
        assert (y ∈ x :: l1) as Hy by (rewrite Hp; left).
        assert (x ∈ y :: l2) as Hx' by (rewrite <- Hp; left).
        apply elem_of_cons in Hy as [-> | Hy]; [done |].
        apply elem_of_cons in Hx' as [-> | Hx']; [done |].
        rewrite Forall_forall in Hx1, Hy2.
        specialize (Hx1 y Hy). specialize (Hy2 x Hx').
        unfold by_date in Hx1, Hy2. rewrite Is_true_true in Hx1, Hy2.
        by apply date_tie. }
    f_equal. apply IH; [done | by eapply Permutation_cons_inv | done | done].
Qed.

Lemma sorts_as_stable (srt : date_sort) {A} (date : A → option timestamp)
    (l : list A) :
  sorts_by_date srt → NoDup (map (λ r, day_of (date r)) l) →
  srt A date l = sort_values (by_date date) l.
Proof.
  intros Hsrt Hnd. destruct (Hsrt A date l) as [Hp Hs].
  apply (sorted_unique date).
  - rewrite !map_fmap in *. by rewrite Hp.
  - by rewrite Hp, sort_values_Permutation.
  - done.
  - apply StronglySorted_sort_values; apply _.
Qed.


Lemma NoDup_fmap_finer {A B C} (f : A → B) (g : A → C) (l : list A) :
  (∀ x y, x ∈ l → y ∈ l → g x = g y → f x = f y) →
  NoDup (f <$> l) → NoDup (g <$> l).
Proof.
  induction l as [| x l IH]; intros Hfg; [constructor |].
  rewrite !fmap_cons, !NoDup_cons. intros [Hx Hnd]. split.
  - intros (y & E & Hy)%list_elem_of_fmap. apply Hx.
    apply list_elem_of_fmap. exists y. split; [| done].
    apply Hfg; [left | by right | done].
  - apply IH; [| done]. intros y z Hy Hz. apply Hfg; by right.
Qed.

Lemma group_days (daily : list DailyFact) (k : pystr) :
  one_row_a_day daily →
  NoDup (map (λ r, day_of (date_rapport r))
             (group action_key k
                (sort_values (by_key_date action_key date_rapport) daily))).
Proof.
  unfold one_row_a_day. intros Hnd.
  set (ds := sort_values (by_key_date action_key date_rapport) daily).
  rewrite map_fmap in *.
  apply (NoDup_fmap_finer (λ r, (action_key r, day_of (date_rapport r)))).
  - intros x y [_ Hx]%group_elem [_ Hy]%group_elem E. by rewrite Hx, Hy, E.
  - assert (ds ≡ₚ daily) as Hp by apply sort_values_Permutation.
    rewrite <- Hp in Hnd.
    eapply sublist_NoDup; [exact Hnd |].
    apply fmap_sublist. unfold group. apply sublist_filter.
Qed.

Lemma rollup_by_stable (srt : date_sort) (g : list DailyFact) :
  sorts_by_date srt → NoDup (map (λ r, day_of (date_rapport r)) g) →
  _rollup_by srt g = _rollup g.
Proof.
  intros Hsrt Hnd. unfold _rollup_by, _rollup.
  by rewrite (sorts_as_stable srt date_rapport g Hsrt Hnd).
Qed.

Lemma transitions_by_stable (srt : date_sort) (sub : list RolledAction) :
  sorts_by_date srt →
  NoDup (map (λ x, day_of (date_rapport (fact x))) sub) →
  _transitions_by srt sub = _transitions sub.
Proof.
  intros Hsrt Hnd. unfold _transitions_by, _transitions, diff_rows_by, diff_rows.
  by rewrite (sorts_as_stable srt (λ r, date_rapport (fact r)) sub Hsrt Hnd).
Qed.

(** When no action has two rows of the same day, the tables do not
    depend on the sort of the single-column [sort_values]. *)
Lemma tables_of_daily_any_sort (srt : date_sort) (daily : list DailyFact) :
  sorts_by_date srt → one_row_a_day daily →
  tables_of_daily_by srt daily = tables_of_daily daily.
Proof.
  intros Hsrt Hday. unfold tables_of_daily_by, tables_of_daily.
  set (ds := sort_values (by_key_date action_key date_rapport) daily).
  assert (groupby_apply action_key (_rollup_by srt) ds
          = groupby_apply action_key _rollup ds) as ->.
  { unfold groupby_apply. apply bind_ext_in. intros k _.
    apply rollup_by_stable; [done |]. by apply group_days. }
  set (rolled := groupby_apply action_key _rollup ds).
  assert (groupby_apply (λ r, action_key (fact r)) (_transitions_by srt) rolled
          = groupby_apply (λ r, action_key (fact r)) _transitions rolled) as ->.
  { unfold groupby_apply. apply bind_ext_in. intros k _.
    apply transitions_by_stable; [done |].
    unfold rolled. rewrite group_rolled.
    rewrite <- (map_map fact (λ r, day_of (date_rapport r))), rollup_fact.
    rewrite !map_fmap.
    rewrite sort_values_Permutation. rewrite <- map_fmap. by apply group_days. }
  done.
Qed.

(** X13.  When no action has two rows of the same day, then whatever
    the sort of the single-column [sort_values] does, every row of
    [transitions] describes at least one change, and none describes
    [termine] going from true to false: the latch of the roll-up never
    reopens an action.  With two rows of one day the order of the two
    is the sort's, and an action can be reported as reopened. *)
Theorem termine_never_reopens (srt : date_sort) (daily : list DailyFact)
    (e : TransitionEvent) :
  sorts_by_date srt → one_row_a_day daily →
  e ∈ transitions (tables_of_daily_by srt daily) →
  change_desc e ≠ []
  ∧ str_contains (py "termine: True -> False") (change_desc e) = false.
Proof.
  intros Hsrt Hday. rewrite (tables_of_daily_any_sort srt daily Hsrt Hday).
  intros (g & row & Hrow & _ & Hch & ->)%transitions_rows.
  destruct (diff_from_row _ _ _ _ _ Hrow) as (_ & Et & Ee & Er & Hlatch).
  specialize (Hlatch (rollup_latched g) ltac:(done)).
  cbn [change_desc event_of]. unfold any_changed in Hch.
  destruct row as [k d t en r pt ct pe ce pr cr]. cbn in *. subst ct ce cr.
  destruct pt, t; try (by discriminate (Hlatch eq_refl));
    destruct pe, en, pr, r; try discriminate Hch;
    (split; [by vm_compute | vm_compute; reflexivity]).
Qed.

(** X14.  Every row of [transitions] is a row of the consistent table:
    it has the key, the date and the three final flags of one of its
    rows; and there are at most as many transitions as rows. *)
Theorem transitions_are_rows (daily : list DailyFact) :
  let t := tables_of_daily daily in
  (∀ e, e ∈ transitions t →
        ∃ r, r ∈ actions_consistent t
             ∧ action_key r = tr_action_key e
             ∧ date_rapport r = tr_date_rapport e
             ∧ termine r = tr_termine e
             ∧ en_cours r = tr_en_cours e
             ∧ reporte r = tr_reporte e)
  ∧ (length (transitions t) ≤ length (actions_consistent t))%nat.
Proof.
  intros t. split.
  - intros e (g & row & Hrow & Hin & _ & ->)%transitions_rows.
    destruct (diff_from_row _ _ _ _ _ Hrow)
      as ((x & Hx & Hk & Hd & Ht & He & Hr) & _).
    exists (consistent_row x). split.
    + subst t. unfold tables_of_daily. cbn [actions_consistent].
      rewrite map_fmap. apply list_elem_of_fmap. exists x. split; [done |].
      by apply Hin.
    + cbn. by rewrite Hk, Hd, Ht, He, Hr.
  - subst t. unfold tables_of_daily. cbn [transitions actions_consistent].
    rewrite length_map. apply length_groupby_apply. intros g.
    rewrite transitions_scan, length_map.
    etrans; [apply length_filter |].
    assert (∀ l pt pe pr, length (diff_from pt pe pr l) = length l) as Hlen.
    { induction l as [| x l IH]; intros pt pe pr; cbn [diff_from length]; [done |].
      by rewrite IH. }
    by rewrite Hlen, (Permutation_length (sort_values_Permutation _ g)).
Qed.

(** ** The date filters *)

(** X15.  [clamp_date] returns the value, [lo] or [hi].  When
    [lo <= hi] the result lies between them, a value between them is
    returned as it is, and clamping twice is clamping once.  When
    [hi < lo] a value between them is moved to [lo], which is outside
    the interval it was asked for. *)
Theorem clamp_date_within (value lo hi : Z) :
  (clamp_date value lo hi = value ∨ clamp_date value lo hi = lo
   ∨ clamp_date value lo hi = hi)
  ∧ (lo ≤ hi →
     lo ≤ clamp_date value lo hi ≤ hi
     ∧ (lo ≤ value ≤ hi → clamp_date value lo hi = value)
     ∧ clamp_date (clamp_date value lo hi) lo hi = clamp_date value lo hi)
  ∧ (hi < value < lo → clamp_date value lo hi = lo).
Proof.
  unfold clamp_date.
  destruct (value <? lo) eqn:E1; [apply Z.ltb_lt in E1 | apply Z.ltb_ge in E1].
  - split; [auto |]. split; [| done]. intros Hle.
    rewrite Z.ltb_irrefl. rewrite (proj2 (Z.ltb_ge hi lo)) by lia.
    split; [lia |]. split; [lia | done].
  - destruct (hi <? value) eqn:E2; [apply Z.ltb_lt in E2 | apply Z.ltb_ge in E2].
    + split; [auto |]. split; [| lia]. intros Hle.
      rewrite (proj2 (Z.ltb_ge hi lo)) by lia. rewrite Z.ltb_irrefl.
      split; [lia |]. split; [lia | done].
    + split; [auto |]. split; [| lia]. intros Hle.
      rewrite (proj2 (Z.ltb_ge value lo)) by lia.
      rewrite (proj2 (Z.ltb_ge hi value)) by lia. split; [lia | done].
Qed.

Lemma foldr_min_le (d : Z) (ds : list Z) :
  foldr Z.min d ds ≤ d ∧ Forall (λ x, foldr Z.min d ds ≤ x) ds
  ∧ foldr Z.min d ds ∈ d :: ds.
Proof.
  induction ds as [| x ds (IH1 & IH2 & IH3)]; cbn [foldr].
  - split; [lia |]. split; [constructor | left].
  - split; [lia |]. split.
    + constructor; [lia |]. eapply Forall_impl; [exact IH2 |]. intros y. simpl. lia.
    + destruct (Z.min_spec x (foldr Z.min d ds)) as [[_ ->] | [_ ->]].
      * right. left.
      * apply elem_of_cons in IH3 as [-> | IH3]; [left | right; by right].
Qed.

Lemma foldr_max_ge (d : Z) (ds : list Z) :
  d ≤ foldr Z.max d ds ∧ Forall (λ x, x ≤ foldr Z.max d ds) ds
  ∧ foldr Z.max d ds ∈ d :: ds.
Proof.
  induction ds as [| x ds (IH1 & IH2 & IH3)]; cbn [foldr].
  - split; [lia |]. split; [constructor | left].
  - split; [lia |]. split.
    + constructor; [lia |]. eapply Forall_impl; [exact IH2 |]. intros y. simpl. lia.
    + destruct (Z.max_spec x (foldr Z.max d ds)) as [[_ ->] | [_ ->]].
      * apply elem_of_cons in IH3 as [-> | IH3]; [left | right; by right].
      * right. left.
Qed.

Lemma elem_of_dates (df : list DailyFact) (x : Z) :
  x ∈ omap (λ r, ts_day <$> date_rapport r) df
  ↔ ∃ r d, r ∈ df ∧ date_rapport r = Some d ∧ ts_day d = x.
Proof.
  rewrite list_elem_of_omap. split.
  - intros (r & Hr & Hd). destruct (date_rapport r) as [d|] eqn:E; [| done].
    injection Hd as <-. by exists r, d.
  - intros (r & d & Hr & Hd & <-). exists r. by rewrite Hd.
Qed.

(** The bounds on a table with a dated row: each is the day of a row,
    and they enclose the day of every dated row. *)
Lemma date_bounds_dated (today : Z) (tables : Tables) :
  (∃ r d, r ∈ actions_daily tables ∧ date_rapport r = Some d) →
  let lo := (date_bounds_from_tables today tables).1 in
  let hi := (date_bounds_from_tables today tables).2 in
  (∀ r d, r ∈ actions_daily tables → date_rapport r = Some d → lo ≤ ts_day d ≤ hi)
  ∧ (∃ r d, r ∈ actions_daily tables ∧ date_rapport r = Some d ∧ ts_day d = lo)
  ∧ (∃ r d, r ∈ actions_daily tables ∧ date_rapport r = Some d ∧ ts_day d = hi).
Proof.
  intros (r0 & t0 & Hr0 & Hd0) lo hi. subst lo hi.
  unfold date_bounds_from_tables. cbv zeta.
  pose proof (elem_of_dates (actions_daily tables)) as Hdates.
  case_bool_decide as Hnil; [rewrite Hnil in Hr0; by apply elem_of_nil in Hr0 |].
  destruct (omap _ (actions_daily tables)) as [| d0 ds] eqn:E; cbn [fst snd].
  { exfalso. eapply elem_of_nil. apply Hdates. eauto. }
  destruct (foldr_min_le d0 ds) as (Hmin0 & Hmin & Hmin_in).
  destruct (foldr_max_ge d0 ds) as (Hmax0 & Hmax & Hmax_in).
  split; [| split].
  - intros r d Hr Hd.
    assert (ts_day d ∈ d0 :: ds) as Hin by (apply Hdates; eauto).
    rewrite Forall_forall in Hmin, Hmax.
    apply elem_of_cons in Hin as [-> | Hin]; [lia |].
    specialize (Hmin _ Hin). specialize (Hmax _ Hin). simpl in *. lia.
  - apply Hdates in Hmin_in as (r & d & ? & ? & ?). eauto.
  - apply Hdates in Hmax_in as (r & d & ? & ? & ?). eauto.
Qed.

Lemma date_bounds_ordered (today : Z) (tables : Tables) :
  (date_bounds_from_tables today tables).1 ≤ (date_bounds_from_tables today tables).2.
Proof.
  unfold date_bounds_from_tables. cbv zeta.
  case_bool_decide; [simpl; lia |].
  destruct (omap _ _) as [| d0 ds]; cbn [fst snd]; [lia |].
  destruct (foldr_min_le d0 ds) as (? & _), (foldr_max_ge d0 ds) as (? & _). lia.
Qed.

(** X16.  The bounds of [date_bounds_from_tables] are in order and
    enclose the date of every dated row of the daily table.  When the
    table has a dated row, each bound is the day of one of its rows,
    and the clock plays no part; it is only when no row has a date
    that both bounds are today. *)
Theorem date_bounds_enclose (today : Z) (tables : Tables) :
  let lo := (date_bounds_from_tables today tables).1 in
  let hi := (date_bounds_from_tables today tables).2 in
  lo ≤ hi
  ∧ (∀ r d, r ∈ actions_daily tables → date_rapport r = Some d →
            lo ≤ ts_day d ≤ hi)
  ∧ ((∃ r d, r ∈ actions_daily tables ∧ date_rapport r = Some d) →
     (∃ r d, r ∈ actions_daily tables ∧ date_rapport r = Some d ∧ ts_day d = lo)
     ∧ (∃ r d, r ∈ actions_daily tables ∧ date_rapport r = Some d ∧ ts_day d = hi))
  ∧ ((∀ r, r ∈ actions_daily tables → date_rapport r = None) →
     lo = today ∧ hi = today).
Proof.
  intros lo hi. split; [apply date_bounds_ordered |]. split; [| split].
  - intros r d Hr Hd.
    destruct (date_bounds_dated today tables) as (Hin & _); [by eauto |].
    by apply (Hin r d).
  - intros Hdated. by destruct (date_bounds_dated today tables Hdated) as (_ & ? & ?).
  - intros Hnone. subst lo hi. unfold date_bounds_from_tables. cbv zeta.
    case_bool_decide; [done |].
    destruct (omap _ (actions_daily tables)) as [| d0 ds] eqn:E; [done |].
    exfalso. assert (d0 ∈ d0 :: ds) as Hin by left.
    rewrite <- E in Hin. apply elem_of_dates in Hin as (r & d & Hr & Hd & _).
    by rewrite (Hnone r Hr) in Hd.
Qed.

Lemma clamp_date_in (value lo hi : Z) : lo ≤ hi → lo ≤ clamp_date value lo hi ≤ hi.
Proof.
  intros Hle. unfold clamp_date.
  destruct (value <? lo) eqn:E1; [lia |]. apply Z.ltb_ge in E1.
  destruct (hi <? value) eqn:E2; [lia |]. apply Z.ltb_ge in E2. lia.
Qed.

Lemma clamp_date_id (value lo hi : Z) :
  lo ≤ value ≤ hi → clamp_date value lo hi = value.
Proof.
  intros Hle. unfold clamp_date.
  by rewrite (proj2 (Z.ltb_ge value lo)), (proj2 (Z.ltb_ge hi value)) by lia.
Qed.

(** X17.  After [normalize_date_filters] the two filter dates of the
    session are set, in order, and within the bounds of the data:
    [lo <= dmin <= dmax <= hi].  Unset filters become the bounds
    themselves, filters already in order within the bounds are kept,
    and a second call changes nothing.  The other fields of the session
    are left as they were. *)
Theorem normalize_date_filters_window (today : Z) (ss : Session) (tables : Tables) :
  let '(ss', (lo, hi, dmin, dmax)) := normalize_date_filters today ss tables in
  (lo, hi) = date_bounds_from_tables today tables
  ∧ lo ≤ dmin ≤ dmax ∧ dmax ≤ hi
  ∧ filter_dmin ss' = Some dmin ∧ filter_dmax ss' = Some dmax
  ∧ (filter_dmin ss = None → filter_dmax ss = None → dmin = lo ∧ dmax = hi)
  ∧ (∀ a b, filter_dmin ss = Some a → filter_dmax ss = Some b →
            lo ≤ a ≤ b → b ≤ hi → dmin = a ∧ dmax = b)
  ∧ normalize_date_filters today ss' tables = (ss', (lo, hi, dmin, dmax))
  ∧ tables_full ss' = tables_full ss ∧ tables_view ss' = tables_view ss
  ∧ counts_view ss' = counts_view ss
  ∧ last_run_file_hash ss' = last_run_file_hash ss
  ∧ last_run_start_sheet ss' = last_run_start_sheet ss
  ∧ last_run_end_sheet ss' = last_run_end_sheet ss.
Proof.
  unfold normalize_date_filters.
  pose proof (date_bounds_ordered today tables) as Hord.
  destruct (date_bounds_from_tables today tables) as [lo hi]. cbn [fst snd] in Hord.
  set (a := match filter_dmin ss with None => lo | Some d => d end).
  set (b := match filter_dmax ss with None => hi | Some d => d end).
  pose proof (clamp_date_in a lo hi Hord) as Ha.
  pose proof (clamp_date_in b lo hi Hord) as Hb.
  destruct (clamp_date b lo hi <? clamp_date a lo hi) eqn:E;
    [apply Z.ltb_lt in E | apply Z.ltb_ge in E]; cbn [filter_dmin filter_dmax
      tables_full tables_view counts_view last_run_file_hash last_run_start_sheet
      last_run_end_sheet].
  - split; [done |]. split; [lia |]. split; [lia |]. split; [done |]. split; [done |].
    split.
    { intros Hn1 Hn2. subst a b. rewrite Hn1, Hn2 in E.
      rewrite !clamp_date_id in E by lia. lia. }
    split.
    { intros x y Hx Hy Hxy Hyh. subst a b. rewrite Hx, Hy in E.
      rewrite !clamp_date_id in E by lia. lia. }
    split; [| done].
    rewrite (clamp_date_id (clamp_date b lo hi)), (clamp_date_id (clamp_date a lo hi))
      by lia.
    by rewrite (proj2 (Z.ltb_ge _ _)) by lia.
  - split; [done |]. split; [lia |]. split; [lia |]. split; [done |]. split; [done |].
    split.
    { intros Hn1 Hn2. subst a b. rewrite Hn1, Hn2. by rewrite !clamp_date_id by lia. }
    split.
    { intros x y Hx Hy Hxy Hyh. subst a b. rewrite Hx, Hy.
      by rewrite !clamp_date_id by lia. }
    split; [| done].
    rewrite (clamp_date_id (clamp_date b lo hi)), (clamp_date_id (clamp_date a lo hi))
      by lia.
    by rewrite (proj2 (Z.ltb_ge _ _)) by lia.
Qed.

Lemma in_window_both (a b c d : Z) (x : option timestamp) :
  in_window a b x && in_window c d x = in_window (Z.max a c) (Z.min b d) x.
Proof.
  destruct x as [t|]; [| done]. cbn [in_window].
  apply eq_true_iff_eq.
  rewrite !andb_true_iff, !Z.leb_le. lia.
Qed.

Lemma filter_window {A} (date : A → option timestamp) (a b c d : Z) (l : list A) :
  filter (λ r, in_window c d (date r) = true)
         (filter (λ r, in_window a b (date r) = true) l)
  = filter (λ r, in_window (Z.max a c) (Z.min b d) (date r) = true) l.
Proof.
  rewrite list_filter_filter. apply list_filter_iff. intros r.
  rewrite <- in_window_both, andb_true_iff. tauto.
Qed.

Lemma tables_eq (t1 t2 : Tables) :
  actions_daily t1 = actions_daily t2 →
  actions_consistent t1 = actions_consistent t2 →
  actions_latest t1 = actions_latest t2 →
  ended_actions t1 = ended_actions t2 →
  running_actions t1 = running_actions t2 →
  postponed_actions t1 = postponed_actions t2 →
  equipment_downtime t1 = equipment_downtime t2 →
  transitions t1 = transitions t2 → t1 = t2.
Proof. destruct t1, t2. cbn. by intros -> -> -> -> -> -> -> ->. Qed.

(** X18.  Filtering by dates twice is filtering once by the
    intersection of the two windows, so filtering again by the same
    window changes nothing; a window whose bounds are out of order
    empties every table; and no count of [recount] grows. *)
Theorem filter_tables_by_dates_compose (tables : Tables) (a b c d : Z) :
  filter_tables_by_dates (filter_tables_by_dates tables a b) c d
  = filter_tables_by_dates tables (Z.max a c) (Z.min b d)
  ∧ filter_tables_by_dates (filter_tables_by_dates tables a b) a b
    = filter_tables_by_dates tables a b
  ∧ (b < a → filter_tables_by_dates tables a b = mkTables [] [] [] [] [] [] [] [])
  ∧ Forall2 (λ n m, n.1 = m.1 ∧ (n.2 ≤ m.2)%nat)
            (recount (filter_tables_by_dates tables a b)) (recount tables).
Proof.
  assert (∀ c d, filter_tables_by_dates (filter_tables_by_dates tables a b) c d
                 = filter_tables_by_dates tables (Z.max a c) (Z.min b d)) as Hcomp.
  { intros c' d'. apply tables_eq; cbn; apply filter_window. }
  split; [apply Hcomp |]. split; [| split].
  - by rewrite Hcomp, Z.max_id, Z.min_id.
  - intros Hlt.
    assert (∀ x, in_window a b x = true → False) as Hout.
    { intros [t|]; cbn [in_window]; [| done].
      rewrite andb_true_iff, !Z.leb_le. lia. }
    apply tables_eq; cbn; apply filter_none, Forall_forall; intros r _ Hr;
      exact (Hout _ Hr).
  - unfold recount. cbn.
    repeat (constructor; [split; [done | apply length_filter] |]). constructor.
Qed.

Lemma filter_comm {A} (P Q : A → Prop) `{∀ x, Decision (P x)} `{∀ x, Decision (Q x)}
    (l : list A) :
  filter P (filter Q l) = filter Q (filter P l).
Proof.
  induction l as [| x l IH]; [done |].
  rewrite !(filter_cons _ x).
  destruct (decide (P x)), (decide (Q x));
    rewrite ?filter_cons_True, ?filter_cons_False by done; by rewrite IH.
Qed.

(** X19.  The views stay what they are under the date filter: in the
    filtered tables of a build, [ended_actions], [running_actions] and
    [postponed_actions] are still the rows of the filtered
    [actions_latest] with the flags of that view, and
    [equipment_downtime] is still the rows of the filtered
    [actions_daily] marked [indisponible].  The filtered
    [actions_latest] itself is not recomputed: it holds the latest rows
    of the whole period that fall in the window. *)
Theorem filter_keeps_views (daily : list DailyFact) (dmin dmax : Z) :
  let v := filter_tables_by_dates (tables_of_daily daily) dmin dmax in
  ended_actions v = filter (λ r, la_termine r = true) (actions_latest v)
  ∧ running_actions v
    = filter (λ r, negb (la_termine r) && la_en_cours r = true) (actions_latest v)
  ∧ postponed_actions v
    = filter (λ r, negb (la_termine r) && la_reporte r = true) (actions_latest v)
  ∧ equipment_downtime v = filter (λ r, indisponible r = true) (actions_daily v)
  ∧ actions_latest v
    = filter (λ r, in_window dmin dmax (la_date_rapport r) = true)
             (actions_latest (tables_of_daily daily)).
Proof.
  intros v. subst v. unfold filter_tables_by_dates, tables_of_daily. cbn.
  split; [apply filter_comm |]. split; [apply filter_comm |].
  split; [apply filter_comm |]. split; [apply filter_comm | done].
Qed.

Lemma date_bounds_clock (today today' : Z) (tables : Tables) :
  (∃ r d, r ∈ actions_daily tables ∧ date_rapport r = Some d) →
  date_bounds_from_tables today tables = date_bounds_from_tables today' tables.
Proof.
  intros (r & d & Hr & Hd). unfold date_bounds_from_tables. cbv zeta.
  case_bool_decide as Hnil; [rewrite Hnil in Hr; by apply elem_of_nil in Hr |].
  destruct (omap _ (actions_daily tables)) as [| d0 ds] eqn:E; [| done].
  exfalso. eapply elem_of_nil. rewrite <- E. apply elem_of_dates. eauto.
Qed.

Lemma filter_window_all (dmin dmax : Z) (df : list DailyFact) :
  (∀ r d, r ∈ df → date_rapport r = Some d → dmin ≤ ts_day d ≤ dmax) →
  filter (λ r, in_window dmin dmax (date_rapport r) = true) df
  = filter (λ r, date_rapport r ≠ None) df.
Proof.
  intros Hin. induction df as [| r df IH]; [done |].
  rewrite !(filter_cons _ r), IH by (intros r' d Hr'; apply Hin; by right).
  destruct (date_rapport r) as [d|] eqn:Hd; cbn [in_window].
  - destruct (Hin r d ltac:(left) Hd) as [H1 H2].
    rewrite (proj2 (Z.leb_le _ _) H1), (proj2 (Z.leb_le _ _) H2). cbn [andb].
    by rewrite !decide_True by done.
  - rewrite decide_False by done. by rewrite decide_False by (by intros []).
Qed.

Lemma forallb_false {A} (f : A → bool) (l : list A) :
  forallb f l = false → ∃ x, x ∈ l ∧ f x = false.
Proof.
  induction l as [| x l IH]; [done |]. cbn [forallb].
  destruct (f x) eqn:Hx; cbn [andb].
  - intros (y & Hy & Hf)%IH. exists y. split; [by right | done].
  - intros _. exists x. split; [left | done].
Qed.

Section Run.
Context `{PyRuntime}.
Variable sha1 : list N → pystr.

(** A successful build has a dated row. *)
Lemma build_has_date (fs : FileSystem) (tmp_path : pystr) (file_bytes : list N)
    (start_sheet end_sheet : Z) (t : Tables) :
  outcome (build_week_tables_from_excel_bytes fs tmp_path file_bytes
             start_sheet end_sheet).2 = inr t →
  ∃ r d, r ∈ actions_daily t ∧ date_rapport r = Some d.
Proof.
  rewrite build_result. intros Ht.
  apply outcome_bind_inv in Ht as (frames & _ & Ht).
  apply outcome_bind_inv in Ht as (daily & Hdaily & Ht).
  simpl in Ht. injection Ht as <-. cbn [actions_daily tables_of_daily].
  unfold daily_of_frames in Hdaily. case_bool_decide; [discriminate |].
  destruct (forallb _ _) eqn:Hall; [discriminate |]. injection Hdaily as <-.
  apply forallb_false in Hall as (r & Hr & Hd).
  apply bool_decide_eq_false in Hd.
  destruct (date_rapport r) as [d|] eqn:E; [by exists r, d | done].
Qed.

(** X20.  [run_pipeline_excel_only] on a build that raises leaves the
    session as it was and lets the exception through.  On a build that
    returns, the session holds the tables, the range of the run, and a
    view that is the tables filtered by a window [fmin <= fmax] lying
    within the first and the last report dates of the data, with the
    counts of that view; when the session had no filter dates the view
    keeps every dated row of the daily table.  In no case does the
    result depend on the clock. *)
Theorem run_pipeline_view (today : Z) (fs : FileSystem) (tmp_path : pystr)
    (ss : Session) (file_bytes : list N) (start_sheet end_sheet : Z) :
  let build := build_week_tables_from_excel_bytes fs tmp_path file_bytes
                 start_sheet end_sheet in
  let '(fs', ss', r) := run_pipeline_excel_only sha1 today fs tmp_path ss
                          file_bytes start_sheet end_sheet in
  fs' = build.1 ∧ trace r = trace build.2
  ∧ match outcome build.2 with
    | inl e => outcome r = inl e ∧ ss' = ss
    | inr t =>
        outcome r = inr tt
        ∧ tables_full ss' = Some t
        ∧ last_run_file_hash ss' = Some (sha1 file_bytes)
        ∧ last_run_start_sheet ss' = Some start_sheet
        ∧ last_run_end_sheet ss' = Some end_sheet
        ∧ ∃ lo hi fmin fmax,
            (∃ r d, r ∈ actions_daily t ∧ date_rapport r = Some d ∧ ts_day d = lo)
            ∧ (∃ r d, r ∈ actions_daily t ∧ date_rapport r = Some d ∧ ts_day d = hi)
            ∧ lo ≤ fmin ≤ fmax ∧ fmax ≤ hi
            ∧ filter_dmin ss' = Some fmin ∧ filter_dmax ss' = Some fmax
            ∧ tables_view ss' = Some (filter_tables_by_dates t fmin fmax)
            ∧ counts_view ss' = Some (recount (filter_tables_by_dates t fmin fmax))
            ∧ (filter_dmin ss = None → filter_dmax ss = None →
               actions_daily (filter_tables_by_dates t fmin fmax)
               = filter (λ r, date_rapport r ≠ None) (actions_daily t))
    end
  ∧ ∀ today',
      run_pipeline_excel_only sha1 today' fs tmp_path ss file_bytes
        start_sheet end_sheet
      = run_pipeline_excel_only sha1 today fs tmp_path ss file_bytes
          start_sheet end_sheet.
Proof.
  intros build.
  pose proof (build_has_date fs tmp_path file_bytes start_sheet end_sheet) as Hdated.
  fold build in Hdated.
  assert (∀ today',
            run_pipeline_excel_only sha1 today' fs tmp_path ss file_bytes
              start_sheet end_sheet
            = run_pipeline_excel_only sha1 today fs tmp_path ss file_bytes
                start_sheet end_sheet) as Hclock.
  { intros today'. unfold run_pipeline_excel_only. fold build.
    destruct build as [fs' run]. cbn [snd] in Hdated.
    destruct (outcome run) as [e | t]; [done |].
    unfold normalize_date_filters.
    by rewrite (date_bounds_clock today' today t (Hdated t eq_refl)). }
  unfold run_pipeline_excel_only at 1. fold build.
  destruct build as [fs' run]. cbn [fst snd] in *.
  destruct (outcome run) as [e | t] eqn:Hrun; [done |].
  specialize (Hdated t eq_refl).
  set (ss1 := mkSession (Some t) _ _ _ _ _ _ _).
  unfold normalize_date_filters.
  pose proof (date_bounds_ordered today t) as Hord.
  destruct (date_bounds_dated today t Hdated) as (Hin & Hlo & Hhi).
  destruct (date_bounds_from_tables today t) as [lo hi]. cbn [fst snd] in *.
  set (a := match filter_dmin ss1 with None => lo | Some d => d end).
  set (b := match filter_dmax ss1 with None => hi | Some d => d end).
  pose proof (clamp_date_in a lo hi Hord) as Ha.
  pose proof (clamp_date_in b lo hi Hord) as Hb.
  assert (filter_dmin ss = None → filter_dmax ss = None →
          clamp_date a lo hi = lo ∧ clamp_date b lo hi = hi) as Hfresh.
  { intros Hn1 Hn2. subst a b ss1. cbn [filter_dmin filter_dmax].
    rewrite Hn1, Hn2. by rewrite !clamp_date_id by lia. }
  destruct (clamp_date b lo hi <? clamp_date a lo hi) eqn:E;
    [apply Z.ltb_lt in E | apply Z.ltb_ge in E];
    cbn [tables_full last_run_file_hash last_run_start_sheet last_run_end_sheet
         filter_dmin filter_dmax tables_view counts_view sha1_bytes];
    (split; [done |]); (split; [done |]); (split; [| done]);
    (split; [done |]); (split; [done |]); (split; [done |]); (split; [done |]);
    (split; [done |]).
  - exists lo, hi, (clamp_date b lo hi), (clamp_date a lo hi).
    split; [done |]. split; [done |]. split; [lia |]. split; [lia |].
    split; [done |]. split; [done |]. split; [done |]. split; [done |].
    intros Hn1 Hn2. destruct (Hfresh Hn1 Hn2) as [E1 E2]. lia.
  - exists lo, hi, (clamp_date a lo hi), (clamp_date b lo hi).
    split; [done |]. split; [done |]. split; [lia |]. split; [lia |].
    split; [done |]. split; [done |]. split; [done |]. split; [done |].
    intros Hn1 Hn2. destruct (Hfresh Hn1 Hn2) as [-> ->].
    cbn [actions_daily filter_tables_by_dates]. by apply filter_window_all.
Qed.

End Run.

(** ** Names for the export *)

Lemma sanitize_sheet_name_fixed (name : pystr) :
  name ≠ [] → (length name ≤ 31)%nat →
  Forall (λ c, c ∉ sheet_name_forbidden) name →
  sanitize_sheet_name name = name.
Proof.
  intros Hne Hlen Hok. unfold sanitize_sheet_name. cbv zeta.
  assert (map (λ c, if bool_decide (c ∈ sheet_name_forbidden) then 95%N else c) name
          = name) as ->.
  { rewrite <- (map_id name) at 2. apply map_ext_in. intros c Hc%list_elem_of_In.
    rewrite Forall_forall in Hok. by rewrite bool_decide_eq_false_2 by (by apply Hok). }
  destruct name as [| c name]; [done |]. by rewrite take_ge.
Qed.

(** X21.  [sanitize_sheet_name] always returns a name that Excel
    accepts for a sheet: not empty, at most 31 characters, and without
    any of the seven characters slash, backslash, question mark, star,
    square brackets and colon.  A name that already is such a name is
    returned as it is, so sanitising twice is sanitising once. *)
Theorem sanitize_sheet_name_valid (name : pystr) :
  let out := sanitize_sheet_name name in
  out ≠ [] ∧ (length out ≤ 31)%nat
  ∧ Forall (λ c, c ∉ sheet_name_forbidden) out
  ∧ sanitize_sheet_name out = out
  ∧ (name ≠ [] → (length name ≤ 31)%nat →
     Forall (λ c, c ∉ sheet_name_forbidden) name → out = name).
Proof.
  intros out.
  assert (out ≠ [] ∧ (length out ≤ 31)%nat
          ∧ Forall (λ c, c ∉ sheet_name_forbidden) out) as (Hne & Hlen & Hok).
  { subst out. unfold sanitize_sheet_name. cbv zeta.
    set (m := map _ name).
    assert (Forall (λ c, c ∉ sheet_name_forbidden) m) as Hm.
    { subst m. rewrite map_fmap. apply Forall_fmap, Forall_forall. intros c _. simpl.
      case_bool_decide as Hc; [| done].
      refine (bool_decide_unpack _ _). vm_compute. exact I. }
    split; [| split].
    - destruct m; [discriminate | by simpl].
    - rewrite length_take. lia.
    - apply Forall_take. destruct m; [| done].
      refine (bool_decide_unpack _ _). vm_compute. exact I. }
  split; [done |]. split; [done |]. split; [done |].
  split; [by apply sanitize_sheet_name_fixed |].
  apply sanitize_sheet_name_fixed.
Qed.

Lemma is_letter_word (c : N) : is_letter c = true → is_word_char c = true.
Proof. unfold is_word_char. intros ->. by rewrite orb_true_r. Qed.

(** X22.  [sanitize_table_name] always returns a name made of ASCII
    letters, digits and underscores that starts with a letter or an
    underscore; such a name is returned as it is, so sanitising twice
    is sanitising once.  On the names [tbl_...] that the export passes,
    the prefix [T_] is never added: only the characters outside the
    class are replaced. *)
Theorem sanitize_table_name_valid (name : pystr) :
  let out := sanitize_table_name name in
  Forall (λ c, is_word_char c = true) out
  ∧ (∃ c rest, out = c :: rest ∧ is_letter c = true)
  ∧ sanitize_table_name out = out
  ∧ sanitize_table_name (py "tbl_" ++ name)
    = py "tbl_" ++ map (λ c, if is_word_char c then c else 95%N) name.
Proof.
  intros out.
  assert (∀ s, Forall (λ c, is_word_char c = true) s →
               map (λ c, if is_word_char c then c else 95%N) s = s) as Hid.
  { intros s Hs. rewrite <- (map_id s) at 2. apply map_ext_in.
    intros c Hc%list_elem_of_In. rewrite Forall_forall in Hs. by rewrite Hs. }
  assert (Forall (λ c, is_word_char c = true) out
          ∧ ∃ c rest, out = c :: rest ∧ is_letter c = true) as [Hok Hstart].
  { subst out. unfold sanitize_table_name. cbv zeta. set (m := map _ name).
    assert (Forall (λ c, is_word_char c = true) m) as Hm.
    { subst m. rewrite map_fmap. apply Forall_fmap, Forall_forall. intros c _. simpl.
      by destruct (is_word_char c) eqn:E. }
    destruct m as [| c m]; cbn [negb].
    - split; [by repeat constructor | by exists 84%N, [95%N]].
    - destruct (is_letter c) eqn:Hc; cbn [negb].
      + split; [done | by exists c, m].
      + split; [| by eexists 84%N, _].
        apply Forall_app. split; [by repeat constructor | done]. }
  split; [done |]. split; [done |]. split.
  - unfold sanitize_table_name. cbv zeta. rewrite (Hid out Hok).
    destruct Hstart as (c & rest & -> & Hc). by rewrite Hc.
  - unfold sanitize_table_name. cbv zeta. by rewrite map_app.
Qed.

Lemma foldr_max_bound (d : Z) (ds : list Z) (w : Z) :
  foldr Z.max d ds ≤ w → d ≤ w ∧ Forall (λ x, x ≤ w) ds.
Proof.
  intros Hw. destruct (foldr_max_ge d ds) as (H0 & Hall & _).
  split; [lia |]. eapply Forall_impl; [exact Hall |]. intros x. simpl. lia.
Qed.

(** X23.  A width of [compute_col_widths] is never above [max_width],
    and never below 2 when [max_width] is at least 2.  A width below
    [max_width] leaves two characters beyond the label of the column
    and beyond the text of each of its cells. *)
Theorem compute_col_widths_fit (df : list (pystr * list pystr)) (max_width : Z) :
  length (compute_col_widths df max_width) = length df
  ∧ ∀ i col w,
      df !! i = Some col → compute_col_widths df max_width !! i = Some w →
      w ≤ max_width ∧ (2 ≤ max_width → 2 ≤ w)
      ∧ (w < max_width →
         Z.of_nat (length col.1) + 2 ≤ w
         ∧ Forall (λ x, Z.of_nat (length x) + 2 ≤ w) col.2).
Proof.
  unfold compute_col_widths. split; [by rewrite length_map |].
  intros i [label cells] w Hcol. rewrite map_fmap, list_lookup_fmap, Hcol.
  cbn [fmap option_fmap option_map fst snd]. intros [= <-].
  set (data_len := match cells with [] => 0 | x :: xs => _ end).
  assert (0 ≤ data_len ∧ Forall (λ x, Z.of_nat (length x) ≤ data_len) cells)
    as [Hpos Hcells].
  { subst data_len. destruct cells as [| x xs]; [split; [lia | constructor] |].
    destruct (foldr_max_ge (Z.of_nat (length x)) (map (λ y, Z.of_nat (length y)) xs))
      as (H0 & Hall & _).
    split; [lia |]. constructor; [done |].
    rewrite map_fmap, Forall_fmap in Hall. exact Hall. }
  split; [lia |]. split; [lia |]. intros Hlt.
  split; [lia |]. eapply Forall_impl; [exact Hcells |]. intros x. simpl. lia.
Qed.

(** ** Status counts and labels *)

Lemma flag_sum_filter {A} (f : A → bool) (l : list A) :
  flag_sum (map f l) = Z.of_nat (length (filter (λ r, f r = true) l)).
Proof.
  induction l as [| x l IH]; [done |]. cbn [map flag_sum foldr].
  fold (flag_sum (map f l)). rewrite IH, filter_cons.
  destruct (f x) eqn:Hx.
  - rewrite decide_True by done. cbn [length]. lia.
  - rewrite decide_False by done. lia.
Qed.

Lemma filter_ext_elem {A} (P Q : A → Prop) `{∀ x, Decision (P x)} `{∀ x, Decision (Q x)}
    (l : list A) :
  (∀ x, x ∈ l → P x ↔ Q x) → filter P l = filter Q l.
Proof.
  induction l as [| x l IH]; intros Hext; [done |].
  rewrite !(filter_cons _ x), IH by (intros y Hy; apply Hext; by right).
  destruct (decide (P x)) as [HP | HP], (decide (Q x)) as [HQ | HQ]; try done.
  - by apply (Hext x ltac:(left)) in HP.
  - by apply (Hext x ltac:(left)) in HQ.
Qed.

Lemma latest_termine_wins (daily : list DailyFact) (l : LatestAction) :
  l ∈ actions_latest (tables_of_daily daily) →
  la_termine l = true → la_en_cours l = false ∧ la_reporte l = false.
Proof.
  intros (g & x & Hx & ->)%latest_elem. cbn. by eapply rollup_termine_wins.
Qed.

Lemma views_of_latest (daily : list DailyFact) :
  let t := tables_of_daily daily in
  ended_actions t = filter (λ r, la_termine r = true) (actions_latest t)
  ∧ running_actions t
    = filter (λ r, negb (la_termine r) && la_en_cours r = true) (actions_latest t)
  ∧ postponed_actions t
    = filter (λ r, negb (la_termine r) && la_reporte r = true) (actions_latest t).
Proof. done. Qed.

(** X24.  The three indicators of the application, computed as sums of
    the flags of [actions_latest], are the numbers of rows of
    [ended_actions], [running_actions] and [postponed_actions]: on the
    tables of a build, and on these tables filtered by dates. *)
Theorem kpi_counts_are_view_sizes (daily : list DailyFact) :
  let t := tables_of_daily daily in
  let sizes := λ v, (Z.of_nat (length (ended_actions v)),
                     Z.of_nat (length (running_actions v)),
                     Z.of_nat (length (postponed_actions v))) in
  kpi_counts (actions_latest t) = sizes t
  ∧ ∀ dmin dmax,
      kpi_counts (actions_latest (filter_tables_by_dates t dmin dmax))
      = sizes (filter_tables_by_dates t dmin dmax).
Proof.
  intros t sizes.
  assert (∀ (P : LatestAction → Prop) `{∀ x, Decision (P x)},
            let l := filter P (actions_latest t) in
            kpi_counts l
            = (Z.of_nat (length (filter P (ended_actions t))),
               Z.of_nat (length (filter P (running_actions t))),
               Z.of_nat (length (filter P (postponed_actions t))))) as Hgen.
  { intros P HP l. subst l t.
    destruct (views_of_latest daily) as (-> & -> & ->).
    set (latest := actions_latest (tables_of_daily daily)).
    assert (∀ x, x ∈ filter P latest →
                 la_termine x = true → la_en_cours x = false ∧ la_reporte x = false)
      as Hwins.
    { intros x [_ Hx]%list_elem_of_filter. by apply (latest_termine_wins daily). }
    rewrite !(filter_comm P). unfold kpi_counts. case_bool_decide as Hnil.
    - by rewrite Hnil.
    - rewrite !flag_sum_filter. f_equal; [f_equal |]; do 2 f_equal;
        apply filter_ext_elem; intros x Hx; specialize (Hwins x Hx);
        destruct (la_termine x), (la_en_cours x), (la_reporte x); cbn;
        try tauto; destruct (Hwins eq_refl); done. }
  split.
  - specialize (Hgen (λ _, True) _). cbv zeta in Hgen.
    rewrite !filter_all in Hgen by (by apply Forall_forall). exact Hgen.
  - intros dmin dmax. subst sizes. cbn [filter_tables_by_dates ended_actions
      running_actions postponed_actions actions_latest].
    apply (Hgen (λ r, in_window dmin dmax (la_date_rapport r) = true)).
Qed.

(** X25.  The label that the status chart gives to a row of
    [actions_latest] follows the order done, postponed, in progress:
    the rows labelled done are those of [ended_actions], the rows
    labelled postponed are those of [postponed_actions], also when they
    are in [running_actions] as well; every other row is labelled in
    progress, among them the rows without any status, which are in
    none of the three views. *)
Theorem statut_follows_views (daily : list DailyFact) (l : LatestAction) :
  let t := tables_of_daily daily in
  l ∈ actions_latest t →
  (statut l = py "Termin" ++ [233%N] ↔ l ∈ ended_actions t)
  ∧ (statut l = py "Report" ++ [233%N] ↔ l ∈ postponed_actions t)
  ∧ (statut l = py "En cours" ↔ (l ∉ ended_actions t) ∧ (l ∉ postponed_actions t))
  ∧ (l ∈ running_actions t → (l ∉ postponed_actions t) → statut l = py "En cours")
  ∧ (la_termine l = false → la_en_cours l = false → la_reporte l = false →
     statut l = py "En cours" ∧ (l ∉ running_actions t)).
Proof.
  intros t Hl. pose proof (latest_termine_wins daily l Hl) as Hwins.
  subst t. unfold tables_of_daily in *.
  cbn [ended_actions running_actions postponed_actions actions_latest] in *.
  rewrite !list_elem_of_filter. unfold statut.
  destruct (la_termine l), (la_en_cours l), (la_reporte l); cbn;
    repeat split; try done; try tauto; try (by intros [=]); try (by intros [[=] _]);
    try (intros [? ?]; done); try (intros ?; split; intros [? ?]; done).
Qed.

(** ** The range check and the sheet names *)

Section RangeCheck.
Context `{PyRuntime}.

Lemma raised_range_error {A} (msg : pystr) (start_sheet end_sheet total : Z) :
  outcome (raise (ValueError msg) : M A)
  = inl (ValueError (msg_invalid_range start_sheet end_sheet total)) →
  head msg = Some 80%N.
Proof.
  intros E.
  assert (msg = msg_invalid_range start_sheet end_sheet total) as ->
    by (unfold raise, outcome in E; cbn [snd] in E; congruence).
  reflexivity.
Qed.

Lemma sheets_loop_error (xls : Workbook) (idxs : list Z) (final_dfs : list Frame)
    (dates : list cell) (err : exn) :
  outcome (sheets_loop xls idxs final_dfs dates) = inl err →
  err = IndexError ∨ err = ValueError (py "Worksheet not found").
Proof.
  revert final_dfs dates. induction idxs as [| i idxs IH]; intros final_dfs dates.
  - done.
  - rewrite sheets_loop_cons.
    destruct (py_index (map fst xls) i) as [name|]; cbn [from_option];
      [| intros [= <-]; by left].
    change (lift_exn (inr name)) with (mret name : M pystr). rewrite bind_ret.
    unfold xls_parse. rewrite bind_assoc.
    rewrite (outcome_bind_inr (tell (Parse name)) _ tt) by done.
    destruct (sheet_by_name xls name) as [raw|].
    + rewrite bind_ret.
      destruct (clean_sheet name raw) as [e | [dt odf]] eqn:Hclean.
      * rewrite (outcome_bind_inl _ _ e) by done. intros [= <-].
        pose proof (clean_sheet_inv name raw) as Hinv.
        destruct (raw !! 4%nat); [destruct Hinv as [? Hinv]; congruence |].
        rewrite Hinv in Hclean. injection Hclean as <-. by left.
      * rewrite (outcome_bind_inr _ _ (dt, odf)) by done. cbn [fst snd].
        destruct odf; apply IH.
    + rewrite bind_raise. intros [= <-]. by right.
Qed.

(** The message of the range check starts with a capital P. *)
Lemma range_error_head (msg : pystr) (start_sheet end_sheet total : Z) :
  ValueError (msg_invalid_range start_sheet end_sheet total) = ValueError msg →
  head msg = Some 80%N.
Proof.
  intros E.
  assert (msg_invalid_range start_sheet end_sheet total = msg) as <- by congruence.
  reflexivity.
Qed.

(** X26.  The sheet count that the range check of the cleaning uses is
    the number of names that [excel_sheet_names_from_bytes] returns for
    the same bytes: a run fails with the range error exactly when
    [start_sheet < 1] or [end_sheet] is above that number, whatever the
    sheets hold.  The call leaves no temporary file behind. *)
Theorem range_check_matches_sheet_names (fs : FileSystem) (tmp_path : pystr)
    (file_bytes : list N) (names : list pystr) (start_sheet end_sheet : Z) :
  (excel_sheet_names_from_bytes fs tmp_path file_bytes).2 = inr names →
  (excel_sheet_names_from_bytes fs tmp_path file_bytes).1 = delete tmp_path fs
  ∧ (outcome (build_week_tables_from_excel_bytes fs tmp_path file_bytes
                start_sheet end_sheet).2
     = inl (ValueError (msg_invalid_range start_sheet end_sheet
                          (Z.of_nat (length names))))
     ↔ start_sheet < 1 ∨ Z.of_nat (length names) < end_sheet).
Proof.
  unfold excel_sheet_names_from_bytes. cbn [fst snd].
  rewrite lookup_insert_eq. cbn [mbind option_bind].
  destruct (excel_file file_bytes) as [xls|] eqn:Hxls; [| discriminate].
  intros [= <-]. split; [by rewrite delete_insert_eq |].
  rewrite build_result, Hxls. unfold clean_week_sheets. rewrite !length_map.
  destruct ((start_sheet <? 1) || (Z.of_nat (length xls) <? end_sheet)) eqn:Hchk.
  - split; [| done]. intros _.
    apply orb_true_iff in Hchk as [?%Z.ltb_lt | ?%Z.ltb_lt]; auto.
  - apply orb_false_iff in Hchk as [H1%Z.ltb_ge H2%Z.ltb_ge].
    split; [| lia]. intros Hfail. exfalso.
    destruct (outcome (sheets_loop xls
                (seqZ (start_sheet - 1) (end_sheet - (start_sheet - 1))) [] []))
      as [e | r] eqn:Hloop.
    + erewrite outcome_bind_inl in Hfail by exact Hloop.
      injection Hfail as ->.
      apply sheets_loop_error in Hloop as [Hc | Hc]; [discriminate Hc |].
      apply range_error_head in Hc. discriminate Hc.
    + erewrite outcome_bind_inr in Hfail by exact Hloop.
      destruct (outcome (daily_of_frames r.1)) as [e | daily] eqn:Hd.
      * erewrite outcome_bind_inl in Hfail by exact Hd. injection Hfail as ->.
        unfold daily_of_frames in Hd. case_bool_decide.
        -- apply raised_range_error in Hd. discriminate Hd.
        -- destruct (forallb _ _); [| done].
           apply raised_range_error in Hd. discriminate Hd.
      * erewrite outcome_bind_inr in Hfail by exact Hd. done.
Qed.

End RangeCheck.

(** ** The session after a run *)

Section AfterRun.
Context `{PyRuntime}.
Variable sha1 : list N → pystr.

(** X27.  After a run of [run_pipeline_excel_only] that succeeded,
    [needs_update] is false for the bytes and the range of that run, and
    true as soon as the start sheet, the end sheet or the hash of the
    bytes differs; without bytes it is false.  After a run that failed
    it answers as before the run. *)
Theorem needs_update_after_run (today : Z) (fs : FileSystem) (tmp_path : pystr)
    (ss : Session) (file_bytes : list N) (start_sheet end_sheet : Z) :
  let '(_, ss', r) := run_pipeline_excel_only sha1 today fs tmp_path ss
                        file_bytes start_sheet end_sheet in
  match outcome r with
  | inr _ =>
      needs_update sha1 ss' (Some file_bytes) start_sheet end_sheet = false
      ∧ (∀ s e, s ≠ start_sheet ∨ e ≠ end_sheet →
                needs_update sha1 ss' (Some file_bytes) s e = true)
      ∧ (∀ b, sha1 b ≠ sha1 file_bytes →
              needs_update sha1 ss' (Some b) start_sheet end_sheet = true)
      ∧ (∀ s e, needs_update sha1 ss' None s e = false)
  | inl _ => ∀ b s e, needs_update sha1 ss' b s e = needs_update sha1 ss b s e
  end.
Proof.
  unfold run_pipeline_excel_only.
  destruct (build_week_tables_from_excel_bytes _ _ _ _ _) as [fs' run].
  destruct (outcome run) as [e | t] eqn:Hrun; cbn [outcome snd]; [done |].
  unfold normalize_date_filters.
  destruct (date_bounds_from_tables today t) as [lo hi].
  cbn [filter_dmin filter_dmax].
  destruct (_ <? _); unfold needs_update;
    cbn [tables_full last_run_file_hash last_run_start_sheet last_run_end_sheet
         sha1_bytes];
    rewrite !bool_decide_eq_true_2 by done; cbn [negb orb];
    (split; [done |]); (split; [| split; [| done]]).
  - intros s e' [Hs | He].
    + rewrite (bool_decide_eq_false_2 (Some start_sheet = Some s)) by congruence.
      cbn [negb orb]. done.
    + rewrite (bool_decide_eq_false_2 (Some end_sheet = Some e')) by congruence.
      cbn [negb]. by rewrite orb_true_r.
  - intros b Hb.
    rewrite (bool_decide_eq_false_2 (Some (sha1 file_bytes) = Some (sha1 b)))
      by congruence. done.
  - intros s e' [Hs | He].
    + rewrite (bool_decide_eq_false_2 (Some start_sheet = Some s)) by congruence.
      cbn [negb orb]. done.
    + rewrite (bool_decide_eq_false_2 (Some end_sheet = Some e')) by congruence.
      cbn [negb]. by rewrite orb_true_r.
  - intros b Hb.
    rewrite (bool_decide_eq_false_2 (Some (sha1 file_bytes) = Some (sha1 b)))
      by congruence. done.
Qed.

End AfterRun.

(** ** Instances of the further properties *)

Lemma run_tables (rt : PyRuntime) (fs : FileSystem) (tmp_path : pystr)
    (file_bytes : list N) (start_sheet end_sheet : Z) :
  (if outcome (build_week_tables_from_excel_bytes fs tmp_path file_bytes
                 start_sheet end_sheet).2 is inr _ then true else false) = true →
  outcome (build_week_tables_from_excel_bytes fs tmp_path file_bytes
             start_sheet end_sheet).2
  = inr (match outcome (build_week_tables_from_excel_bytes fs tmp_path file_bytes
                          start_sheet end_sheet).2 with
         | inr t => t
         | inl _ => mkTables [] [] [] [] [] [] [] []
         end).
Proof. destruct (outcome _) as [e | t]; [discriminate | done]. Defined.

Lemma sheets_parsed_in_order_witness :
  let run := @clean_week_sheets Sample.runtime Sample.test_workbook 1 2 in
  let sheets := sheet_range Sample.test_workbook 1 2 in
  trace run `prefix_of` map (λ sh, Parse sh.1) sheets
  ∧ ∀ frames dates,
      outcome run = inr (frames, dates) →
      trace run = map (λ sh, Parse sh.1) sheets
      ∧ dates = map (λ sh, @_get_date_from_raw Sample.runtime sh.2) sheets
      ∧ (length frames ≤ length sheets)%nat.
Proof.
  apply (@sheets_parsed_in_order Sample.runtime Sample.test_workbook 1 2).
  - refine (bool_decide_unpack _ _). vm_compute. exact I.
  - lia.
  - vm_compute. discriminate.
Defined.

Lemma short_sheet_index_error_witness :
  outcome (@build_week_tables_from_excel_bytes Cases.runtime ∅ Sample.tmp_path
             Cases.short_bytes 1 3).2 = inl IndexError.
Proof.
  apply (@short_sheet_index_error Cases.runtime ∅ Sample.tmp_path Cases.short_bytes
           Cases.short_workbook 1 3).
  - reflexivity.
  - refine (bool_decide_unpack _ _). vm_compute. exact I.
  - lia.
  - vm_compute. discriminate.
  - refine (bool_decide_unpack _ _). vm_compute. exact I.
  - refine (bool_decide_unpack _ _). vm_compute. exact I.
Defined.

Lemma rows_carry_sheet_and_date_witness :
  let t := Sample.tables Sample.test_bytes 1 2 in
  (∀ r, r ∈ actions_daily t →
        ∃ name raw, (name, raw) ∈ sheet_range Sample.test_workbook 1 2
                    ∧ feuille r = Str name
                    ∧ date_rapport r
                      = as_date (@_get_date_from_raw Sample.runtime raw))
  ∧ (∀ r1 r2, r1 ∈ actions_daily t → r2 ∈ actions_daily t →
              feuille r1 = feuille r2 → date_rapport r1 = date_rapport r2).
Proof.
  apply (@rows_carry_sheet_and_date Sample.runtime ∅ Sample.tmp_path
           Sample.test_bytes Sample.test_workbook 1 2
           (Sample.tables Sample.test_bytes 1 2)).
  - reflexivity.
  - refine (bool_decide_unpack _ _). vm_compute. exact I.
  - apply tables_run. vm_compute. reflexivity.
Defined.

Lemma daily_rows_not_blank_witness :
  (∃ z, champ_zone (Sample.test_daily !!! 0%nat) = Str z)
  ∧ ∃ x, Str x ∈ descriptive_fields (Sample.test_daily !!! 0%nat)
         ∧ str_strip (@isspace Sample.runtime) x ≠ [].
Proof.
  apply (@daily_rows_not_blank Sample.runtime ∅ Sample.tmp_path
           Sample.test_bytes 1 2 (Sample.tables Sample.test_bytes 1 2)).
  - apply tables_run. vm_compute. reflexivity.
  - refine (bool_decide_unpack _ _). vm_compute. exact I.
Defined.

Lemma absent_flag_column_false_witness :
  length (actions_daily (Cases.tables Cases.plain_bytes 1 2)) = 3%nat
  ∧ equipment_downtime (Cases.tables Cases.plain_bytes 1 2) = [].
Proof.
  split; [vm_compute; reflexivity |].
  apply (@absent_flag_column_false Cases.runtime ∅ Sample.tmp_path
           Cases.plain_bytes Cases.plain_workbook 1 2
           (Cases.tables Cases.plain_bytes 1 2)).
  - reflexivity.
  - refine (bool_decide_unpack _ _). vm_compute. exact I.
  - apply (run_tables Cases.runtime). vm_compute. reflexivity.
  - refine (bool_decide_unpack _ _). vm_compute. exact I.
Defined.

Lemma to_bool_keeps_booleans_witness :
  (∀ bs : list bool,
     @to_bool Sample.runtime false (map Bool bs)
     = @to_bool Sample.runtime true (map Bool bs))
  ∧ (∀ col : list cell,
       @to_bool Sample.runtime false (@to_bool Sample.runtime false col)
       = @to_bool Sample.runtime false col)
  ∧ (∀ (col : list cell) (i : nat),
       col !! i = Some NaN → @to_bool Sample.runtime false col !! i = Some (Bool false)).
Proof.
  exact (@to_bool_keeps_booleans Sample.runtime (Ref_ascii Sample.decoder)).
Defined.

Lemma latest_is_last_report_witness :
  let t := tables_of_daily Sample.test_daily in
  let l := Cases.test_latest in
  (∃ r, r ∈ actions_daily t
        ∧ action_key r = la_action_key l
        ∧ date_rapport r = la_date_rapport l
        ∧ descriptive_fields r
          = [la_champ_zone l; la_plateforme_sous_zone l; la_num_puits l;
             la_tag_equipement l; la_sous_equipement l; la_metier l;
             la_travaux_commentaires l])
  ∧ ∀ r, r ∈ actions_daily t → action_key r = la_action_key l →
         date_leb (date_rapport r) (la_date_rapport l) = true.
Proof.
  apply (latest_is_last_report Sample.test_daily Cases.test_latest).
  refine (bool_decide_unpack _ _). vm_compute. exact I.
Defined.


Lemma termine_never_reopens_witness :
  change_desc Cases.test_event_reversing ≠ []
  ∧ str_contains (py "termine: True -> False")
      (change_desc Cases.test_event_reversing) = false.
Proof.
  apply (termine_never_reopens reversing_sort Sample.test_daily
           Cases.test_event_reversing).
  - exact reversing_sort_sorts.
  - refine (bool_decide_unpack _ _). vm_compute. exact I.
  - apply (list_elem_of_lookup_2 _ 0%nat). vm_compute. reflexivity.
Defined.

Lemma statut_follows_views_witness :
  let t := tables_of_daily Sample.test_daily in
  let l := Cases.test_latest in
  (statut l = py "Termin" ++ [233%N] ↔ l ∈ ended_actions t)
  ∧ (statut l = py "Report" ++ [233%N] ↔ l ∈ postponed_actions t)
  ∧ (statut l = py "En cours" ↔ (l ∉ ended_actions t) ∧ (l ∉ postponed_actions t))
  ∧ (l ∈ running_actions t → (l ∉ postponed_actions t) → statut l = py "En cours")
  ∧ (la_termine l = false → la_en_cours l = false → la_reporte l = false →
     statut l = py "En cours" ∧ (l ∉ running_actions t)).
Proof.
  apply (statut_follows_views Sample.test_daily Cases.test_latest).
  refine (bool_decide_unpack _ _). vm_compute. exact I.
Defined.

Lemma range_check_matches_sheet_names_witness :
  (@excel_sheet_names_from_bytes Sample.runtime ∅ Sample.tmp_path Sample.test_bytes).1
  = delete Sample.tmp_path ∅
  ∧ (outcome (@build_week_tables_from_excel_bytes Sample.runtime ∅ Sample.tmp_path
                Sample.test_bytes 3 5).2
     = inl (ValueError (msg_invalid_range 3 5 (Z.of_nat (length [py "S1"; py "S2"]))))
     ↔ 3 < 1 ∨ Z.of_nat (length [py "S1"; py "S2"]) < 5).
Proof.
  apply (@range_check_matches_sheet_names Sample.runtime ∅ Sample.tmp_path
           Sample.test_bytes [py "S1"; py "S2"] 3 5).
  vm_compute. reflexivity.
Defined.

(** ** Runs of the added functions *)

(** Two rows of one action on the same day: with the stable sort the
    action is done from its first row on; with the reversing sort its
    rows come out in the other order and [transitions] reports it as
    reopened. *)
Example same_day_transitions :
  map change_desc (transitions (tables_of_daily Cases.same_day_daily))
  = [ py "termine: False -> True" ]
  ∧ map change_desc
      (transitions (tables_of_daily_by reversing_sort Cases.same_day_daily))
    = [ py "termine: False -> True";
        py "termine: True -> False; en_cours: False -> True" ].
Proof. vm_compute. split; reflexivity. Qed.

Example run_pipeline_test :
  let '(fs, ss, r) :=
    @run_pipeline_excel_only Sample.runtime (λ b, Ref.sha1_hex (map Z.of_N b)) 0 ∅ Sample.tmp_path
      (mkSession None None None None None None None None) Sample.test_bytes 1 2 in
  fs = ∅ ∧ outcome r = inr tt
  ∧ filter_dmin ss = Some 19358 ∧ filter_dmax ss = Some 19359
  ∧ counts_view ss
    = Some [ (py "actions_daily", 4%nat); (py "actions_consistent", 4%nat);
             (py "actions_latest", 2%nat); (py "ended_actions", 1%nat);
             (py "running_actions", 0%nat); (py "postponed_actions", 1%nat);
             (py "equipment_downtime", 2%nat); (py "transitions", 3%nat) ].
Proof. vm_compute. repeat split; reflexivity. Qed.

Example sanitize_names_test :
  sanitize_sheet_name (py "Statut des actions (statut " ++ [224%N]
                       ++ py " la date de fin)")
  = py "Statut des actions (statut " ++ [224%N] ++ py " la"
  ∧ sanitize_sheet_name (py "a/b\c?d*e[f]g:h") = py "a_b_c_d_e_f_g_h"
  ∧ sanitize_sheet_name [] = py "Sheet"
  ∧ sanitize_table_name (py "tbl_Actions en cours") = py "tbl_Actions_en_cours"
  ∧ sanitize_table_name (py "9lives") = py "T_9lives"
  ∧ sanitize_table_name [] = py "T_"
  ∧ compute_col_widths [ (py "tag", [py "TAG1"; py "TAG-000002"]);
                         (py "travaux_commentaires", []) ] 12
    = [12; 12]
  ∧ compute_col_widths [ (py "tag", [py "TAG1"; py "TAG2"]) ] 50 = [6].
Proof. vm_compute. repeat split; reflexivity. Qed.
